(** * Mindcraft Andy API: registry, matcher, dispatcher, fallback and sanitizer

    A shallow embedding of [server_api/main.py].  Request bodies and backend
    replies are JSON values as Python sees them after [json.loads]; the
    process-wide globals [compute_providers] and [provider_counter] are an
    explicit [state] threaded through the view functions; a Python exception
    is a value of [exn], carried by the left injection of a sum. *)

From Stdlib Require Import ZArith QArith List String Ascii Bool Lia.
From Stdlib Require Import Permutation Sorted DecimalString DecimalZ.
Import ListNotations.

Local Open Scope string_scope.
Local Open Scope Z_scope.

(** ** Strings

    A Python [str] is modelled by [string]; an [ascii] stands for a code
    point below 256. *)

(** [s.startswith(p)] *)
Definition startswith (s p : string) : bool := String.prefix p s.

(** [s[n:]] *)
Fixpoint drop (n : nat) (s : string) : string :=
  match n, s with
  | O, _ => s
  | S _, EmptyString => EmptyString
  | S n', String _ s' => drop n' s'
  end.

(** The text that follows the leftmost occurrence of [pat] in [s], if any. *)
Fixpoint after_first (pat s : string) : option string :=
  if startswith s pat then Some (drop (String.length pat) s)
  else match s with
       | EmptyString => None
       | String _ s' => after_first pat s'
       end.

(** [pat in s] for two strings *)
Definition contains (pat s : string) : bool :=
  match after_first pat s with Some _ => true | None => false end.

(** The text before the leftmost occurrence of the character [sep]: the
    first element of [s.split(sep)]. *)
Fixpoint split_head (sep : ascii) (s : string) : string :=
  match s with
  | EmptyString => EmptyString
  | String c s' => if Ascii.eqb c sep then EmptyString else String c (split_head sep s')
  end.

(** [str.isspace] on a single character: the whitespace code points below
    256 are 9-13, 28-31, 32, 133 and 160. *)
Definition isspace (c : ascii) : bool :=
  let n := nat_of_ascii c in
  ((9 <=? n) && (n <=? 13) || (28 <=? n) && (n <=? 32)
   || (n =? 133) || (n =? 160))%nat.

Fixpoint lstrip (s : string) : string :=
  match s with
  | EmptyString => EmptyString
  | String c s' => if isspace c then lstrip s' else s
  end.

Fixpoint rstrip (s : string) : string :=
  match s with
  | EmptyString => EmptyString
  | String c s' =>
      match rstrip s' with
      | EmptyString => if isspace c then EmptyString else String c EmptyString
      | r => String c r
      end
  end.

(** [s.strip()] *)
Definition strip (s : string) : string := lstrip (rstrip s).

(** ** Response sanitizer *)

(** A match of [<think>.*?</think>] (with [re.DOTALL]) anchored at the start
    of [s]: the opening tag, then the shortest text up to a closing tag.
    The result is the text after the match. *)
Definition match_think (s : string) : option string :=
  if startswith s "<think>" then after_first "</think>" (drop 7 s) else None.

(** [re.sub(r"<think>.*?</think>", "", s, flags=re.DOTALL)]: scan from the
    left; where the pattern matches, drop the match and go on after it;
    elsewhere copy one character and move one position on.  A match is never
    empty, so [String.length s] steps of fuel are enough. *)
Fixpoint re_sub_think (fuel : nat) (s : string) : string :=
  match fuel with
  | O => s
  | S fuel' =>
      match s with
      | EmptyString => EmptyString
      | String c s' =>
          match match_think s with
          | Some rest => re_sub_think fuel' rest
          | None => String c (re_sub_think fuel' s')
          end
      end
  end.

Definition strip_think_blocks (text : string) : string :=
  strip (re_sub_think (String.length text) text).

(** Some position of [s] starts a complete block. *)
Fixpoint has_block (s : string) : bool :=
  match match_think s with
  | Some _ => true
  | None => match s with
            | EmptyString => false
            | String _ s' => has_block s'
            end
  end.

(** ** JSON values and Python operations on them *)

(** What [json.loads] yields: [None], [bool], [int], [float] (a finite
    double, kept by its value), [str], [list], and [dict] in key order. *)
#[warnings="-register-all"] Inductive json : Type :=
| JNull
| JBool (b : bool)
| JInt (n : Z)
| JFloat (q : Q)
| JStr (s : string)
| JList (l : list json)
| JDict (d : list (string * json)).

Definition dict : Type := list (string * json).

Inductive exn : Type :=
| TypeError
| AttributeError
| KeyError
| IndexError
| ZeroDivisionError
| ConnectionError (msg : string)       (* a [RequestException]: no response, timeout *)
| JSONDecodeError (msg : string)       (* a [RequestException] raised by [response.json()] *)
| HTTPError (status : Z) (text : string) (body : option json).

(** A computation that may raise. *)
Definition py (A : Type) : Type := (exn + A)%type.

Definition ret {A} (a : A) : py A := inr a.
Definition raise {A} (e : exn) : py A := inl e.
Definition bind {A B} (m : py A) (k : A -> py B) : py B :=
  match m with
  | inl e => inl e
  | inr a => k a
  end.

Notation "x <- m ;; k" := (bind m (fun x => k))
  (at level 61, m at next level, right associativity).

(** [isinstance(e, requests.exceptions.RequestException)] *)
Definition is_request_exception (e : exn) : bool :=
  match e with
  | ConnectionError _ | JSONDecodeError _ | HTTPError _ _ _ => true
  | _ => false
  end.

Fixpoint dict_get (k : string) (d : dict) : option json :=
  match d with
  | [] => None
  | (k', v) :: d' => if String.eqb k' k then Some v else dict_get k d'
  end.

(** [k in d] *)
Definition dict_has (k : string) (d : dict) : bool :=
  match dict_get k d with Some _ => true | None => false end.

(** [d.get(k, default)] *)
Definition get_default (d : dict) (k : string) (default : json) : json :=
  match dict_get k d with Some v => v | None => default end.

(** [d.get(k)] *)
Definition get (d : dict) (k : string) : json := get_default d k JNull.

(** [d[k] = v]: an existing key keeps its place. *)
Fixpoint dict_set (k : string) (v : json) (d : dict) : dict :=
  match d with
  | [] => [(k, v)]
  | (k', v') :: d' =>
      if String.eqb k' k then (k, v) :: d' else (k', v') :: dict_set k v d'
  end.

(** Truth value of a JSON value in a condition. *)
Definition truthy (v : json) : bool :=
  match v with
  | JNull => false
  | JBool b => b
  | JInt n => negb (n =? 0)
  | JFloat q => negb (Qeq_bool q 0)
  | JStr s => negb (String.eqb s "")
  | JList l => match l with [] => false | _ => true end
  | JDict d => match d with [] => false | _ => true end
  end.

(** [isinstance(v, int)] together with the integer: [bool] is a subclass of
    [int], with [True == 1] and [False == 0]. *)
Definition as_int (v : json) : option Z :=
  match v with
  | JInt n => Some n
  | JBool b => Some (if b then 1 else 0)
  | _ => None
  end.

(** The value of a number. *)
Definition num_value (v : json) : option Q :=
  match v with
  | JInt n => Some (inject_Z n)
  | JBool b => Some (inject_Z (if b then 1 else 0))
  | JFloat q => Some q
  | _ => None
  end.

(** [v >= n] for an integer literal [n]: a [TypeError] unless [v] is a number. *)
Definition py_ge (v : json) (n : Z) : py bool :=
  match num_value v with
  | Some q => ret (Qle_bool (inject_Z n) q)
  | None => raise TypeError
  end.

(** [v == s] for a string [s] *)
Definition eq_str (v : json) (s : string) : bool :=
  match v with
  | JStr t => String.eqb t s
  | _ => false
  end.

(** [k in v] for a string [k]: key of a dict, element of a list, substring
    of a string; a [TypeError] on anything else. *)
Definition py_in (k : string) (v : json) : py bool :=
  match v with
  | JDict d => ret (dict_has k d)
  | JList l => ret (existsb (fun x => eq_str x k) l)
  | JStr s => ret (contains k s)
  | _ => raise TypeError
  end.

(** [v[k]] for a string [k] *)
Definition py_item (v : json) (k : string) : py json :=
  match v with
  | JDict d => match dict_get k d with Some x => ret x | None => raise KeyError end
  | _ => raise TypeError
  end.

(** [len(v)] *)
Definition py_len (v : json) : py Z :=
  match v with
  | JDict d => ret (Z.of_nat (List.length d))
  | JList l => ret (Z.of_nat (List.length l))
  | JStr s => ret (Z.of_nat (String.length s))
  | _ => raise TypeError
  end.

(** [v[0]]; the keys of a JSON object are strings, so [0] is none of them. *)
Definition py_item0 (v : json) : py json :=
  match v with
  | JList (x :: _) => ret x
  | JList [] => raise IndexError
  | JStr (String c _) => ret (JStr (String c EmptyString))
  | JStr EmptyString => raise IndexError
  | JDict _ => raise KeyError
  | _ => raise TypeError
  end.

Definition is_str (v : json) : bool :=
  match v with JStr _ => true | _ => false end.

(** Decimal rendering of an integer, as an f-string does it. *)
Definition str_of_Z (z : Z) : string := NilEmpty.string_of_int (Z.to_int z).

(** ** Provider registry *)

(** A provider record.  [models] is the list that passed the check at line
    146; [max_clients] is an integer ([True], which line 155 lets through,
    is the integer 1). *)
Record provider : Type := mk_provider {
  id : string;
  ollama_base_url : string;
  models : list dict;
  gpu_info : json;
  vram_gb : json;
  max_clients : Z;
  current_load : Z
}.

(** The two globals.  [compute_providers] is a dict keyed by provider id,
    kept here in insertion order, each record carrying its key in [id]. *)
Record state : Type := mk_state {
  compute_providers : list provider;
  provider_counter : Z
}.

Definition initial_state : state := mk_state [] 0.

(** The result of a view function: a response, or an exception nobody
    caught (a 500 from the framework).  [Unmodelled] stands for the runs
    that this development leaves out. *)
Inductive outcome : Type :=
| Reply (body : json) (status : Z)
| Unhandled (e : exn)
| Unmodelled.

Definition generate_provider_id (st : state) : string * state :=
  let counter := provider_counter st + 1 in
  ("provider_" ++ str_of_Z counter,
   mk_state (compute_providers st) counter).

(** [compute_providers[provider_id] = record] *)
Fixpoint providers_set (p : provider) (ps : list provider) : list provider :=
  match ps with
  | [] => [p]
  | q :: ps' =>
      if String.eqb (id q) (id p) then p :: ps' else q :: providers_set p ps'
  end.

(** [isinstance(models, list) and all(isinstance(m, dict) and 'name' in m
    for m in models)], giving the entries when it holds. *)
Fixpoint all_named (l : list json) : option (list dict) :=
  match l with
  | [] => Some []
  | JDict m :: l' =>
      if dict_has "name" m
      then match all_named l' with Some ms => Some (m :: ms) | None => None end
      else None
  | _ :: _ => None
  end.

Definition valid_models (models : json) : option (list dict) :=
  match models with
  | JList l => all_named l
  | _ => None
  end.

(** [vram_gb and vram_gb >= n] *)
Definition vram_at_least (vram_gb : json) (n : Z) : py bool :=
  if truthy vram_gb then py_ge vram_gb n else ret false.

(** The tiers by [vram_gb] at lines 157-164. *)
Definition vram_default (vram_gb : json) : py Z :=
  a <- vram_at_least vram_gb 16 ;;
  if a then ret 8 else
  b <- vram_at_least vram_gb 8 ;;
  if b then ret 4 else
  c <- vram_at_least vram_gb 4 ;;
  if c then ret 2 else ret 1.

(** The capacity chosen at lines 155-164. *)
Definition resolve_max_clients (max_clients_user vram_gb : json) : py Z :=
  match as_int max_clients_user with
  | Some n => if 0 <? n then ret n else vram_default vram_gb
  | None => vram_default vram_gb
  end.

Definition error_body (msg : string) : json := JDict [("error", JStr msg)].

Definition join_pool (data : dict) (st : state) : outcome * state :=
  let ollama_base_url := get data "ollama_base_url" in
  let models := get data "models" in
  let gpu_info := get data "gpu_info" in
  let vram_gb := get data "vram_gb" in
  let max_clients_user := get data "max_clients" in
  if negb (truthy ollama_base_url) || negb (truthy models) then
    (Reply (error_body "ollama_base_url and models are required") 400, st)
  else
    match ollama_base_url with
    | JStr url =>
        if negb (startswith url "http://" || startswith url "https://") then
          (Reply (error_body "ollama_base_url must start with http:// or https://") 400, st)
        else
          match valid_models models with
          | None =>
              (Reply (error_body "models must be a list of objects, each with at least a 'name'") 400, st)
          | Some ms =>
              let (provider_id, st1) := generate_provider_id st in
              match resolve_max_clients max_clients_user vram_gb with
              | inl e => (Unhandled e, st1)
              | inr max_clients =>
                  let record :=
                    mk_provider provider_id url ms gpu_info vram_gb max_clients 0 in
                  (Reply (JDict [("message", JStr "Successfully joined the compute pool");
                                 ("provider_id", JStr provider_id)]) 201,
                   mk_state (providers_set record (compute_providers st1))
                            (provider_counter st1))
              end
          end
    | _ => (Unhandled AttributeError, st)   (* no [startswith] on a non-string *)
    end.

(** ** Model catalog *)

Record model_summary : Type := mk_summary {
  name : json;
  providers_available : Z;
  details : json
}.

(** Whether two dict keys are the same key; numbers compare by value. *)
Definition key_eqb (a b : json) : bool :=
  match a, b with
  | JStr s, JStr t => String.eqb s t
  | JNull, JNull => true
  | _, _ =>
      match num_value a, num_value b with
      | Some x, Some y => Qeq_bool x y
      | _, _ => false
      end
  end.

Definition hashable (v : json) : bool :=
  match v with
  | JList _ | JDict _ => false
  | _ => true
  end.

(** Lines 191-199 on the summary dict, kept in insertion order: a new name
    gets an entry with count 1 and this model's details, a known one has its
    count incremented. *)
Fixpoint summary_add (model_name : json) (model_info : dict)
         (acc : list model_summary) : list model_summary :=
  match acc with
  | [] => [mk_summary model_name 1 (get_default model_info "details" (JDict []))]
  | e :: acc' =>
      if key_eqb (name e) model_name
      then mk_summary (name e) (providers_available e + 1) (details e) :: acc'
      else e :: summary_add model_name model_info acc'
  end.

Fixpoint summarize_models (ms : list dict) (acc : list model_summary)
  : py (list model_summary) :=
  match ms with
  | [] => ret acc
  | model_info :: ms' =>
      let model_name := get model_info "name" in
      if truthy model_name then
        if hashable model_name
        then summarize_models ms' (summary_add model_name model_info acc)
        else raise TypeError
      else summarize_models ms' acc
  end.

Fixpoint summarize_providers (ps : list provider) (acc : list model_summary)
  : py (list model_summary) :=
  match ps with
  | [] => ret acc
  | provider_data :: ps' =>
      if current_load provider_data <? max_clients provider_data then
        acc' <- summarize_models (models provider_data) acc ;;
        summarize_providers ps' acc'
      else summarize_providers ps' acc
  end.

Definition all_models_summary (st : state) : py (list model_summary) :=
  summarize_providers (compute_providers st) [].

Definition summary_json (e : model_summary) : json :=
  JDict [("name", name e);
         ("providers_available", JInt (providers_available e));
         ("details", details e)].

Definition get_available_models (st : state) : outcome :=
  match all_models_summary st with
  | inr summaries => Reply (JList (map summary_json summaries)) 200
  | inl e => Unhandled e
  end.

(** ** Matcher *)

(** The sort key [current_load / max_clients], as the exact quotient.
    Python compares the two quotients as floats; the division of two
    integers is correctly rounded, so the float order agrees with the exact
    one wherever it tells two keys apart. *)
Definition load_ratio (p : provider) : Q :=
  (inject_Z (current_load p) / inject_Z (max_clients p))%Q.

Definition ratio_ltb (p q : provider) : bool :=
  negb (Qle_bool (load_ratio q) (load_ratio p)).

(** Insertion behind every element whose key is not larger, which keeps the
    sort stable as [sorted] is. *)
Fixpoint insert_by_load (x : provider) (l : list provider) : list provider :=
  match l with
  | [] => [x]
  | y :: l' => if ratio_ltb x y then x :: y :: l' else y :: insert_by_load x l'
  end.

Definition sort_by_load (ps : list provider) : list provider :=
  fold_left (fun acc x => insert_by_load x acc) ps [].

Definition providers_sorted_by_load (st : state) : py (list provider) :=
  if existsb (fun p => max_clients p =? 0) (compute_providers st)
  then raise ZeroDivisionError
  else ret (sort_by_load (compute_providers st)).

(** The loop over one provider's models (lines 228-241).  The accumulator is
    [(selected_provider, best_match_level)]; reaching level 2 ends the loop. *)
Fixpoint scan_models (model_name_req : string) (provider_data : provider)
         (ms : list dict) (selected : option provider) (best : Z)
  : py (option provider * Z) :=
  match ms with
  | [] => ret (selected, best)
  | model_info :: ms' =>
      let current_model_name := get model_info "name" in
      if eq_str current_model_name model_name_req && (best <? 2) then
        ret (Some provider_data, 2)
      else
        match current_model_name with
        | JStr current =>
            if contains ":" model_name_req then
              if startswith current (split_head ":" model_name_req) && (best <? 1)
              then scan_models model_name_req provider_data ms' (Some provider_data) 1
              else scan_models model_name_req provider_data ms' selected best
            else
              if startswith current model_name_req && (best <? 1)
              then scan_models model_name_req provider_data ms' (Some provider_data) 1
              else scan_models model_name_req provider_data ms' selected best
        | _ => raise AttributeError   (* no [startswith] on a non-string *)
        end
  end.

(** The loop over the ranked providers (lines 224-245). *)
Fixpoint scan_providers (model_name_req : string) (ps : list provider)
         (selected : option provider) (best : Z) : py (option provider * Z) :=
  match ps with
  | [] => ret (selected, best)
  | provider_data :: ps' =>
      if current_load provider_data >=? max_clients provider_data then
        scan_providers model_name_req ps' selected best
      else
        r <- scan_models model_name_req provider_data (models provider_data)
                         selected best ;;
        if snd r =? 2 then ret r
        else scan_providers model_name_req ps' (fst r) (snd r)
  end.

(** Lines 216-245: the chosen provider and the level of its match. *)
Definition select_provider (model_name_req : string) (st : state)
  : py (option provider * Z) :=
  ps <- providers_sorted_by_load st ;;
  scan_providers model_name_req ps None 0.

(** ** Outbound calls *)

Record outbound : Type := mk_outbound {
  url : string;
  headers : list (string * string);
  payload : dict;
  timeout : Z
}.

(** What [requests.post] does: raise a [RequestException] whose text is
    [msg] (connection failure, timeout), or return a response.  [body] is
    the parsed JSON body, or the text of the decoding error. *)
Inductive http_result : Type :=
| NoResponse (msg : string)
| Response (status_code : Z) (text : string) (body : string + json).

(** [response.raise_for_status()] raises on 4xx and 5xx. *)
Definition is_error_status (status_code : Z) : bool :=
  (400 <=? status_code) && (status_code <? 600).

(** [{k: v for k, v in d.items() if v is not None}] *)
Definition drop_none (d : dict) : dict :=
  filter (fun kv => match snd kv with JNull => false | _ => true end) d.

(** Lines 257-269. *)
Definition ollama_payload (data : dict) (model_name_req : string) (prompt : json)
  : dict :=
  drop_none
    [("model", JStr model_name_req);
     ("prompt", prompt);
     ("stream", get_default data "stream" (JBool false));
     ("options", get_default data "options" (JDict []));
     ("system", get data "system");
     ("template", get data "template");
     ("context", get data "context");
     ("format", get data "format")].

(** [selected_provider['current_load'] += delta] on the record shared with
    [compute_providers]. *)
Definition add_load (provider_id : string) (delta : Z) (st : state) : state :=
  mk_state
    (map (fun p =>
            if String.eqb (id p) provider_id
            then mk_provider (id p) (ollama_base_url p) (models p) (gpu_info p)
                             (vram_gb p) (max_clients p) (current_load p + delta)
            else p)
         (compute_providers st))
    (provider_counter st).

Definition load_of (provider_id : string) (st : state) : option Z :=
  match find (fun p => String.eqb (id p) provider_id) (compute_providers st) with
  | Some p => Some (current_load p)
  | None => None
  end.

(** Lines 283-284. *)
Definition sanitize_completion (completion_data : json) : py json :=
  has <- py_in "response" completion_data ;;
  if has then
    r <- py_item completion_data "response" ;;
    match r, completion_data with
    | JStr s, JDict d =>
        ret (JDict (dict_set "response" (JStr (strip_think_blocks s)) d))
    | _, _ => ret completion_data
    end
  else ret completion_data.

(** Lines 314-317, on the dict the fallback returned. *)
Definition sanitize_result (result : dict) : dict :=
  match dict_get "response" result with
  | Some (JStr s) => dict_set "response" (JStr (strip_think_blocks s)) result
  | _ =>
      match dict_get "completion" result with
      | Some (JStr s) => dict_set "completion" (JStr (strip_think_blocks s)) result
      | _ => result
      end
  end.

Definition placeholder : string := "YOUR_POLLINATIONS_API_KEY_HERE".

Section Server.

(** The process environment, the network, and two renderings of the
    Python runtime: [json.dumps] and [str] of a value that is not a
    string. *)
Variable environ : string -> option string.
Variable requests_post : outbound -> http_result.
Variable json_dumps : json -> string.
Variable py_repr : json -> string.

Definition environ_get (k default : string) : string :=
  match environ k with Some v => v | None => default end.

Definition find_pollinations_api_key : string :=
  environ_get "POLLINATIONS_API_KEY" placeholder.

(** [str(v)] inside an f-string *)
Definition py_str (v : json) : string :=
  match v with JStr s => s | _ => py_repr v end.

(** Lines 90-101. *)
Definition normalize (response_data : json) (status_code : Z) : py (dict * Z) :=
  let found (v : json) : py (dict * Z) :=
    ret ([("response", v); ("source", JStr "pollinations")], status_code) in
  a <- py_in "completion" response_data ;;
  if a then v <- py_item response_data "completion" ;; found v else
  b <- (c <- py_in "choices" response_data ;;
        if c then
          choices <- py_item response_data "choices" ;;
          n <- py_len choices ;;
          if 0 <? n then first <- py_item0 choices ;; py_in "text" first
          else ret false
        else ret false) ;;
  if b then
    choices <- py_item response_data "choices" ;;
    first <- py_item0 choices ;;
    v <- py_item first "text" ;; found v
  else
  c <- (d <- py_in "data" response_data ;;
        if d then inner <- py_item response_data "data" ;; py_in "completion" inner
        else ret false) ;;
  if c then
    inner <- py_item response_data "data" ;;
    v <- py_item inner "completion" ;; found v
  else
  d <- (d <- py_in "data" response_data ;;
        if d then inner <- py_item response_data "data" ;; py_in "text" inner
        else ret false) ;;
  if d then
    inner <- py_item response_data "data" ;;
    v <- py_item inner "text" ;; found v
  else
    ret ([("response", JStr (json_dumps response_data));
          ("source", JStr "pollinations_unknown_structure")], status_code).

(** Lines 103-111: the handler of [HTTPError]. *)
Definition http_error_result (status_code : Z) (text : string) (body : string + json)
  : py (dict * Z) :=
  let error_detail :=
    "Pollinations API request failed with status " ++ str_of_Z status_code in
  detail <-
    match body with
    | inl _ => ret (error_detail ++ ": " ++ text)
    | inr (JDict error_body) =>
        match get_default error_body "error" (JDict []) with
        | JDict e => ret (error_detail ++ ": " ++ py_str (get_default e "message" (JStr text)))
        | _ => raise AttributeError
        end
    | inr _ => raise AttributeError
    end ;;
  ret ([("error", JStr detail); ("source", JStr "pollinations")], status_code).

Definition call_pollinations_api (prompt : json) (model : string)
  : py (dict * Z) * list outbound :=
  let api_key := find_pollinations_api_key in
  if String.eqb api_key placeholder then
    (ret ([("error", JStr "Pollinations API key not configured")], 503), [])
  else
    let pollinations_url :=
      environ_get "POLLINATIONS_TEXT_API_URL"
                  "https://api.pollinations.ai/v1/text/completions" in
    let headers :=
      [("Authorization", "Bearer " ++ api_key);
       ("Content-Type", "application/json")] in
    let final_model_for_pollinations :=
      if negb (contains ":" model) then model else split_head ":" model in
    let payload :=
      [("model", JStr final_model_for_pollinations);
       ("prompt", prompt);
       ("max_tokens", JInt 1500);
       ("temperature", JFloat (7 # 10))] in
    let request := mk_outbound pollinations_url headers payload 45 in
    (match requests_post request with
     | NoResponse msg =>
         ret ([("error", JStr ("Pollinations API request failed: " ++ msg));
               ("source", JStr "pollinations")], 500)
     | Response status_code text body =>
         if is_error_status status_code then
           http_error_result status_code text body
         else
           match body with
           | inl msg =>
               ret ([("error", JStr ("Pollinations API request failed: " ++ msg));
                     ("source", JStr "pollinations")], 500)
           | inr response_data => normalize response_data status_code
           end
     end,
     [request]).

(** Lines 300-320: the hop to the fallback service. *)
Definition fallback (prompt : json) (model_name_req : string) (st : state)
           (calls : list outbound) : outcome * state * list outbound :=
  let (r, calls') := call_pollinations_api prompt model_name_req in
  match r with
  | inl e => (Unhandled e, st, (calls ++ calls')%list)
  | inr (result, status_code) =>
      (Reply (JDict (sanitize_result result)) status_code, st, (calls ++ calls')%list)
  end.

(** The body of the [try] at lines 253-289, from the call on: the result
    or the exception it raised, with the state it left. *)
Definition forward (request : outbound) (provider_id : string) (st : state)
  : py (json * Z) * state :=
  match requests_post request with
  | NoResponse msg => (raise (ConnectionError msg), st)
  | Response status_code text body =>
      if is_error_status status_code then
        (raise (HTTPError status_code text
                          (match body with inr v => Some v | inl _ => None end)), st)
      else
        match body with
        | inl msg => (raise (JSONDecodeError msg), st)
        | inr completion_data =>
            let st' := add_load provider_id (-1) st in          (* line 280 *)
            match sanitize_completion completion_data with
            | inl e => (raise e, st')
            | inr sanitized => (ret (sanitized, status_code), st')
            end
        end
  end.

Definition provider_request (selected_provider : provider) (data : dict)
           (model_name_req : string) (prompt : json) : outbound :=
  mk_outbound (ollama_base_url selected_provider ++ "/api/generate") []
              (ollama_payload data model_name_req prompt) 120.

(** The view function.  Besides the response and the new state it gives
    the outbound calls it made, in order.  A truthy [model] that is not a
    string is left out of the model. *)
Definition completions (data : dict) (st : state)
  : outcome * state * list outbound :=
  let prompt := get data "prompt" in
  let model := get data "model" in
  if negb (truthy prompt) || negb (truthy model) then
    (Reply (error_body "prompt and model are required") 400, st, [])
  else
    match model with
    | JStr model_name_req =>
        match select_provider model_name_req st with
        | inl e => (Unhandled e, st, [])
        | inr (None, _) => fallback prompt model_name_req st []
        | inr (Some selected_provider, _) =>
            let st1 := add_load (id selected_provider) 1 st in    (* line 250 *)
            let request :=
              provider_request selected_provider data model_name_req prompt in
            let (r, st2) := forward request (id selected_provider) st1 in
            match r with
            | inr (body, status_code) => (Reply body status_code, st2, [request])
            | inl e =>
                let st3 :=
                  if is_request_exception e
                  then add_load (id selected_provider) (-1) st2   (* line 293 *)
                  else add_load (id selected_provider) (-1) st2   (* line 297 *) in
                fallback prompt model_name_req st3 [request]
            end
        end
    | _ => (Unmodelled, st, [])
    end.

End Server.

(** ** Serving a sequence of requests *)

Inductive request : Type :=
| JoinPool (data : dict)
| GetAvailableModels
| Completions (data : dict) (requests_post : outbound -> http_result).

Section Serving.

Variable environ : string -> option string.
Variable json_dumps : json -> string.
Variable py_repr : json -> string.

Definition handle (r : request) (st : state) : outcome * state :=
  match r with
  | JoinPool data => join_pool data st
  | GetAvailableModels => (get_available_models st, st)
  | Completions data requests_post =>
      fst (completions environ requests_post json_dumps py_repr data st)
  end.

(** The requests served one after the other, each paired with its
    outcome. *)
Fixpoint serve (rs : list request) (st : state)
  : list (request * outcome) * state :=
  match rs with
  | [] => ([], st)
  | r :: rs' =>
      let (o, st1) := handle r st in
      let (log, st2) := serve rs' st1 in
      ((r, o) :: log, st2)
  end.

End Serving.

(** The identifier made from the counter value [k]. *)
Definition provider_id_of (k : Z) : string := "provider_" ++ str_of_Z k.

(** The identifier a logged exchange handed out, if it was a successful
    registration. *)
Definition issued_id (x : request * outcome) : option string :=
  match x with
  | (JoinPool _, Reply (JDict body) status) =>
      if status =? 201 then
        match dict_get "provider_id" body with
        | Some (JStr i) => Some i
        | _ => None
        end
      else None
  | _ => None
  end.

Fixpoint issued_ids (log : list (request * outcome)) : list string :=
  match log with
  | [] => []
  | x :: log' =>
      match issued_id x with
      | Some i => i :: issued_ids log'
      | None => issued_ids log'
      end
  end.

(** ** The statements' vocabulary *)

(** Under capacity: the negation of the skip test at line 225 and the test
    at line 187. *)
Definition eligible (p : provider) : bool := current_load p <? max_clients p.

Definition named (n : string) (model_info : dict) : bool :=
  eq_str (get model_info "name") n.

(** Some model of [p] is called exactly [n]: a level-2 match. *)
Definition offers_exactly (n : string) (p : provider) : bool :=
  existsb (named n) (models p).

(** What a candidate name is compared with at level 1: the requested name
    up to its first colon. *)
Definition base_name (model_name_req : string) : string :=
  if contains ":" model_name_req
  then split_head ":" model_name_req
  else model_name_req.

Definition prefix_named (n : string) (model_info : dict) : bool :=
  match get model_info "name" with
  | JStr current => startswith current (base_name n)
  | _ => false
  end.

(** Some model of [p] starts with the base of [n]: a level-1 match. *)
Definition offers_prefix (n : string) (p : provider) : bool :=
  existsb (prefix_named n) (models p).

(** Every registered capacity is positive. *)
Definition capacities_positive (st : state) : Prop :=
  Forall (fun p => 0 < max_clients p) (compute_providers st).

(** Every entry of a model list has a string for its name. *)
Definition names_ok (ms : list dict) : Prop :=
  Forall (fun model_info => is_str (get model_info "name") = true) ms.

(** Capacities are positive and model names are strings, as the data model
    has them. *)
Definition provider_ok (p : provider) : Prop :=
  0 < max_clients p /\ names_ok (models p).

Definition registry_ok (st : state) : Prop :=
  Forall provider_ok (compute_providers st).

(** The provider registered under [provider_id]. *)
Definition find_provider (provider_id : string) (st : state) : option provider :=
  find (fun p => String.eqb (id p) provider_id) (compute_providers st).

(** The capacity rule in the words of the specification: an explicit
    positive integer wins, otherwise the tier of the VRAM size. *)
Definition spec_tier (vram_gb : json) : Z :=
  match num_value vram_gb with
  | Some q =>
      if Qle_bool 16 q then 8
      else if Qle_bool 8 q then 4
      else if Qle_bool 4 q then 2
      else 1
  | None => 1
  end.

Definition spec_capacity (max_clients_user vram_gb : json) : Z :=
  match as_int max_clients_user with
  | Some n => if 0 <? n then n else spec_tier vram_gb
  | None => spec_tier vram_gb
  end.

(** A well-formed join request with further fields [extra]. *)
Definition join_data (extra : dict) : dict :=
  ("ollama_base_url", JStr "http://node:11434")
  :: ("models", JList [JDict [("name", JStr "A:tag")]])
  :: extra.

(** The capacity of the provider that a join request registers, if it
    registers one. *)
Definition registered_capacity (data : dict) (st : state) : option Z :=
  match join_pool data st with
  | (Reply _ status, st') =>
      if status =? 201 then
        match find_provider (fst (generate_provider_id st)) st' with
        | Some p => Some (max_clients p)
        | None => None
        end
      else None
  | _ => None
  end.

(** The base address of a join request is missing, null, empty, or a string
    without either scheme. *)
Definition bad_base_url (data : dict) : Prop :=
  get data "ollama_base_url" = JNull \/
  exists s, get data "ollama_base_url" = JStr s /\
            (s = "" \/ (startswith s "http://" = false /\
                        startswith s "https://" = false)).

(** The model list is missing, null or empty. *)
Definition no_models (data : dict) : Prop :=
  get data "models" = JNull \/ get data "models" = JList [].

Definition lacks_name (entry : json) : Prop :=
  match entry with
  | JDict model_info => dict_get "name" model_info = None
  | _ => True
  end.

(** The base address has the type the interface gives it: a string, when
    there is one. *)
Definition base_url_typed (data : dict) : Prop :=
  get data "ollama_base_url" = JNull \/
  exists s, get data "ollama_base_url" = JStr s.

(** Some entry of the model list has no name. *)
Definition nameless_model (data : dict) : Prop :=
  exists l entry, get data "models" = JList l /\ In entry l /\ lacks_name entry.

(** What the payload holds for a field of the request: the field's value,
    nothing when that value is null, and [default] when the request has no
    such field. *)
Definition non_null (v : json) : option json :=
  match v with JNull => None | _ => Some v end.

Definition passed_through (data : dict) (k : string) (default : option json)
  : option json :=
  match dict_get k data with
  | Some v => non_null v
  | None => default
  end.

(** [model_info.get("details", {})] *)
Definition details_of (model_info : dict) : json :=
  get_default model_info "details" (JDict []).

(** The model entries called [n] of the under-capacity providers, in the
    order in which the catalog meets them. *)
Definition entries_named (n : string) (ps : list provider) : list dict :=
  flat_map (fun p => if eligible p then filter (named n) (models p) else []) ps.

(** The catalog's entry for the name [n]. *)
Definition summary_find (n : string) (summaries : list model_summary)
  : option model_summary :=
  find (fun e => key_eqb (name e) (JStr n)) summaries.

(** The count the catalog reports for [n]; 0 when it does not list [n]. *)
Definition reported (n : string) (summaries : list model_summary) : Z :=
  match summary_find n summaries with
  | Some e => providers_available e
  | None => 0
  end.

(** The entry for [n] after meeting the models [es], all called [n],
    starting from the entry [cur]. *)
Definition tally (n : string) (cur : option model_summary) (es : list dict)
  : option model_summary :=
  fold_left
    (fun cur model_info =>
       Some match cur with
            | Some e => mk_summary (name e) (providers_available e + 1) (details e)
            | None => mk_summary (JStr n) 1 (details_of model_info)
            end)
    es cur.

(** ** Sample data *)

(** A line feed. *)
Definition nl : string := String (ascii_of_nat 10) EmptyString.


Definition P1 : provider :=
  mk_provider "provider_1" "http://p1:11434" [[("name", JStr "A:tag")]]
              JNull JNull 4 1.

Definition P2 : provider :=
  mk_provider "provider_2" "http://p2:11434" [[("name", JStr "A:tag2")]]
              JNull JNull 4 0.

(** A provider that lists one name twice. *)
Definition P3 : provider :=
  mk_provider "provider_3" "http://p3:11434"
              [[("name", JStr "A:tag"); ("details", JStr "first")];
               [("name", JStr "A:tag"); ("details", JStr "second")]]
              JNull JNull 4 0.

(** A provider that is full. *)
Definition P4 : provider :=
  mk_provider "provider_4" "http://p4:11434"
              [[("name", JStr "A:tag"); ("details", JStr "full")]]
              JNull JNull 2 2.

(** A second provider with one entry for "A:tag". *)
Definition P5 : provider :=
  mk_provider "provider_5" "http://p5:11434"
              [[("name", JStr "A:tag"); ("details", JStr "fifth")]]
              JNull JNull 8 3.

(** An environment with a credential and nothing else. *)
Definition configured_environ : string -> option string :=
  fun k => if String.eqb k "POLLINATIONS_API_KEY" then Some "secret" else None.

(** A backend that answers 200 with the JSON body [null]. *)
Definition null_body_backend : outbound -> http_result :=
  fun _ => Response 200 "null" (inr JNull).

(** A backend that cannot be reached. *)
Definition unreachable_backend : outbound -> http_result :=
  fun _ => NoResponse "timed out".

Definition bare_request : dict :=
  [("prompt", JStr "hello"); ("model", JStr "A:tag2")].

(** ** Further vocabulary *)

(** The character [c] does not occur in [s]. *)
Fixpoint free_of (c : ascii) (s : string) : bool :=
  match s with
  | EmptyString => true
  | String d s' => negb (Ascii.eqb d c) && free_of c s'
  end.

(** Two providers have the same load ratio. *)
Definition same_ratio (p q : provider) : bool :=
  Qeq_bool (load_ratio p) (load_ratio q).

(** What the matcher holds while it scans the providers [known]: nothing
    at level 0, or one of them, under capacity, with a match of the level
    it holds. *)
Definition selection_ok (model_name_req : string) (known : list provider)
           (selected : option provider) (best : Z) : Prop :=
  match selected with
  | None => best = 0
  | Some p =>
      In p known /\ eligible p = true /\
      ((best = 2 /\ offers_exactly model_name_req p = true)
       \/ (best = 1 /\ offers_prefix model_name_req p = true))
  end.

(** The call to a provider's backend did not give a decodable 2xx reply:
    no response, an error status, or a body that is not JSON. *)
Definition backend_failed (r : http_result) : bool :=
  match r with
  | NoResponse _ => true
  | Response status_code _ body =>
      is_error_status status_code
      || match body with inl _ => true | inr _ => false end
  end.

(** Lines 283-284 on a JSON object. *)
Definition sanitized_object (d : dict) : dict :=
  match dict_get "response" d with
  | Some (JStr s) => dict_set "response" (JStr (strip_think_blocks s)) d
  | _ => d
  end.

(** Every provider of the registry carries an identifier that the counter
    has already passed, and no two carry the same. *)
Definition ids_issued (st : state) : Prop :=
  0 <= provider_counter st
  /\ NoDup (map id (compute_providers st))
  /\ Forall (fun i => exists k, 0 < k <= provider_counter st
                                /\ i = provider_id_of k)
            (map id (compute_providers st)).

(** An entry of a model list that registration accepts. *)
Definition named_object (entry : json) : Prop :=
  exists model_info, entry = JDict model_info /\ dict_has "name" model_info = true.

(** An entry of the catalog has a non-empty string for its name and counts
    at least one provider. *)
Definition summary_ok (e : model_summary) : Prop :=
  exists n, name e = JStr n /\ n <> "" /\ 1 <= providers_available e.

(** The request that the fallback client sends (lines 56-79). *)
Definition pollinations_request (environ : string -> option string)
           (prompt : json) (model : string) : outbound :=
  mk_outbound
    (environ_get environ "POLLINATIONS_TEXT_API_URL"
                 "https://api.pollinations.ai/v1/text/completions")
    [("Authorization", "Bearer " ++ find_pollinations_api_key environ);
     ("Content-Type", "application/json")]
    [("model", JStr (if negb (contains ":" model) then model
                     else split_head ":" model));
     ("prompt", prompt);
     ("max_tokens", JInt 1500);
     ("temperature", JFloat (7 # 10))]
    45.

(** A credential is configured and the fallback service answers the
    request for [prompt] and [model] with [r]. *)
Definition fallback_answers (environ : string -> option string)
           (requests_post : outbound -> http_result)
           (prompt : json) (model : string) (r : http_result) : Prop :=
  find_pollinations_api_key environ <> placeholder
  /\ requests_post (pollinations_request environ prompt model) = r.

(** The body of a reply of the fallback client. *)
Definition fallback_reply (key : string) (value : json) (source : string) : dict :=
  [(key, value); ("source", JStr source)].

(** A JSON value that has neither keys nor elements: a number, a boolean
    or null. *)
Definition scalar (v : json) : bool :=
  match v with
  | JNull | JBool _ | JInt _ | JFloat _ => true
  | _ => false
  end.

(** The JSON values on which the test and the indexing at line 283 raise:
    a number, a boolean or null, a list with the element "response", a
    string that contains "response". *)
Definition breaks_sanitizer (v : json) : bool :=
  match v with
  | JDict _ => false
  | JList l => existsb (fun x => eq_str x "response") l
  | JStr s => contains "response" s
  | _ => true
  end.

(** An entry of a model list with a string for its name. *)
Definition string_named (entry : json) : Prop :=
  exists model_info n, entry = JDict model_info /\ get model_info "name" = JStr n.

(** * Properties *)

(** ** Sanitizer *)

Arguments match_think : simpl never.
Arguments startswith : simpl never.

Lemma startswith_length s p :
  startswith s p = true -> (String.length p <= String.length s)%nat.
Proof.
  unfold startswith. revert s.
  induction p as [|c p IH]; intros [|d s]; simpl; try lia; try (intros; discriminate).
  destruct (Ascii.ascii_dec c d); [|intros; discriminate].
  intros H. apply IH in H. lia.
Qed.

Lemma drop_length n s :
  String.length (drop n s) = (String.length s - n)%nat.
Proof.
  revert s. induction n as [|n IH]; intros [|c s]; simpl; auto.
Qed.

Lemma after_first_length pat s r :
  after_first pat s = Some r ->
  (String.length r + String.length pat <= String.length s)%nat.
Proof.
  revert r. induction s as [|c s IH]; intros r; simpl.
  - destruct (startswith "" pat) eqn:E; [|intros; discriminate].
    injection 1 as <-. apply startswith_length in E.
    rewrite drop_length. cbn [String.length] in *. lia.
  - destruct (startswith (String c s) pat) eqn:E.
    + injection 1 as <-. apply startswith_length in E.
      rewrite drop_length. cbn [String.length] in *. lia.
    + intros H. apply IH in H. cbn [String.length]. lia.
Qed.

Lemma match_think_length s r :
  match_think s = Some r -> (String.length r + 15 <= String.length s)%nat.
Proof.
  unfold match_think.
  destruct (startswith s "<think>") eqn:E; [|intros; discriminate].
  intros H. apply after_first_length in H. apply startswith_length in E.
  rewrite drop_length in H. cbn [String.length] in *. lia.
Qed.

Lemma has_block_cons c s :
  has_block (String c s) =
  match match_think (String c s) with Some _ => true | None => has_block s end.
Proof. reflexivity. Qed.

Lemma match_think_empty : match_think "" = None.
Proof. reflexivity. Qed.

Lemma re_sub_think_length fuel s :
  (String.length (re_sub_think fuel s) <= String.length s)%nat.
Proof.
  revert s. induction fuel as [|fuel IH]; intros s; simpl; [lia|].
  destruct s as [|c s]; [simpl; lia|].
  destruct (match_think (String c s)) as [rest|] eqn:E.
  - apply match_think_length in E. specialize (IH rest). simpl in *. lia.
  - specialize (IH s). simpl. lia.
Qed.

(** Text without a complete block goes through the substitution unchanged. *)
Lemma re_sub_think_no_block fuel s :
  has_block s = false -> re_sub_think fuel s = s.
Proof.
  revert s. induction fuel as [|fuel IH]; intros s H; simpl; [reflexivity|].
  destruct s as [|c s]; [reflexivity|].
  rewrite has_block_cons in H.
  destruct (match_think (String c s)); [discriminate|].
  now rewrite IH.
Qed.

(** Text with a complete block loses at least one character. *)
Lemma re_sub_think_block fuel s :
  has_block s = true -> (String.length s <= fuel)%nat ->
  (String.length (re_sub_think fuel s) < String.length s)%nat.
Proof.
  revert s. induction fuel as [|fuel IH]; intros s H L.
  - destruct s; [discriminate H | simpl in L; lia].
  - destruct s as [|c s]; [discriminate H|].
    rewrite has_block_cons in H. simpl re_sub_think.
    destruct (match_think (String c s)) as [rest|] eqn:E.
    + apply match_think_length in E.
      pose proof (re_sub_think_length fuel rest). simpl in *. lia.
    + simpl in L. specialize (IH s H). simpl. lia.
Qed.

Lemma lstrip_length s : (String.length (lstrip s) <= String.length s)%nat.
Proof.
  induction s as [|c s IH]; simpl; [lia|].
  destruct (isspace c); simpl; lia.
Qed.

Lemma rstrip_length s : (String.length (rstrip s) <= String.length s)%nat.
Proof.
  induction s as [|c s IH]; simpl; [lia|].
  destruct (rstrip s); [destruct (isspace c)|]; simpl in *; lia.
Qed.

Lemma strip_length s : (String.length (strip s) <= String.length s)%nat.
Proof.
  unfold strip. pose proof (lstrip_length (rstrip s)).
  pose proof (rstrip_length s). lia.
Qed.

Lemma lstrip_idem s : lstrip (lstrip s) = lstrip s.
Proof.
  induction s as [|c s IH]; simpl; [reflexivity|].
  destruct (isspace c) eqn:E; [exact IH|]. simpl. now rewrite E.
Qed.

Lemma rstrip_idem s : rstrip (rstrip s) = rstrip s.
Proof.
  induction s as [|c s IH]; simpl; [reflexivity|].
  destruct (rstrip s) as [|d r] eqn:E.
  - destruct (isspace c) eqn:Ec; simpl; [reflexivity|]. now rewrite Ec.
  - simpl. simpl in IH. now rewrite IH.
Qed.

Lemma rstrip_lstrip s : rstrip (lstrip s) = lstrip (rstrip s).
Proof.
  induction s as [|c s IH]; simpl; [reflexivity|].
  destruct (isspace c) eqn:Ec.
  - rewrite IH. destruct (rstrip s) as [|d r]; simpl; now rewrite ?Ec.
  - simpl. destruct (rstrip s) as [|d r]; simpl; now rewrite Ec.
Qed.

Lemma strip_idem s : strip (strip s) = strip s.
Proof.
  unfold strip. now rewrite rstrip_lstrip, rstrip_idem, lstrip_idem.
Qed.

(** A second pass changes nothing exactly when the first left no block. *)
Lemma strip_think_blocks_twice t :
  strip_think_blocks (strip_think_blocks t) = strip_think_blocks t
  <-> has_block (strip_think_blocks t) = false.
Proof.
  set (u := strip_think_blocks t). split.
  - intros H. destruct (has_block u) eqn:E; [|reflexivity].
    exfalso.
    pose proof (re_sub_think_block (String.length u) u E (Nat.le_refl _)) as L.
    pose proof (strip_length (re_sub_think (String.length u) u)) as L'.
    unfold strip_think_blocks in H at 1. rewrite H in L'. lia.
  - intros H. unfold strip_think_blocks at 1.
    rewrite (re_sub_think_no_block _ _ H).
    unfold u, strip_think_blocks. apply strip_idem.
Qed.

Lemma startswith_app s w p :
  startswith s p = true -> startswith (s ++ w) p = true.
Proof.
  unfold startswith. revert s. induction p as [|c p IH]; intros s.
  - intros _. now destruct (s ++ w).
  - destruct s as [|d s]; simpl; [intros; discriminate|].
    destruct (ascii_dec c d); [apply IH | intros; discriminate].
Qed.

Lemma drop_app n s w :
  (n <= String.length s)%nat -> drop n (s ++ w) = drop n s ++ w.
Proof.
  revert s. induction n as [|n IH]; intros [|c s]; simpl; auto; try lia.
  intros H. apply IH. lia.
Qed.

Lemma after_first_app pat s w r :
  after_first pat s = Some r -> exists r', after_first pat (s ++ w) = Some r'.
Proof.
  revert r. induction s as [|c s IH]; intros r; simpl.
  - destruct (startswith "" pat) eqn:E; [|intros; discriminate].
    intros _. pose proof (startswith_app _ w _ E) as E'. simpl in E'.
    destruct w; simpl; rewrite E'; eauto.
  - destruct (startswith (String c s) pat) eqn:E.
    + intros _. pose proof (startswith_app _ w _ E) as E'. simpl in E'.
      rewrite E'. eauto.
    + intros H. destruct (IH _ H) as (r' & Hr').
      destruct (startswith (String c (s ++ w)) pat); eauto.
Qed.

Lemma match_think_app s w r :
  match_think s = Some r -> exists r', match_think (s ++ w) = Some r'.
Proof.
  unfold match_think.
  destruct (startswith s "<think>") eqn:E; [|intros; discriminate].
  rewrite (startswith_app _ w _ E). intros H.
  apply startswith_length in E.
  rewrite drop_app by exact E. eapply after_first_app, H.
Qed.

(** A block of a prefix is a block of the whole text. *)
Lemma has_block_app s w : has_block s = true -> has_block (s ++ w) = true.
Proof.
  induction s as [|c s IH]; [intros; discriminate|].
  rewrite has_block_cons. intros H.
  change (String c s ++ w) with (String c (s ++ w)). rewrite has_block_cons.
  destruct (match_think (String c s)) as [r|] eqn:E.
  - destruct (match_think_app _ w _ E) as (r' & Hr').
    change (String c s ++ w) with (String c (s ++ w)) in Hr'. now rewrite Hr'.
  - destruct (match_think (String c (s ++ w))); auto.
Qed.

Lemma rstrip_prefix s : exists w, s = rstrip s ++ w.
Proof.
  induction s as [|c s [w IH]]; simpl; [now exists ""|].
  destruct (rstrip s) as [|d r].
  - destruct (isspace c).
    + now exists (String c s).
    + exists w. simpl in *. now rewrite <- IH.
  - exists w. simpl in *. now rewrite <- IH.
Qed.

Lemma has_block_lstrip s : has_block (lstrip s) = true -> has_block s = true.
Proof.
  induction s as [|c s IH]; simpl lstrip; [auto|].
  destruct (isspace c); [|auto].
  intros H. rewrite has_block_cons.
  destruct (match_think (String c s)); auto.
Qed.

(** Trimming makes no block. *)
Lemma has_block_strip s : has_block s = false -> has_block (strip s) = false.
Proof.
  intros H. destruct (has_block (strip s)) eqn:E; [|reflexivity].
  unfold strip in E. apply has_block_lstrip in E.
  destruct (rstrip_prefix s) as (w & Hw).
  apply (has_block_app _ w) in E. rewrite <- Hw in E. congruence.
Qed.

(** Text without a complete block is only trimmed, and then a second pass
    changes nothing. *)
Lemma strip_think_blocks_clean t :
  has_block t = false ->
  strip_think_blocks t = strip t
  /\ strip_think_blocks (strip_think_blocks t) = strip_think_blocks t.
Proof.
  intros H.
  assert (strip_think_blocks t = strip t) as E
      by (unfold strip_think_blocks; now rewrite re_sub_think_no_block).
  split; [exact E|].
  apply strip_think_blocks_twice. rewrite E. now apply has_block_strip.
Qed.

(** C3 (counterexample).  Removing one block can splice the text around it
    into a new block, which only a second pass removes. *)
Lemma strip_think_blocks_not_idempotent :
  strip_think_blocks (strip_think_blocks "<thi<think></think>nk>x</think>")
  <> strip_think_blocks "<thi<think></think>nk>x</think>".
Proof. vm_compute. discriminate. Qed.

(** C3 (amended).  A second pass of [strip_think_blocks] changes nothing
    exactly when the result of the first pass holds no complete block; that
    is so for every text that holds no complete block to begin with; and
    the example text comes out as "ab". *)
Theorem strip_think_blocks_idempotent_iff :
  (forall t,
      strip_think_blocks (strip_think_blocks t) = strip_think_blocks t
      <-> has_block (strip_think_blocks t) = false)
  /\ (forall t,
         has_block t = false ->
         strip_think_blocks (strip_think_blocks t) = strip_think_blocks t)
  /\ strip_think_blocks ("a<think>ignored across" ++ nl ++ "lines</think>b") = "ab".
Proof.
  split; [exact strip_think_blocks_twice|].
  split; [|reflexivity].
  intros t H. now apply strip_think_blocks_clean.
Qed.

Lemma strip_think_blocks_idempotent_iff_witness :
  strip_think_blocks (strip_think_blocks "a <think>b</think> c <think>")
  = strip_think_blocks "a <think>b</think> c <think>"
  /\ strip_think_blocks (strip_think_blocks " </think> a <think> ")
     = strip_think_blocks " </think> a <think> ".
Proof.
  split.
  - apply (proj1 strip_think_blocks_idempotent_iff). reflexivity.
  - apply (proj1 (proj2 strip_think_blocks_idempotent_iff)). reflexivity.
Defined.

(** ** Registration *)

Lemma falsy_number_below (q : Q) (n : Z) :
  Qeq_bool q 0 = true -> 0 < n -> Qle_bool (inject_Z n) q = false.
Proof.
  intros Hq Hn. destruct (Qle_bool (inject_Z n) q) eqn:E; [|reflexivity].
  apply Qle_bool_iff in E. apply Qeq_bool_iff in Hq. rewrite Hq in E.
  unfold Qle in E. simpl in E. lia.
Qed.

Lemma falsy_tier v : truthy v = false -> spec_tier v = 1.
Proof.
  unfold spec_tier. destruct v as [|[]|n|q|s|l|d]; simpl; try reflexivity.
  - intros H. apply negb_false_iff, Z.eqb_eq in H. now subst.
  - intros H. apply negb_false_iff in H.
    change 16%Q with (inject_Z 16). change 8%Q with (inject_Z 8).
    change 4%Q with (inject_Z 4).
    now rewrite !falsy_number_below by (assumption || lia).
Qed.

Lemma vram_default_spec vram_gb c :
  vram_default vram_gb = inr c -> c = spec_tier vram_gb.
Proof.
  unfold vram_default, vram_at_least.
  destruct (truthy vram_gb) eqn:T.
  - unfold spec_tier, py_ge. destruct (num_value vram_gb) as [q|]; simpl.
    + change (inject_Z 16) with 16%Q. change (inject_Z 8) with 8%Q.
      change (inject_Z 4) with 4%Q.
      destruct (Qle_bool 16 q); [now injection 1|].
      destruct (Qle_bool 8 q); [now injection 1|].
      destruct (Qle_bool 4 q); now injection 1.
    + (intros; discriminate).
  - simpl. rewrite (falsy_tier _ T). now injection 1.
Qed.

Lemma resolve_max_clients_spec max_clients_user vram_gb c :
  resolve_max_clients max_clients_user vram_gb = inr c ->
  c = spec_capacity max_clients_user vram_gb.
Proof.
  unfold resolve_max_clients, spec_capacity.
  destruct (as_int max_clients_user) as [n|]; [destruct (0 <? n)|];
    try apply vram_default_spec.
  now injection 1.
Qed.

Lemma find_providers_set p ps :
  find (fun q => String.eqb (id q) (id p)) (providers_set p ps) = Some p.
Proof.
  induction ps as [|q ps IH]; simpl.
  - now rewrite String.eqb_refl.
  - destruct (String.eqb (id q) (id p)) eqn:E; simpl.
    + now rewrite String.eqb_refl.
    + now rewrite E.
Qed.

(** What a successful registration did. *)
Lemma join_pool_registered data st body st' :
  join_pool data st = (Reply body 201, st') ->
  exists url ms c,
    get data "ollama_base_url" = JStr url /\
    valid_models (get data "models") = Some ms /\
    resolve_max_clients (get data "max_clients") (get data "vram_gb") = inr c /\
    body = JDict [("message", JStr "Successfully joined the compute pool");
                  ("provider_id", JStr (fst (generate_provider_id st)))] /\
    st' = mk_state
            (providers_set
               (mk_provider (fst (generate_provider_id st)) url ms
                            (get data "gpu_info") (get data "vram_gb") c 0)
               (compute_providers st))
            (provider_counter st + 1).
Proof.
  unfold join_pool.
  destruct (negb (truthy (get data "ollama_base_url"))
            || negb (truthy (get data "models"))); [(intros; discriminate)|].
  destruct (get data "ollama_base_url") as [| | | |url| |]; try (intros; discriminate).
  destruct (negb (startswith url "http://" || startswith url "https://"));
    [(intros; discriminate)|].
  destruct (valid_models (get data "models")) as [ms|]; [|(intros; discriminate)].
  simpl.
  destruct (resolve_max_clients (get data "max_clients") (get data "vram_gb"))
    as [e|c]; [(intros; discriminate)|].
  intros H. injection H as <- <-. exists url, ms, c. repeat split.
Qed.

Lemma join_pool_capacity_spec data st body st' :
  join_pool data st = (Reply body 201, st') ->
  registered_capacity data st
  = Some (spec_capacity (get data "max_clients") (get data "vram_gb")).
Proof.
  intros H. unfold registered_capacity. rewrite H.
  destruct (join_pool_registered _ _ _ _ H) as (url & ms & c & _ & _ & Hc & _ & ->).
  unfold find_provider. cbn [compute_providers].
  set (p := mk_provider _ url ms _ _ c 0).
  change (fst (generate_provider_id st)) with (id p).
  rewrite find_providers_set. simpl.
  now rewrite (resolve_max_clients_spec _ _ _ Hc).
Qed.

Ltac join_example :=
  intros st; erewrite join_pool_capacity_spec;
  [reflexivity | unfold join_pool, join_data; simpl; reflexivity].

(** C5.  A successful registration gives the provider the explicit
    [max_clients] when that is a positive integer, and otherwise 8, 4, 2 or 1
    by the tier of [vram_gb] (1 when it is absent); the five sample
    registrations get 8, 4, 2, 1, 1 and 3. *)
Theorem join_pool_capacity :
  (forall data st body st',
      join_pool data st = (Reply body 201, st') ->
      registered_capacity data st
      = Some (spec_capacity (get data "max_clients") (get data "vram_gb")))
  /\ (forall st, registered_capacity (join_data [("vram_gb", JInt 20)]) st = Some 8)
  /\ (forall st, registered_capacity (join_data [("vram_gb", JInt 10)]) st = Some 4)
  /\ (forall st, registered_capacity (join_data [("vram_gb", JInt 5)]) st = Some 2)
  /\ (forall st, registered_capacity (join_data [("vram_gb", JInt 1)]) st = Some 1)
  /\ (forall st, registered_capacity (join_data []) st = Some 1)
  /\ (forall st,
        registered_capacity
          (join_data [("vram_gb", JInt 20); ("max_clients", JInt 3)]) st = Some 3).
Proof.
  split; [exact join_pool_capacity_spec|].
  repeat split; join_example.
Qed.

Lemma join_pool_capacity_witness :
  registered_capacity (join_data [("vram_gb", JFloat (15 # 2))]) initial_state
  = Some 2.
Proof.
  exact (proj1 join_pool_capacity
               (join_data [("vram_gb", JFloat (15 # 2))]) initial_state _ _ eq_refl).
Defined.

Lemma all_named_nameless l entry :
  In entry l -> lacks_name entry -> all_named l = None.
Proof.
  induction l as [|x l IH]; simpl; [tauto|].
  intros [->|Hin] Hl.
  - destruct entry as [| | | | | |model_info]; try reflexivity.
    simpl in Hl. unfold dict_has. now rewrite Hl.
  - destruct x as [| | | | | |model_info]; try reflexivity.
    destruct (dict_has "name" model_info); [|reflexivity].
    now rewrite (IH Hin Hl).
Qed.

(** Every malformed join request is answered with a 400 and leaves the
    registry as it was. *)
Lemma join_pool_rejects data st :
  bad_base_url data \/ no_models data
  \/ (base_url_typed data /\ nameless_model data) ->
  exists msg, join_pool data st = (Reply (error_body msg) 400, st).
Proof.
  unfold join_pool.
  intros [Hurl | [Hm | [Ht Hn]]].
  - destruct Hurl as [-> | (s & -> & Hs)]; simpl; [eauto|].
    destruct Hs as [-> | [H1 H2]]; simpl; [eauto|].
    destruct (negb (negb (String.eqb s "")) || negb (truthy (get data "models")));
      [eauto|].
    rewrite H1, H2. simpl. eauto.
  - assert (truthy (get data "models") = false) as ->
        by (destruct Hm as [-> | ->]; reflexivity).
    rewrite orb_true_r. eauto.
  - destruct (negb (truthy (get data "ollama_base_url"))
              || negb (truthy (get data "models"))) eqn:E; [eauto|].
    destruct Ht as [Hnull | (s & Hs)].
    + rewrite Hnull in E. discriminate E.
    + rewrite Hs.
      destruct (negb (startswith s "http://" || startswith s "https://"));
        [eauto|].
      destruct Hn as (l & entry & -> & Hin & Hl).
      simpl. rewrite (all_named_nameless _ _ Hin Hl). eauto.
Qed.

(** ** Fresh identifiers *)

Lemma append_inj_l p x y : p ++ x = p ++ y -> x = y.
Proof.
  induction p as [|c p IH]; simpl; [auto|].
  intros H. injection H as H. auto.
Qed.

Lemma str_of_Z_inj a b : str_of_Z a = str_of_Z b -> a = b.
Proof.
  unfold str_of_Z. intros H. apply DecimalZ.to_int_inj.
  assert (Some (Z.to_int a) = Some (Z.to_int b)) as E
      by (rewrite <- !NilEmpty.isi; now rewrite H).
  now injection E.
Qed.

Lemma add_load_counter provider_id delta st :
  provider_counter (add_load provider_id delta st) = provider_counter st.
Proof. reflexivity. Qed.

Section CounterPreserved.

Variable environ : string -> option string.
Variable requests_post : outbound -> http_result.
Variable json_dumps : json -> string.
Variable py_repr : json -> string.

Lemma fallback_state prompt model_name_req st calls :
  snd (fst (fallback environ requests_post json_dumps py_repr
                     prompt model_name_req st calls)) = st.
Proof.
  unfold fallback.
  destruct (call_pollinations_api _ _ _ _ _ _) as [[e|[result status_code]] calls'];
    reflexivity.
Qed.

Lemma forward_counter request provider_id st :
  provider_counter (snd (forward requests_post request provider_id st))
  = provider_counter st.
Proof.
  unfold forward.
  destruct (requests_post request) as [msg|status_code text [msg|v]];
    [reflexivity| |];
    destruct (is_error_status status_code); try reflexivity.
  destruct (sanitize_completion v); reflexivity.
Qed.

Lemma completions_counter data st :
  provider_counter
    (snd (fst (completions environ requests_post json_dumps py_repr data st)))
  = provider_counter st.
Proof.
  unfold completions.
  destruct (negb (truthy (get data "prompt")) || negb (truthy (get data "model")));
    [reflexivity|].
  destruct (get data "model") as [| | | |model_name_req| |]; try reflexivity.
  destruct (select_provider model_name_req st) as [e|[[p|] lvl]];
    [reflexivity| |now rewrite fallback_state].
  pose proof (forward_counter
                (provider_request p data model_name_req (get data "prompt"))
                (id p) (add_load (id p) 1 st)) as F.
  destruct (forward _ _ _ _) as [[e|[body status_code]] st2]; simpl in F |- *.
  - rewrite fallback_state. destruct (is_request_exception e); exact F.
  - exact F.
Qed.

End CounterPreserved.

Lemma provider_id_of_inj a b : provider_id_of a = provider_id_of b -> a = b.
Proof. intros H. apply append_inj_l in H. now apply str_of_Z_inj. Qed.

(** ** Capacities stay positive *)

Lemma vram_default_positive vram_gb c : vram_default vram_gb = inr c -> 0 < c.
Proof.
  unfold vram_default.
  destruct (vram_at_least vram_gb 16) as [|[]]; simpl;
    [intros; discriminate | injection 1; lia |].
  destruct (vram_at_least vram_gb 8) as [|[]]; simpl;
    [intros; discriminate | injection 1; lia |].
  destruct (vram_at_least vram_gb 4) as [|[]]; simpl;
    [intros; discriminate | injection 1; lia | injection 1; lia].
Qed.

Lemma resolve_max_clients_positive max_clients_user vram_gb c :
  resolve_max_clients max_clients_user vram_gb = inr c -> 0 < c.
Proof.
  unfold resolve_max_clients.
  destruct (as_int max_clients_user) as [n|];
    [destruct (0 <? n) eqn:E|]; try apply vram_default_positive.
  injection 1 as <-. now apply Z.ltb_lt.
Qed.

Lemma providers_set_forall (P : provider -> Prop) p ps :
  P p -> Forall P ps -> Forall P (providers_set p ps).
Proof.
  intros Hp. induction 1 as [|q ps Hq Hps IH]; simpl; [now repeat constructor|].
  destruct (String.eqb (id q) (id p)); now constructor.
Qed.

Lemma add_load_capacities provider_id delta st :
  capacities_positive st -> capacities_positive (add_load provider_id delta st).
Proof.
  unfold capacities_positive, add_load. simpl. intros H.
  apply Forall_map. eapply Forall_impl; [|exact H].
  intros p Hp. now destruct (String.eqb (id p) provider_id).
Qed.

Lemma join_pool_capacities data st :
  capacities_positive st -> capacities_positive (snd (join_pool data st)).
Proof.
  intros H. unfold join_pool.
  destruct (negb (truthy (get data "ollama_base_url"))
            || negb (truthy (get data "models"))); [exact H|].
  destruct (get data "ollama_base_url") as [| | | |url| |]; try exact H.
  destruct (negb (startswith url "http://" || startswith url "https://"));
    [exact H|].
  destruct (valid_models (get data "models")) as [ms|]; [|exact H].
  cbn [generate_provider_id].
  destruct (resolve_max_clients (get data "max_clients") (get data "vram_gb"))
    as [e|c] eqn:E; [exact H|].
  apply resolve_max_clients_positive in E.
  unfold capacities_positive. cbn [snd compute_providers].
  now apply providers_set_forall.
Qed.

Section CapacityPreserved.

Variable environ : string -> option string.
Variable requests_post : outbound -> http_result.
Variable json_dumps : json -> string.
Variable py_repr : json -> string.

Lemma forward_capacities request provider_id st :
  capacities_positive st ->
  capacities_positive (snd (forward requests_post request provider_id st)).
Proof.
  intros H. unfold forward.
  destruct (requests_post request) as [msg|status_code text [msg|v]];
    [exact H| |];
    destruct (is_error_status status_code); try exact H.
  destruct (sanitize_completion v); now apply add_load_capacities.
Qed.

Lemma completions_capacities data st :
  capacities_positive st ->
  capacities_positive
    (snd (fst (completions environ requests_post json_dumps py_repr data st))).
Proof.
  intros H. unfold completions.
  destruct (negb (truthy (get data "prompt")) || negb (truthy (get data "model")));
    [exact H|].
  destruct (get data "model") as [| | | |model_name_req| |]; try exact H.
  destruct (select_provider model_name_req st) as [e|[[p|] lvl]];
    [exact H| |now rewrite fallback_state].
  pose proof (forward_capacities
                (provider_request p data model_name_req (get data "prompt"))
                (id p) (add_load (id p) 1 st)
                (add_load_capacities _ _ _ H)) as F.
  destruct (forward _ _ _ _) as [[e|[body status_code]] st2]; simpl in F |- *.
  - rewrite fallback_state.
    destruct (is_request_exception e); now apply add_load_capacities.
  - exact F.
Qed.

End CapacityPreserved.

(** Whatever requests the server has answered since it started, every
    capacity in its registry is positive. *)
Lemma serve_capacities environ json_dumps py_repr rs :
  forall st,
    capacities_positive st ->
    capacities_positive (snd (serve environ json_dumps py_repr rs st)).
Proof.
  induction rs as [|r rs IH]; intros st H; cbn [serve]; [exact H|].
  assert (capacities_positive (snd (handle environ json_dumps py_repr r st))) as H1.
  { destruct r as [data| |data requests_post]; simpl.
    - now apply join_pool_capacities.
    - exact H.
    - now apply completions_capacities. }
  destruct (handle environ json_dumps py_repr r st) as [o st1].
  specialize (IH st1 H1).
  now destruct (serve environ json_dumps py_repr rs st1).
Qed.

(** The four ways a join request can end. *)
Lemma join_pool_cases data st :
  (exists msg, join_pool data st = (Reply (error_body msg) 400, st))
  \/ join_pool data st = (Unhandled AttributeError, st)
  \/ (exists e, join_pool data st = (Unhandled e, snd (generate_provider_id st)))
  \/ (exists body st', join_pool data st = (Reply body 201, st')).
Proof.
  unfold join_pool.
  destruct (negb (truthy (get data "ollama_base_url"))
            || negb (truthy (get data "models"))); [eauto|].
  destruct (get data "ollama_base_url") as [| | | |url| |]; auto.
  destruct (negb (startswith url "http://" || startswith url "https://"));
    [eauto|].
  destruct (valid_models (get data "models")) as [ms|]; [|eauto].
  cbn [generate_provider_id].
  destruct (resolve_max_clients (get data "max_clients") (get data "vram_gb"));
    eauto 6.
Qed.

(** One request: the counter never goes down, and an identifier handed out
    is the next one. *)
Lemma handle_counter environ json_dumps py_repr r st :
  provider_counter st
  <= provider_counter (snd (handle environ json_dumps py_repr r st))
  /\ forall i,
      issued_id (r, fst (handle environ json_dumps py_repr r st)) = Some i ->
      i = provider_id_of (provider_counter st + 1) /\
      provider_counter (snd (handle environ json_dumps py_repr r st))
      = provider_counter st + 1.
Proof.
  destruct r as [data| |data requests_post]; simpl.
  - destruct (join_pool_cases data st)
      as [(msg & E) | [E | [(e & E) | (body & st' & E)]]].
    + rewrite E. simpl. split; [lia|]. intros i H. discriminate H.
    + rewrite E. simpl. split; [lia|]. intros i H. discriminate H.
    + rewrite E. simpl. split; [lia|]. intros i H. discriminate H.
    + rewrite E.
      destruct (join_pool_registered _ _ _ _ E)
        as (url & ms & c & _ & _ & _ & -> & ->).
      simpl. split; [lia|]. intros i H. injection H as <-. now split.
  - split; [lia|]. intros i H. discriminate H.
  - rewrite completions_counter. split; [lia|]. intros i H. discriminate H.
Qed.

Lemma serve_issued environ json_dumps py_repr rs :
  forall st,
    let ids := issued_ids (fst (serve environ json_dumps py_repr rs st)) in
    NoDup ids /\
    Forall (fun i => exists k, provider_counter st < k /\ i = provider_id_of k) ids.
Proof.
  induction rs as [|r rs IH]; intros st; cbn [serve].
  - split; constructor.
  - pose proof (handle_counter environ json_dumps py_repr r st) as [Hle Hid].
    destruct (handle environ json_dumps py_repr r st) as [o st1].
    cbn [fst snd] in Hle, Hid.
    specialize (IH st1). destruct (serve environ json_dumps py_repr rs st1) as [log st2].
    cbn [fst issued_ids] in IH |- *. destruct IH as [Hnd Hall].
    assert (Forall (fun i => exists k, provider_counter st < k /\ i = provider_id_of k)
                   (issued_ids log)) as Hall'.
    { eapply Forall_impl; [|exact Hall]. intros i (k & Hk & ->).
      exists k. split; [lia|reflexivity]. }
    destruct (issued_id (r, o)) as [i|] eqn:E; [|now split].
    destruct (Hid i eq_refl) as [-> Hst1]. split.
    + constructor; [|exact Hnd]. intros Hin.
      rewrite Forall_forall in Hall. destruct (Hall _ Hin) as (k & Hk & Heq).
      apply provider_id_of_inj in Heq. lia.
    + constructor; [|exact Hall']. exists (provider_counter st + 1).
      split; [lia|reflexivity].
Qed.

(** C7.  A join request whose base address is missing, empty or without an
    [http://] or [https://] prefix, whose model list is missing or empty, or
    one of whose model entries has no name, is answered with a client error
    and adds no provider; and the identifiers handed out by the successful
    registrations of any run of the server are pairwise distinct. *)
Theorem join_pool_validation_and_fresh_ids :
  (forall data st,
      bad_base_url data \/ no_models data
      \/ (base_url_typed data /\ nameless_model data) ->
      exists msg, join_pool data st = (Reply (error_body msg) 400, st))
  /\ (forall environ json_dumps py_repr rs st,
         NoDup (issued_ids (fst (serve environ json_dumps py_repr rs st)))).
Proof.
  split; [exact join_pool_rejects|].
  intros environ json_dumps py_repr rs st.
  exact (proj1 (serve_issued environ json_dumps py_repr rs st)).
Qed.

Lemma join_pool_validation_and_fresh_ids_witness :
  exists msg,
    join_pool [("ollama_base_url", JStr "ftp://node"); ("models", JList [JDict []])]
              initial_state
    = (Reply (error_body msg) 400, initial_state).
Proof.
  apply (proj1 join_pool_validation_and_fresh_ids).
  left. right. exists "ftp://node". repeat split. now right.
Defined.

(** ** Matcher *)

Lemma insert_by_load_perm x l : Permutation (x :: l) (insert_by_load x l).
Proof.
  induction l as [|y l IH]; simpl; [reflexivity|].
  destruct (ratio_ltb x y); [reflexivity|].
  rewrite perm_swap. now constructor.
Qed.

Lemma sort_by_load_perm ps : Permutation ps (sort_by_load ps).
Proof.
  unfold sort_by_load.
  enough (forall acc, Permutation (acc ++ ps)%list
                        (fold_left (fun acc x => insert_by_load x acc) ps acc))
    as H by exact (H []).
  induction ps as [|x ps IH]; intros acc; simpl.
  - now rewrite app_nil_r.
  - rewrite <- IH, <- insert_by_load_perm. symmetry. apply Permutation_middle.
Qed.

(** The ranking is in ascending order of the load ratio. *)
Lemma insert_by_load_sorted x l :
  Sorted (fun p q => (load_ratio p <= load_ratio q)%Q) l ->
  Sorted (fun p q => (load_ratio p <= load_ratio q)%Q) (insert_by_load x l).
Proof.
  induction 1 as [|y l Hl IH Hhd]; simpl; [repeat constructor|].
  unfold ratio_ltb. destruct (Qle_bool (load_ratio y) (load_ratio x)) eqn:E; simpl.
  - apply Qle_bool_iff in E. constructor; [exact IH|].
    destruct Hhd as [|z l Hyz]; simpl; [now repeat constructor|].
    destruct (ratio_ltb x z); now constructor.
  - constructor; [now constructor|]. constructor.
    destruct (Qlt_le_dec (load_ratio x) (load_ratio y)) as [Hlt|Hle].
    + now apply Qlt_le_weak.
    + apply Qle_bool_iff in Hle. congruence.
Qed.

Lemma sort_by_load_sorted ps :
  Sorted (fun p q => (load_ratio p <= load_ratio q)%Q) (sort_by_load ps).
Proof.
  unfold sort_by_load.
  enough (forall acc,
             Sorted (fun p q => (load_ratio p <= load_ratio q)%Q) acc ->
             Sorted (fun p q => (load_ratio p <= load_ratio q)%Q)
                    (fold_left (fun acc x => insert_by_load x acc) ps acc))
    as H by (apply H; constructor).
  induction ps as [|x ps IH]; intros acc Hacc; simpl; [exact Hacc|].
  apply IH. now apply insert_by_load_sorted.
Qed.

Lemma registry_ok_sorted st :
  registry_ok st ->
  providers_sorted_by_load st = inr (sort_by_load (compute_providers st)).
Proof.
  unfold registry_ok, providers_sorted_by_load. intros H.
  enough (existsb (fun p => max_clients p =? 0) (compute_providers st) = false)
    as -> by reflexivity.
  induction H as [|p ps [Hp _] _ IH]; simpl; [reflexivity|].
  rewrite IH, orb_false_r. apply Z.eqb_neq. lia.
Qed.

(** The first element of a list that passes a test. *)
Lemma first_split {A} (P : A -> bool) (l : list A) :
  existsb P l = true ->
  exists pre x post,
    l = (pre ++ x :: post)%list /\ P x = true /\ forall y, In y pre -> P y = false.
Proof.
  induction l as [|a l IH]; simpl; [intros; discriminate|].
  destruct (P a) eqn:E; simpl.
  - intros _. exists [], a, l. repeat split; [exact E | intros y []].
  - intros H. destruct (IH H) as (pre & x & post & -> & Hx & Hpre).
    exists (a :: pre), x, post. repeat split; [exact Hx|].
    intros y [<-|Hy]; auto.
Qed.

Lemma skip_test_eligible p :
  (current_load p >=? max_clients p) = negb (eligible p).
Proof.
  unfold eligible. rewrite Z.geb_leb, Z.ltb_antisym. now rewrite negb_involutive.
Qed.

(** A model list with an exact match ends the scan at level 2 with this
    provider, whatever was held before. *)
Lemma scan_models_exact model_name_req p ms :
  names_ok ms -> existsb (named model_name_req) ms = true ->
  forall selected best, best < 2 ->
    scan_models model_name_req p ms selected best = inr (Some p, 2).
Proof.
  induction 1 as [|model_info ms Hm _ IH]; simpl; [intros; discriminate|].
  intros Hex selected best Hb. unfold named in Hex at 1.
  destruct (eq_str (get model_info "name") model_name_req) eqn:E; simpl.
  - apply Z.ltb_lt in Hb. now rewrite Hb.
  - simpl in Hex. destruct (get model_info "name"); try discriminate Hm.
    destruct (contains ":" model_name_req);
      match goal with
      | |- context [if ?c then _ else _] => destruct c
      end; apply IH; auto; lia.
Qed.

(** A model list without an exact match leaves the level below 2. *)
Lemma scan_models_no_exact model_name_req p ms :
  names_ok ms -> existsb (named model_name_req) ms = false ->
  forall selected best, best < 2 ->
    exists selected' best',
      scan_models model_name_req p ms selected best = inr (selected', best')
      /\ best' < 2.
Proof.
  induction 1 as [|model_info ms Hm _ IH]; simpl; [eauto|].
  intros Hex selected best Hb. apply orb_false_iff in Hex as [E Hex].
  unfold named in E. rewrite E. simpl.
  destruct (get model_info "name"); try discriminate Hm.
  destruct (contains ":" model_name_req);
    match goal with
    | |- context [if ?c then _ else _] => destruct c
    end; apply IH; auto; lia.
Qed.

(** The scan stops at the first under-capacity provider with an exact
    match and selects it; what comes behind it in the ranking is not
    looked at. *)
Lemma scan_providers_first_exact model_name_req winner post pre :
  Forall provider_ok pre -> provider_ok winner ->
  (forall q, In q pre -> eligible q && offers_exactly model_name_req q = false) ->
  eligible winner = true -> offers_exactly model_name_req winner = true ->
  forall selected best, best < 2 ->
    scan_providers model_name_req (pre ++ winner :: post)%list selected best
    = inr (Some winner, 2).
Proof.
  intros Hpre [_ Hw] Hno He Hx.
  induction Hpre as [|q pre [_ Hq] _ IH]; intros selected best Hb; simpl.
  - rewrite skip_test_eligible, He. simpl.
    now rewrite (scan_models_exact _ _ _ Hw Hx _ _ Hb).
  - rewrite skip_test_eligible.
    assert (forall q', In q' pre ->
                       eligible q' && offers_exactly model_name_req q' = false)
      as Hno' by (intros; apply Hno; now right).
    specialize (Hno q (or_introl eq_refl)).
    destruct (eligible q); simpl; [|now apply IH].
    simpl in Hno.
    destruct (scan_models_no_exact _ q _ Hq Hno selected best Hb)
      as (selected' & best' & -> & Hb').
    simpl. assert ((best' =? 2) = false) as -> by (apply Z.eqb_neq; lia).
    now apply IH.
Qed.

(** One step of the scan over a model that is not an exact match. *)
Lemma scan_models_step model_name_req p model_info ms selected best :
  is_str (get model_info "name") = true ->
  named model_name_req model_info = false ->
  scan_models model_name_req p (model_info :: ms) selected best =
  if prefix_named model_name_req model_info && (best <? 1)
  then scan_models model_name_req p ms (Some p) 1
  else scan_models model_name_req p ms selected best.
Proof.
  unfold named, prefix_named, base_name. intros Hs Hn. simpl. rewrite Hn. simpl.
  destruct (get model_info "name"); try discriminate Hs.
  now destruct (contains ":" model_name_req).
Qed.

(** Without an exact match a level already at 1 stays as it is. *)
Lemma scan_models_keep model_name_req p ms selected :
  names_ok ms -> existsb (named model_name_req) ms = false ->
  scan_models model_name_req p ms selected 1 = inr (selected, 1).
Proof.
  induction 1 as [|model_info ms Hm _ IH]; [reflexivity|].
  intros Hex. apply orb_false_iff in Hex as [E Hex].
  rewrite (scan_models_step _ _ _ _ _ _ Hm E), andb_false_r. auto.
Qed.

(** Without an exact match, from level 0, the provider is taken at level 1
    when one of its names starts with the base of the request. *)
Lemma scan_models_prefix model_name_req p ms selected :
  names_ok ms -> existsb (named model_name_req) ms = false ->
  scan_models model_name_req p ms selected 0 =
  inr (if existsb (prefix_named model_name_req) ms
       then (Some p, 1) else (selected, 0)).
Proof.
  induction 1 as [|model_info ms Hm Hms IH]; [reflexivity|].
  intros Hex. apply orb_false_iff in Hex as [E Hex].
  rewrite (scan_models_step _ _ _ _ _ _ Hm E), andb_true_r. simpl.
  destruct (prefix_named model_name_req model_info); simpl; [|auto].
  now apply scan_models_keep.
Qed.

Lemma scan_providers_keep model_name_req ps selected :
  Forall provider_ok ps ->
  (forall q, In q ps -> eligible q && offers_exactly model_name_req q = false) ->
  scan_providers model_name_req ps selected 1 = inr (selected, 1).
Proof.
  induction 1 as [|q ps [_ Hq] _ IH]; intros Hno; simpl; [reflexivity|].
  rewrite skip_test_eligible.
  assert (forall q', In q' ps ->
                     eligible q' && offers_exactly model_name_req q' = false)
    as Hno' by (intros; apply Hno; now right).
  specialize (Hno q (or_introl eq_refl)).
  destruct (eligible q); simpl; [|auto].
  rewrite (scan_models_keep _ _ _ _ Hq Hno). simpl. auto.
Qed.

(** With no exact match among the under-capacity providers, the first of
    them in the ranking that has a prefix match is selected, at level 1. *)
Lemma scan_providers_first_prefix model_name_req winner post pre :
  Forall provider_ok (pre ++ winner :: post)%list ->
  (forall q, In q (pre ++ winner :: post)%list ->
             eligible q && offers_exactly model_name_req q = false) ->
  (forall q, In q pre -> eligible q && offers_prefix model_name_req q = false) ->
  eligible winner = true -> offers_prefix model_name_req winner = true ->
  scan_providers model_name_req (pre ++ winner :: post)%list None 0
  = inr (Some winner, 1).
Proof.
  induction pre as [|q pre IH]; intros Hok Hnx Hnp He Hp; simpl in *.
  - apply Forall_cons_iff in Hok as [[_ Hw] Hpost].
    rewrite skip_test_eligible, He. simpl.
    pose proof (Hnx winner (or_introl eq_refl)) as Hx. rewrite He in Hx.
    rewrite (scan_models_prefix _ _ _ _ Hw Hx).
    unfold offers_prefix in Hp. rewrite Hp. simpl.
    apply scan_providers_keep; auto.
  - apply Forall_cons_iff in Hok as [[_ Hq] Hok].
    rewrite skip_test_eligible.
    pose proof (Hnx q (or_introl eq_refl)) as Hx.
    pose proof (Hnp q (or_introl eq_refl)) as Hq'.
    destruct (eligible q); simpl in *; [|now apply IH; auto].
    rewrite (scan_models_prefix _ _ _ _ Hq Hx).
    unfold offers_prefix in Hq'. rewrite Hq'. simpl.
    apply IH; auto.
Qed.

Lemma prefix_match_selected st model_name_req p :
  registry_ok st ->
  (forall q, In q (compute_providers st) ->
             eligible q && offers_exactly model_name_req q = false) ->
  In p (compute_providers st) ->
  eligible p = true -> offers_prefix model_name_req p = true ->
  exists pre winner post,
    providers_sorted_by_load st = inr (pre ++ winner :: post)%list
    /\ eligible winner = true
    /\ offers_prefix model_name_req winner = true
    /\ (forall q, In q pre ->
                  eligible q && offers_prefix model_name_req q = false)
    /\ select_provider model_name_req st = inr (Some winner, 1).
Proof.
  intros Hok Hnx Hin He Hp.
  pose proof (sort_by_load_perm (compute_providers st)) as Hperm.
  assert (existsb (fun q => eligible q && offers_prefix model_name_req q)
                  (sort_by_load (compute_providers st)) = true) as Hex.
  { apply existsb_exists. exists p. split.
    - eapply Permutation_in; eassumption.
    - now rewrite He, Hp. }
  destruct (first_split _ _ Hex) as (pre & winner & post & Hsplit & Hw & Hpre).
  apply andb_true_iff in Hw as [Hwe Hwp].
  assert (Forall provider_ok (pre ++ winner :: post)%list) as Hall.
  { rewrite <- Hsplit. eapply Permutation_Forall; eassumption. }
  assert (forall q, In q (pre ++ winner :: post)%list ->
                    eligible q && offers_exactly model_name_req q = false) as Hnx'.
  { intros q Hq. apply Hnx. rewrite <- Hsplit in Hq.
    eapply Permutation_in; [symmetry|]; eassumption. }
  exists pre, winner, post.
  refine (conj _ (conj Hwe (conj Hwp (conj Hpre _)))).
  - now rewrite registry_ok_sorted, Hsplit.
  - unfold select_provider. rewrite registry_ok_sorted, Hsplit by assumption.
    now apply scan_providers_first_prefix.
Qed.

Lemma exact_match_selected st model_name_req p :
  registry_ok st -> In p (compute_providers st) ->
  eligible p = true -> offers_exactly model_name_req p = true ->
  exists pre winner post,
    providers_sorted_by_load st = inr (pre ++ winner :: post)%list
    /\ eligible winner = true
    /\ offers_exactly model_name_req winner = true
    /\ (forall q, In q pre ->
                  eligible q && offers_exactly model_name_req q = false)
    /\ select_provider model_name_req st = inr (Some winner, 2)
    /\ (forall post',
           scan_providers model_name_req (pre ++ winner :: post')%list None 0
           = inr (Some winner, 2)).
Proof.
  intros Hok Hin He Hx.
  pose proof (sort_by_load_perm (compute_providers st)) as Hperm.
  assert (existsb (fun q => eligible q && offers_exactly model_name_req q)
                  (sort_by_load (compute_providers st)) = true) as Hex.
  { apply existsb_exists. exists p. split.
    - eapply Permutation_in; eassumption.
    - now rewrite He, Hx. }
  destruct (first_split _ _ Hex) as (pre & winner & post & Hsplit & Hw & Hpre).
  apply andb_true_iff in Hw as [Hwe Hwx].
  assert (Forall provider_ok (pre ++ winner :: post)%list) as Hall.
  { rewrite <- Hsplit. eapply Permutation_Forall; eassumption. }
  apply Forall_app in Hall as [Hokpre Hokw].
  apply Forall_cons_iff in Hokw as [Hokw _].
  assert (forall post',
             scan_providers model_name_req (pre ++ winner :: post')%list None 0
             = inr (Some winner, 2)) as Hscan
      by (intros; apply scan_providers_first_exact; auto; lia).
  exists pre, winner, post. repeat split; auto.
  - now rewrite registry_ok_sorted, Hsplit.
  - unfold select_provider. rewrite registry_ok_sorted, Hsplit by assumption.
    apply Hscan.
Qed.

(** C1.  When some under-capacity provider offers the requested name
    exactly, the matcher selects the first such provider of the ranking, at
    level 2, whatever prefix matches better-ranked providers have and
    whatever follows in the ranking; with P1 (load 1 of 4, "A:tag") and P2
    (load 0 of 4, "A:tag2") a request for "A:tag" selects P1. *)
Theorem exact_match_wins :
  (forall st model_name_req p,
      registry_ok st -> In p (compute_providers st) ->
      eligible p = true -> offers_exactly model_name_req p = true ->
      exists pre winner post,
        providers_sorted_by_load st = inr (pre ++ winner :: post)%list
        /\ eligible winner = true
        /\ offers_exactly model_name_req winner = true
        /\ (forall q, In q pre ->
                      eligible q && offers_exactly model_name_req q = false)
        /\ select_provider model_name_req st = inr (Some winner, 2)
        /\ (forall post',
               scan_providers model_name_req (pre ++ winner :: post')%list None 0
               = inr (Some winner, 2)))
  /\ (forall counter,
         providers_sorted_by_load (mk_state [P1; P2] counter) = inr [P2; P1]
         /\ select_provider "A:tag" (mk_state [P1; P2] counter) = inr (Some P1, 2)).
Proof.
  split; [exact exact_match_selected|].
  intros counter. split; reflexivity.
Qed.

Lemma exact_match_wins_witness :
  exists pre winner post,
    providers_sorted_by_load (mk_state [P1; P2] 2) = inr (pre ++ winner :: post)%list
    /\ eligible winner = true
    /\ offers_exactly "A:tag" winner = true
    /\ (forall q, In q pre -> eligible q && offers_exactly "A:tag" q = false)
    /\ select_provider "A:tag" (mk_state [P1; P2] 2) = inr (Some winner, 2)
    /\ (forall post',
           scan_providers "A:tag" (pre ++ winner :: post')%list None 0
           = inr (Some winner, 2)).
Proof.
  apply (proj1 exact_match_wins (mk_state [P1; P2] 2) "A:tag" P1).
  - repeat constructor.
  - now left.
  - reflexivity.
  - reflexivity.
Defined.

(** ** Dispatcher *)

Lemma add_load_cancel provider_id st :
  add_load provider_id (-1) (add_load provider_id 1 st) = st.
Proof.
  destruct st as [ps counter]. unfold add_load. simpl. f_equal.
  rewrite map_map. rewrite <- (map_id ps) at 2. apply map_ext.
  intros p. destruct (String.eqb (id p) provider_id) eqn:E; simpl; rewrite ?E.
  - destruct p; simpl. f_equal. lia.
  - reflexivity.
Qed.

Lemma sanitize_completion_object d :
  exists v, sanitize_completion (JDict d) = inr v.
Proof.
  unfold sanitize_completion, py_in, py_item, dict_has. simpl.
  destruct (dict_get "response" d) as [[]|]; simpl; eauto.
Qed.

Section Dispatch.

Variable environ : string -> option string.
Variable requests_post : outbound -> http_result.
Variable json_dumps : json -> string.
Variable py_repr : json -> string.

(** When the backend fails, or answers with a body that the sanitizer
    accepts, the registry is afterwards what it was before the request. *)
Lemma completions_restores_load data st :
  (forall request status_code text v,
      requests_post request = Response status_code text (inr v) ->
      is_error_status status_code = false ->
      exists v', sanitize_completion v = inr v') ->
  snd (fst (completions environ requests_post json_dumps py_repr data st)) = st.
Proof.
  intros Hbody. unfold completions.
  destruct (negb (truthy (get data "prompt")) || negb (truthy (get data "model")));
    [reflexivity|].
  destruct (get data "model") as [| | | |model_name_req| |]; try reflexivity.
  destruct (select_provider model_name_req st) as [e|[[p|] lvl]];
    [reflexivity| |now rewrite fallback_state].
  unfold forward.
  set (request := provider_request p data model_name_req (get data "prompt")).
  specialize (Hbody request).
  destruct (requests_post request) as [msg|status_code text [msg|v]]; simpl.
  - now rewrite fallback_state, add_load_cancel.
  - destruct (is_error_status status_code); simpl;
      now rewrite fallback_state, add_load_cancel.
  - destruct (is_error_status status_code) eqn:E; simpl.
    + now rewrite fallback_state, add_load_cancel.
    + destruct (Hbody _ _ _ eq_refl E) as (v' & ->). simpl.
      apply add_load_cancel.
Qed.

(** A failed attempt is answered by the fallback client alone: the reply
    is what [fallback] gives for the prompt and the requested name, and
    the text of the transport error is no part of it. *)
Lemma completions_failure_falls_back data st model_name_req p lvl msg :
  truthy (get data "prompt") = true ->
  get data "model" = JStr model_name_req ->
  model_name_req <> "" ->
  select_provider model_name_req st = inr (Some p, lvl) ->
  requests_post (provider_request p data model_name_req (get data "prompt"))
  = NoResponse msg ->
  completions environ requests_post json_dumps py_repr data st
  = fallback environ requests_post json_dumps py_repr
             (get data "prompt") model_name_req st
             [provider_request p data model_name_req (get data "prompt")].
Proof.
  intros Hp Hm Hne Hsel Hpost. unfold completions.
  rewrite Hp, Hm. simpl.
  assert (String.eqb model_name_req "" = false) as -> by now apply String.eqb_neq.
  simpl. rewrite Hsel. unfold forward. rewrite Hpost. simpl.
  now rewrite add_load_cancel.
Qed.

End Dispatch.

(** C2 (the failing run).  P2 has load 0; a request for "A:tag2" is sent to
    it, its backend answers 200 with the body [null], and the load of P2 is
    -1 afterwards: line 280 released the slot, the membership test at line
    283 raised, and the handler at line 297 released it again. *)
Theorem completions_double_release :
  forall environ json_dumps py_repr,
    load_of "provider_2" (mk_state [P1; P2] 2) = Some 0
    /\ load_of "provider_2"
         (snd (fst (completions environ null_body_backend json_dumps py_repr
                                bare_request (mk_state [P1; P2] 2))))
       = Some (-1).
Proof.
  intros environ json_dumps py_repr. split; [reflexivity|].
  unfold completions. simpl.
  rewrite fallback_state. reflexivity.
Qed.

(** ** Outbound payload *)

Lemma dict_get_drop_none_cons k k' v d :
  dict_get k (drop_none ((k', v) :: d)) =
  if String.eqb k' k
  then match v with JNull => dict_get k (drop_none d) | _ => Some v end
  else dict_get k (drop_none d).
Proof.
  unfold drop_none. simpl.
  destruct v; simpl; destruct (String.eqb k' k); reflexivity.
Qed.

Lemma get_default_passed data k default :
  non_null (get_default data k default)
  = passed_through data k (non_null default).
Proof.
  unfold get_default, passed_through.
  destruct (dict_get k data); reflexivity.
Qed.

Ltac payload_field :=
  unfold ollama_payload; rewrite !dict_get_drop_none_cons; simpl;
  try reflexivity.

Lemma ollama_payload_model data model_name_req prompt :
  dict_get "model" (ollama_payload data model_name_req prompt)
  = Some (JStr model_name_req).
Proof. payload_field. Qed.

Lemma ollama_payload_prompt data model_name_req prompt :
  prompt <> JNull ->
  dict_get "prompt" (ollama_payload data model_name_req prompt) = Some prompt.
Proof. intros H. payload_field. destruct prompt; congruence. Qed.

Lemma ollama_payload_stream data model_name_req prompt :
  dict_get "stream" (ollama_payload data model_name_req prompt)
  = passed_through data "stream" (Some (JBool false)).
Proof. payload_field. exact (get_default_passed data "stream" (JBool false)). Qed.

Lemma ollama_payload_options data model_name_req prompt :
  dict_get "options" (ollama_payload data model_name_req prompt)
  = passed_through data "options" (Some (JDict [])).
Proof. payload_field. exact (get_default_passed data "options" (JDict [])). Qed.

Lemma ollama_payload_optional data model_name_req prompt k :
  In k ["system"; "template"; "context"; "format"] ->
  dict_get k (ollama_payload data model_name_req prompt)
  = passed_through data k None.
Proof.
  intros [<-|[<-|[<-|[<-|[]]]]]; payload_field.
  - exact (get_default_passed data "system" JNull).
  - exact (get_default_passed data "template" JNull).
  - exact (get_default_passed data "context" JNull).
  - exact (get_default_passed data "format" JNull).
Qed.

Lemma ollama_payload_other data model_name_req prompt k :
  ~ In k ["model"; "prompt"; "stream"; "options";
          "system"; "template"; "context"; "format"] ->
  dict_get k (ollama_payload data model_name_req prompt) = None.
Proof.
  intros H. unfold ollama_payload. rewrite !dict_get_drop_none_cons.
  repeat match goal with
         | |- context [String.eqb ?a k] =>
             destruct (String.eqb_spec a k) as [E|_];
             [exfalso; apply H; rewrite <- E; simpl; tauto|]
         end.
  reflexivity.
Qed.

(** C4 (counterexample).  A request without [options] is forwarded with
    [options] set to an empty object. *)
Lemma payload_has_options_unasked :
  dict_has "options" bare_request = false
  /\ map (fun call => dict_get "options" (payload call))
         (snd (completions (fun _ => None) unreachable_backend
                           (fun _ => "") (fun _ => "")
                           bare_request (mk_state [P1; P2] 2)))
     = [Some (JDict [])].
Proof. split; reflexivity. Qed.

(** C4 (amended).  The payload sent to a provider holds the requested model
    name and the prompt; [stream] with the request's value, or [false] when
    the request has none; [options] with the request's value, or an empty
    object when the request has none; each of [system], [template],
    [context], [format] exactly when the request has it; a field that the
    request gives as null is left out; and nothing else. *)
Theorem ollama_payload_fields :
  forall selected_provider data model_name_req prompt,
    prompt <> JNull ->
    let sent := payload (provider_request selected_provider data
                                          model_name_req prompt) in
    dict_get "model" sent = Some (JStr model_name_req)
    /\ dict_get "prompt" sent = Some prompt
    /\ dict_get "stream" sent = passed_through data "stream" (Some (JBool false))
    /\ dict_get "options" sent = passed_through data "options" (Some (JDict []))
    /\ (forall k, In k ["system"; "template"; "context"; "format"] ->
                  dict_get k sent = passed_through data k None)
    /\ (forall k, ~ In k ["model"; "prompt"; "stream"; "options";
                          "system"; "template"; "context"; "format"] ->
                  dict_get k sent = None).
Proof.
  intros selected_provider data model_name_req prompt Hp.
  cbv zeta. unfold provider_request. cbn [payload].
  refine (conj _ (conj _ (conj _ (conj _ (conj _ _))))).
  - apply ollama_payload_model.
  - now apply ollama_payload_prompt.
  - apply ollama_payload_stream.
  - apply ollama_payload_options.
  - apply ollama_payload_optional.
  - apply ollama_payload_other.
Qed.

Lemma ollama_payload_fields_witness :
  dict_get "system"
           (payload (provider_request P1 [("system", JStr "be brief")] "A:tag"
                                      (JStr "hello")))
  = Some (JStr "be brief")
  /\ dict_get "temperature"
              (payload (provider_request P1 [("temperature", JInt 1)] "A:tag"
                                         (JStr "hello")))
     = None.
Proof.
  split.
  - refine (proj1 (proj2 (proj2 (proj2 (proj2
              (ollama_payload_fields P1 [("system", JStr "be brief")] "A:tag"
                                     (JStr "hello") _))))) "system" _).
    + discriminate.
    + simpl. tauto.
  - refine (proj2 (proj2 (proj2 (proj2 (proj2
              (ollama_payload_fields P1 [("temperature", JInt 1)] "A:tag"
                                     (JStr "hello") _))))) "temperature" _).
    + discriminate.
    + simpl. intros [H|[H|[H|[H|[H|[H|[H|[H|[]]]]]]]]]; discriminate H.
Defined.

Section RequestedName.

Variable environ : string -> option string.
Variable requests_post : outbound -> http_result.
Variable json_dumps : json -> string.
Variable py_repr : json -> string.

(** Whatever the level of the match, the first outbound call goes to the
    selected provider and carries [provider_request]. *)
Lemma completions_first_call data st model_name_req p lvl :
  truthy (get data "prompt") = true ->
  get data "model" = JStr model_name_req ->
  model_name_req <> "" ->
  select_provider model_name_req st = inr (Some p, lvl) ->
  exists rest,
    snd (completions environ requests_post json_dumps py_repr data st)
    = provider_request p data model_name_req (get data "prompt") :: rest.
Proof.
  intros Hp Hm Hne Hsel. unfold completions. rewrite Hp, Hm. simpl.
  assert (String.eqb model_name_req "" = false) as -> by now apply String.eqb_neq.
  simpl. rewrite Hsel.
  destruct (forward _ _ _ _) as [[e|[body status_code]] st2]; [|simpl; eauto].
  unfold fallback.
  destruct (call_pollinations_api _ _ _ _ _ _) as [[e'|[result status_code]] calls'];
    simpl; eauto.
Qed.

End RequestedName.

(** C10.  When the matcher selects a provider at level 1, the call sent to
    that provider names the model as the caller wrote it. *)
Theorem prefix_match_keeps_requested_name :
  forall environ requests_post json_dumps py_repr data st model_name_req p,
    truthy (get data "prompt") = true ->
    get data "model" = JStr model_name_req ->
    model_name_req <> "" ->
    select_provider model_name_req st = inr (Some p, 1) ->
    exists call rest,
      snd (completions environ requests_post json_dumps py_repr data st)
      = call :: rest
      /\ url call = ollama_base_url p ++ "/api/generate"
      /\ dict_get "model" (payload call) = Some (JStr model_name_req).
Proof.
  intros environ requests_post json_dumps py_repr data st model_name_req p
         Hp Hm Hne Hsel.
  destruct (completions_first_call environ requests_post json_dumps py_repr
                                   data st model_name_req p 1 Hp Hm Hne Hsel)
    as (rest & ->).
  eexists _, rest. split; [reflexivity|]. split; [reflexivity|].
  apply ollama_payload_model.
Qed.

Lemma prefix_match_keeps_requested_name_witness :
  exists call rest,
    snd (completions (fun _ => None) unreachable_backend
                     (fun _ => "") (fun _ => "")
                     [("prompt", JStr "hello"); ("model", JStr "A:Q8_0")]
                     (mk_state [P1; P2] 2))
    = call :: rest
    /\ url call = ollama_base_url P2 ++ "/api/generate"
    /\ dict_get "model" (payload call) = Some (JStr "A:Q8_0").
Proof.
  apply prefix_match_keeps_requested_name; try reflexivity. discriminate.
Defined.

(** ** Fallback client *)

Lemma startswith_colon c s :
  startswith (String c s) ":" = Ascii.eqb c ":".
Proof.
  unfold startswith.
  change (String.prefix ":" (String c s))
    with (if ascii_dec ":" c then String.prefix "" s else false).
  destruct (ascii_dec ":" c) as [<-|H].
  - now destruct s.
  - symmetry. apply Ascii.eqb_neq. congruence.
Qed.

Lemma contains_colon_cons c s :
  contains ":" (String c s) = Ascii.eqb c ":" || contains ":" s.
Proof.
  unfold contains. simpl. rewrite startswith_colon.
  destruct (Ascii.eqb c ":"); reflexivity.
Qed.

(** Without a colon the first piece of the split is the whole name. *)
Lemma split_head_no_colon s :
  contains ":" s = false -> split_head ":" s = s.
Proof.
  induction s as [|c s IH]; [reflexivity|].
  rewrite contains_colon_cons. intros H. apply orb_false_iff in H as [Hc Hs].
  simpl. now rewrite Hc, IH.
Qed.

(** [split_head ":" s] is the part of [s] in front of its first colon. *)
Lemma split_head_spec s :
  contains ":" (split_head ":" s) = false
  /\ exists rest, s = split_head ":" s ++ rest
                  /\ (rest = "" \/ exists r, rest = String ":" r).
Proof.
  induction s as [|c s [IH1 (rest & IH2 & IH3)]]; simpl.
  - split; [reflexivity|]. exists "". auto.
  - destruct (Ascii.eqb c ":") eqn:E.
    + split; [reflexivity|]. apply Ascii.eqb_eq in E. subst c.
      exists (String ":" s). split; [reflexivity|]. right. now exists s.
    + split.
      * now rewrite contains_colon_cons, E, IH1.
      * exists rest. split; [|exact IH3]. simpl. now rewrite <- IH2.
Qed.

Section Fallback.

Variable environ : string -> option string.
Variable requests_post : outbound -> http_result.
Variable json_dumps : json -> string.
Variable py_repr : json -> string.

Lemma unconfigured_key :
  environ "POLLINATIONS_API_KEY" = None
  \/ environ "POLLINATIONS_API_KEY" = Some placeholder ->
  find_pollinations_api_key environ = placeholder.
Proof.
  unfold find_pollinations_api_key, environ_get. now intros [-> | ->].
Qed.

Lemma call_pollinations_api_unconfigured prompt model :
  environ "POLLINATIONS_API_KEY" = None
  \/ environ "POLLINATIONS_API_KEY" = Some placeholder ->
  call_pollinations_api environ requests_post json_dumps py_repr prompt model
  = (inr ([("error", JStr "Pollinations API key not configured")], 503), []).
Proof.
  intros H. unfold call_pollinations_api.
  now rewrite (unconfigured_key H), String.eqb_refl.
Qed.

Lemma fallback_unconfigured prompt model st calls :
  environ "POLLINATIONS_API_KEY" = None
  \/ environ "POLLINATIONS_API_KEY" = Some placeholder ->
  fallback environ requests_post json_dumps py_repr prompt model st calls
  = (Reply (error_body "Pollinations API key not configured") 503, st, calls).
Proof.
  intros H. unfold fallback.
  rewrite (call_pollinations_api_unconfigured _ _ H). simpl.
  now rewrite app_nil_r.
Qed.

Lemma call_pollinations_api_model prompt model key :
  environ "POLLINATIONS_API_KEY" = Some key -> key <> placeholder ->
  exists request,
    snd (call_pollinations_api environ requests_post json_dumps py_repr
                               prompt model) = [request]
    /\ dict_get "model" (payload request) = Some (JStr (split_head ":" model)).
Proof.
  intros Hkey Hne. unfold call_pollinations_api, find_pollinations_api_key.
  unfold environ_get at 1. rewrite Hkey.
  assert (String.eqb key placeholder = false) as -> by now apply String.eqb_neq.
  eexists. split; [reflexivity|]. simpl.
  destruct (contains ":" model) eqn:E; simpl; [reflexivity|].
  now rewrite split_head_no_colon.
Qed.

End Fallback.

(** C8.  Without a credential, or with the placeholder for one, the fallback
    client makes no outbound call and its error goes out with status 503;
    with a credential, the one call it makes names as model the part of the
    requested name in front of the first colon. *)
Theorem fallback_credential_and_model :
  forall environ requests_post json_dumps py_repr prompt model,
    (environ "POLLINATIONS_API_KEY" = None
     \/ environ "POLLINATIONS_API_KEY" = Some placeholder ->
     call_pollinations_api environ requests_post json_dumps py_repr prompt model
     = (inr ([("error", JStr "Pollinations API key not configured")], 503), [])
     /\ forall st calls,
         fallback environ requests_post json_dumps py_repr prompt model st calls
         = (Reply (error_body "Pollinations API key not configured") 503,
            st, calls))
    /\ (forall key,
           environ "POLLINATIONS_API_KEY" = Some key -> key <> placeholder ->
           exists request,
             snd (call_pollinations_api environ requests_post json_dumps py_repr
                                        prompt model) = [request]
             /\ dict_get "model" (payload request)
                = Some (JStr (split_head ":" model)))
    /\ contains ":" (split_head ":" model) = false
    /\ exists rest, model = split_head ":" model ++ rest
                    /\ (rest = "" \/ exists r, rest = String ":" r).
Proof.
  intros environ requests_post json_dumps py_repr prompt model.
  split; [|split].
  - intros H. split.
    + now apply call_pollinations_api_unconfigured.
    + intros st calls. now apply fallback_unconfigured.
  - intros key. apply call_pollinations_api_model.
  - apply split_head_spec.
Qed.

Lemma fallback_credential_and_model_witness :
  call_pollinations_api (fun _ => None) unreachable_backend
                        (fun _ => "") (fun _ => "") (JStr "hello") "A:tag"
  = (inr ([("error", JStr "Pollinations API key not configured")], 503), [])
  /\ exists request,
      snd (call_pollinations_api configured_environ unreachable_backend
                                 (fun _ => "") (fun _ => "") (JStr "hello") "A:tag")
      = [request]
      /\ dict_get "model" (payload request) = Some (JStr "A").
Proof.
  split.
  - apply (proj1 (fallback_credential_and_model
                    (fun _ => None) unreachable_backend (fun _ => "") (fun _ => "")
                    (JStr "hello") "A:tag")).
    now left.
  - apply (proj1 (proj2 (fallback_credential_and_model
                           configured_environ unreachable_backend
                           (fun _ => "") (fun _ => "") (JStr "hello") "A:tag"))
                 "secret").
    + reflexivity.
    + discriminate.
Defined.

(** ** Model catalog *)

Lemma key_eqb_str_r x n : key_eqb x (JStr n) = true -> x = JStr n.
Proof.
  destruct x as [|[]| | |s| |]; simpl; try (intros; discriminate).
  intros H. apply String.eqb_eq in H. now subst.
Qed.

Lemma key_eqb_str_l n k : key_eqb (JStr n) k = true -> k = JStr n.
Proof.
  destruct k as [|[]| | |s| |]; simpl; try (intros; discriminate).
  intros H. apply String.eqb_eq in H. now subst.
Qed.

Lemma key_eqb_named model_info n :
  key_eqb (get model_info "name") (JStr n) = named n model_info.
Proof.
  unfold named. now destruct (get model_info "name") as [|[]| | | | |].
Qed.

(** Adding a model touches the entry for [n] only when the model is called
    [n]. *)
Lemma summary_find_add n k model_info acc :
  summary_find n (summary_add k model_info acc) =
  if key_eqb k (JStr n)
  then Some match summary_find n acc with
            | Some e => mk_summary (name e) (providers_available e + 1) (details e)
            | None => mk_summary (JStr n) 1 (details_of model_info)
            end
  else summary_find n acc.
Proof.
  unfold summary_find.
  induction acc as [|e acc IH]; simpl.
  - destruct (key_eqb k (JStr n)) eqn:C; [|reflexivity].
    now rewrite (key_eqb_str_r _ _ C).
  - destruct (key_eqb (name e) k) eqn:A; simpl.
    + destruct (key_eqb (name e) (JStr n)) eqn:B.
      * rewrite (key_eqb_str_r _ _ B) in A.
        rewrite (key_eqb_str_l _ _ A). simpl. now rewrite String.eqb_refl.
      * destruct (key_eqb k (JStr n)) eqn:C; [|reflexivity].
        rewrite (key_eqb_str_r _ _ C) in A. congruence.
    + destruct (key_eqb (name e) (JStr n)) eqn:B; [|exact IH].
      destruct (key_eqb k (JStr n)) eqn:C; [|reflexivity].
      rewrite (key_eqb_str_r _ _ C) in A. congruence.
Qed.

Lemma summarize_models_find n ms :
  n <> "" ->
  forall acc acc',
    summarize_models ms acc = inr acc' ->
    summary_find n acc' = tally n (summary_find n acc) (filter (named n) ms).
Proof.
  intros Hn. induction ms as [|model_info ms IH]; intros acc acc'; simpl.
  - now injection 1 as <-.
  - rewrite <- key_eqb_named.
    destruct (truthy (get model_info "name")) eqn:T.
    + destruct (hashable (get model_info "name")); [|intros; discriminate].
      intros H. rewrite (IH _ _ H), summary_find_add.
      now destruct (key_eqb (get model_info "name") (JStr n)).
    + intros H. rewrite (IH _ _ H).
      destruct (key_eqb (get model_info "name") (JStr n)) eqn:C; [|reflexivity].
      rewrite (key_eqb_str_r _ _ C) in T. simpl in T.
      apply negb_false_iff, String.eqb_eq in T. contradiction.
Qed.

Lemma summarize_providers_find n ps :
  n <> "" ->
  forall acc acc',
    summarize_providers ps acc = inr acc' ->
    summary_find n acc' = tally n (summary_find n acc) (entries_named n ps).
Proof.
  intros Hn. induction ps as [|p ps IH]; intros acc acc'; simpl.
  - now injection 1 as <-.
  - unfold eligible at 1.
    destruct (current_load p <? max_clients p).
    + destruct (summarize_models (models p) acc) as [e|acc1] eqn:E; simpl;
        [intros; discriminate|].
      intros H. rewrite (IH _ _ H), (summarize_models_find _ _ Hn _ _ E).
      unfold tally. now rewrite fold_left_app.
    + intros H. now rewrite (IH _ _ H).
Qed.

Lemma tally_some n e es :
  tally n (Some e) es
  = Some (mk_summary (name e) (providers_available e + Z.of_nat (List.length es))
                     (details e)).
Proof.
  revert e. induction es as [|m es IH]; intros e.
  - simpl. destruct e; simpl. now rewrite Z.add_0_r.
  - change (tally n (Some e) (m :: es))
      with (tally n (Some (mk_summary (name e) (providers_available e + 1)
                                      (details e))) es).
    rewrite IH. cbn [name providers_available details List.length].
    do 2 f_equal. lia.
Qed.

(** The catalog's entry for a name: none when no under-capacity provider
    lists it; otherwise the number of entries that carry it, with the
    details of the first of them. *)
Lemma catalog_entry st n summaries :
  n <> "" -> all_models_summary st = inr summaries ->
  summary_find n summaries =
  match entries_named n (compute_providers st) with
  | [] => None
  | first :: rest =>
      Some (mk_summary (JStr n) (Z.of_nat (List.length (first :: rest)))
                       (details_of first))
  end.
Proof.
  intros Hn H. unfold all_models_summary in H.
  rewrite (summarize_providers_find _ _ Hn _ _ H). simpl.
  destruct (entries_named n (compute_providers st)) as [|first rest];
    [reflexivity|].
  change (tally n None (first :: rest))
    with (tally n (Some (mk_summary (JStr n) 1 (details_of first))) rest).
  rewrite tally_some. cbn [name providers_available details List.length].
  do 2 f_equal. lia.
Qed.

Lemma summarize_models_total ms :
  names_ok ms -> forall acc, exists acc', summarize_models ms acc = inr acc'.
Proof.
  induction 1 as [|model_info ms Hm _ IH]; intros acc; simpl; [eauto|].
  destruct (get model_info "name"); try discriminate Hm.
  simpl. destruct (negb (String.eqb s "")); apply IH.
Qed.

(** With string names the catalog is always produced. *)
Lemma all_models_summary_total st :
  registry_ok st -> exists summaries, all_models_summary st = inr summaries.
Proof.
  unfold all_models_summary, registry_ok. generalize (@nil model_summary).
  induction (compute_providers st) as [|p ps IH]; intros acc H; simpl; [eauto|].
  apply Forall_cons_iff in H as [[_ Hp] Hps].
  destruct (current_load p <? max_clients p); [|now apply IH].
  destruct (summarize_models_total _ Hp acc) as (acc1 & ->). simpl.
  now apply IH.
Qed.

(** Providers at or over capacity can be taken out of the registry without
    any change to the catalog. *)
Lemma summarize_providers_eligible ps acc :
  summarize_providers ps acc = summarize_providers (filter eligible ps) acc.
Proof.
  revert acc. induction ps as [|p ps IH]; intros acc; simpl; [reflexivity|].
  unfold eligible at 1.
  destruct (current_load p <? max_clients p) eqn:E; simpl.
  - rewrite E. destruct (summarize_models (models p) acc); simpl; auto.
  - apply IH.
Qed.

Lemma filter_none {A} (f : A -> bool) l : existsb f l = false -> filter f l = [].
Proof.
  induction l as [|a l IH]; simpl; [reflexivity|].
  destruct (f a); simpl; [intros; discriminate | exact IH].
Qed.

Lemma entries_named_offering n ps :
  entries_named n ps =
  flat_map (fun p => filter (named n) (models p))
           (filter (fun p => eligible p && offers_exactly n p) ps).
Proof.
  unfold entries_named. induction ps as [|p ps IH]; simpl; [reflexivity|].
  destruct (eligible p); simpl; [|exact IH].
  destruct (offers_exactly n p) eqn:E; simpl; [now rewrite IH|].
  unfold offers_exactly in E. now rewrite (filter_none _ _ E).
Qed.

Lemma named_name n model_info :
  named n model_info = true -> get model_info "name" = JStr n.
Proof.
  unfold named. destruct (get model_info "name"); simpl; try (intros; discriminate).
  intros H. apply String.eqb_eq in H. now subst.
Qed.

Lemma catalog_reported st n :
  registry_ok st -> n <> "" ->
  exists summaries,
    all_models_summary st = inr summaries
    /\ reported n summaries
       = Z.of_nat (List.length (entries_named n (compute_providers st))).
Proof.
  intros Hok Hn. destruct (all_models_summary_total _ Hok) as (summaries & H).
  exists summaries. split; [exact H|].
  unfold reported. rewrite (catalog_entry _ _ _ Hn H).
  now destruct (entries_named n (compute_providers st)).
Qed.

Lemma catalog_twice_listed p n m1 m2 counter :
  eligible p = true -> n <> "" -> models p = [m1; m2] ->
  named n m1 = true -> named n m2 = true ->
  all_models_summary (mk_state [p] counter)
  = inr [mk_summary (JStr n) 2 (details_of m1)].
Proof.
  intros He Hn Hm H1 H2. unfold all_models_summary. simpl.
  unfold eligible in He. rewrite He, Hm. simpl.
  rewrite (named_name _ _ H1), (named_name _ _ H2). simpl.
  assert (String.eqb n "" = false) as -> by now apply String.eqb_neq.
  simpl. now rewrite String.eqb_refl.
Qed.

(** C9.  The count that the catalog reports for a name is the number of
    model-list entries with that name over the under-capacity providers;
    one such provider that lists a name twice is reported with count 2. *)
Theorem catalog_counts_entries :
  (forall st n,
      registry_ok st -> n <> "" ->
      exists summaries,
        all_models_summary st = inr summaries
        /\ reported n summaries
           = Z.of_nat (List.length (entries_named n (compute_providers st))))
  /\ (forall p n m1 m2 counter,
         eligible p = true -> n <> "" -> models p = [m1; m2] ->
         named n m1 = true -> named n m2 = true ->
         all_models_summary (mk_state [p] counter)
         = inr [mk_summary (JStr n) 2 (details_of m1)]).
Proof.
  split; [exact catalog_reported | exact catalog_twice_listed].
Qed.

Lemma catalog_counts_entries_witness :
  all_models_summary (mk_state [P3] 3)
  = inr [mk_summary (JStr "A:tag") 2 (JStr "first")]
  /\ exists summaries,
      all_models_summary (mk_state [P3; P4; P1] 4) = inr summaries
      /\ reported "A:tag" summaries = 3.
Proof.
  split.
  - apply (proj2 catalog_counts_entries P3 "A:tag"
                 [("name", JStr "A:tag"); ("details", JStr "first")]
                 [("name", JStr "A:tag"); ("details", JStr "second")] 3);
      try reflexivity.
    discriminate.
  - apply (proj1 catalog_counts_entries (mk_state [P3; P4; P1] 4) "A:tag").
    + repeat constructor.
    + discriminate.
Defined.

(** C6 (counterexample).  P3 and P1 are under capacity and both offer
    "A:tag", and no other provider does; P3 lists the name twice and the
    catalog reports 3. *)
Lemma catalog_two_providers_count_three :
  filter (fun p => eligible p && offers_exactly "A:tag" p) [P3; P1; P2] = [P3; P1]
  /\ get_available_models (mk_state [P3; P1; P2] 3)
     = Reply (JList [JDict [("name", JStr "A:tag");
                            ("providers_available", JInt 3);
                            ("details", JStr "first")];
                     JDict [("name", JStr "A:tag2");
                            ("providers_available", JInt 1);
                            ("details", JDict [])]]) 200.
Proof. split; reflexivity. Qed.

(** C6 (amended).  When exactly two under-capacity providers offer a name
    and each lists it once, the catalog reports that name with count 2 and
    with the details of the entry of the first of the two; and the catalog
    of a registry is the catalog of its under-capacity providers alone. *)
Theorem catalog_two_providers :
  (forall st n p1 p2 m1 m2,
      registry_ok st -> n <> "" ->
      filter (fun p => eligible p && offers_exactly n p) (compute_providers st)
      = [p1; p2] ->
      filter (named n) (models p1) = [m1] ->
      filter (named n) (models p2) = [m2] ->
      exists summaries,
        all_models_summary st = inr summaries
        /\ summary_find n summaries
           = Some (mk_summary (JStr n) 2 (details_of m1)))
  /\ (forall st,
         all_models_summary st
         = all_models_summary
             (mk_state (filter eligible (compute_providers st))
                       (provider_counter st))).
Proof.
  split.
  - intros st n p1 p2 m1 m2 Hok Hn Hps H1 H2.
    destruct (all_models_summary_total _ Hok) as (summaries & H).
    exists summaries. split; [exact H|].
    rewrite (catalog_entry _ _ _ Hn H), entries_named_offering, Hps.
    simpl. now rewrite H1, H2.
  - intros st. apply summarize_providers_eligible.
Qed.

Lemma catalog_two_providers_witness :
  exists summaries,
    all_models_summary (mk_state [P4; P1; P2; P5] 5) = inr summaries
    /\ summary_find "A:tag" summaries
       = Some (mk_summary (JStr "A:tag") 2 (JDict [])).
Proof.
  apply (proj1 catalog_two_providers (mk_state [P4; P1; P2; P5] 5) "A:tag" P1 P5
               [("name", JStr "A:tag")]
               [("name", JStr "A:tag"); ("details", JStr "fifth")]);
    try reflexivity.
  - repeat constructor.
  - discriminate.
Defined.

(** * Further properties *)

(** ** Sanitizer *)

Lemma after_first_cons pat c s r :
  after_first pat s = Some r -> exists r', after_first pat (String c s) = Some r'.
Proof.
  intros H. simpl. destruct (startswith (String c s) pat); eauto.
Qed.

Lemma after_first_drop pat n s r :
  after_first pat (drop n s) = Some r -> exists r', after_first pat s = Some r'.
Proof.
  revert s r. induction n as [|n IH]; intros s r; [simpl; eauto|].
  destruct s as [|c s]; [simpl; eauto|].
  intros H. destruct (IH _ _ H) as (r' & Hr').
  eapply after_first_cons, Hr'.
Qed.

Lemma after_first_startswith pat s :
  startswith s pat = true -> exists r, after_first pat s = Some r.
Proof.
  intros H. destruct s; simpl; rewrite H; eauto.
Qed.

(** A complete block needs an opening and a closing tag somewhere. *)
Lemma has_block_tags s :
  has_block s = true ->
  contains "<think>" s = true /\ contains "</think>" s = true.
Proof.
  unfold contains. induction s as [|c s IH].
  - intros H. discriminate H.
  - rewrite has_block_cons. unfold match_think.
    destruct (startswith (String c s) "<think>") eqn:E.
    + destruct (after_first "</think>" (drop 7 (String c s))) as [r|] eqn:A.
      * intros _. destruct (after_first_startswith _ _ E) as (r1 & ->).
        destruct (after_first_drop _ _ _ _ A) as (r2 & ->). now split.
      * intros H. destruct (IH H) as [H1 H2].
        destruct (after_first "<think>" s) as [r1|] eqn:A1; [|discriminate H1].
        destruct (after_first "</think>" s) as [r2|] eqn:A2; [|discriminate H2].
        destruct (after_first_cons _ c _ _ A1) as (r1' & ->).
        destruct (after_first_cons _ c _ _ A2) as (r2' & ->). now split.
    + intros H. destruct (IH H) as [H1 H2].
      destruct (after_first "<think>" s) as [r1|] eqn:A1; [|discriminate H1].
      destruct (after_first "</think>" s) as [r2|] eqn:A2; [|discriminate H2].
      destruct (after_first_cons _ c _ _ A1) as (r1' & ->).
      destruct (after_first_cons _ c _ _ A2) as (r2' & ->). now split.
Qed.

Lemma re_sub_think_fuels f1 :
  forall f2 s,
    (String.length s <= f1)%nat -> (String.length s <= f2)%nat ->
    re_sub_think f1 s = re_sub_think f2 s.
Proof.
  induction f1 as [|f1 IH]; intros f2 s H1 H2.
  - destruct s; [now destruct f2 | simpl in H1; lia].
  - destruct s as [|c s]; [now destruct f2|].
    destruct f2 as [|f2]; [simpl in H2; lia|].
    cbn [re_sub_think]. cbn [String.length] in H1, H2.
    destruct (match_think (String c s)) as [rest|] eqn:E.
    + apply match_think_length in E. cbn [String.length] in E.
      apply IH; lia.
    + f_equal. apply IH; lia.
Qed.

(** Enough fuel is as good as the length of the text. *)
Lemma re_sub_think_fuel fuel s :
  (String.length s <= fuel)%nat ->
  re_sub_think fuel s = re_sub_think (String.length s) s.
Proof.
  intros H. now apply re_sub_think_fuels.
Qed.

Lemma match_think_not_lt c s :
  Ascii.eqb c "<" = false -> match_think (String c s) = None.
Proof.
  intros H. unfold match_think, startswith.
  change (String.prefix "<think>" (String c s))
    with (if ascii_dec "<" c then String.prefix "think>" s else false).
  destruct (ascii_dec "<" c) as [<-|_]; [discriminate H | reflexivity].
Qed.

(** Text without a [<] is copied, and the scan goes on behind it. *)
Lemma re_sub_think_copy a s :
  free_of "<" a = true ->
  re_sub_think (String.length (a ++ s)) (a ++ s)
  = a ++ re_sub_think (String.length s) s.
Proof.
  induction a as [|c a IH]; [reflexivity|]. simpl free_of.
  intros H. apply andb_true_iff in H as [Hc Ha]. apply negb_true_iff in Hc.
  change (String c a ++ s) with (String c (a ++ s)).
  cbn [re_sub_think String.length].
  rewrite (match_think_not_lt _ _ Hc). simpl. now rewrite IH.
Qed.

Lemma startswith_not_lt c s :
  Ascii.eqb c "<" = false -> startswith (String c s) "</think>" = false.
Proof.
  intros H. unfold startswith.
  change (String.prefix "</think>" (String c s))
    with (if ascii_dec "<" c then String.prefix "/think>" s else false).
  destruct (ascii_dec "<" c) as [<-|_]; [discriminate H | reflexivity].
Qed.

(** The closing tag found behind text without a [<] is the one right
    behind that text. *)
Lemma after_first_close mid b :
  free_of "<" mid = true ->
  after_first "</think>" (mid ++ "</think>" ++ b) = Some b.
Proof.
  induction mid as [|c mid IH]; simpl free_of.
  - intros _. simpl. destruct b; reflexivity.
  - intros H. apply andb_true_iff in H as [Hc Hm]. apply negb_true_iff in Hc.
    change (String c mid ++ "</think>" ++ b)
      with (String c (mid ++ "</think>" ++ b)).
    cbn [after_first]. rewrite (startswith_not_lt _ _ Hc). auto.
Qed.

Lemma startswith_append p s : startswith (p ++ s) p = true.
Proof.
  unfold startswith. induction p as [|c p IH]; simpl.
  - now destruct s.
  - destruct (ascii_dec c c); [exact IH | contradiction].
Qed.

Lemma drop_append p s : drop (String.length p) (p ++ s) = s.
Proof. induction p as [|c p IH]; simpl; auto. Qed.

Lemma match_think_block mid b :
  free_of "<" mid = true ->
  match_think ("<think>" ++ mid ++ "</think>" ++ b) = Some b.
Proof.
  intros H. unfold match_think. rewrite startswith_append.
  change 7%nat with (String.length "<think>"). rewrite drop_append.
  now apply after_first_close.
Qed.

Lemma re_sub_think_block_removed a mid b :
  free_of "<" a = true -> free_of "<" mid = true ->
  re_sub_think (String.length (a ++ "<think>" ++ mid ++ "</think>" ++ b))
               (a ++ "<think>" ++ mid ++ "</think>" ++ b)
  = re_sub_think (String.length (a ++ b)) (a ++ b).
Proof.
  intros Ha Hm.
  rewrite (re_sub_think_copy a ("<think>" ++ mid ++ "</think>" ++ b) Ha).
  rewrite (re_sub_think_copy a b Ha). f_equal.
  pose proof (match_think_block mid b Hm) as E.
  pose proof (match_think_length _ _ E) as L.
  remember ("<think>" ++ mid ++ "</think>" ++ b) as block eqn:Hb.
  destruct block as [|c block]; [discriminate E|].
  cbn [re_sub_think String.length]. rewrite E.
  apply re_sub_think_fuel. cbn [String.length] in L. lia.
Qed.

(** X26.  The sanitized text has no white space at either end, and it is
    never longer than the text it was made from. *)
Theorem strip_think_blocks_trimmed :
  forall t,
    lstrip (strip_think_blocks t) = strip_think_blocks t
    /\ rstrip (strip_think_blocks t) = strip_think_blocks t
    /\ (String.length (strip_think_blocks t) <= String.length t)%nat.
Proof.
  intros t. unfold strip_think_blocks, strip. split; [|split].
  - apply lstrip_idem.
  - now rewrite rstrip_lstrip, rstrip_idem.
  - pose proof (strip_length (re_sub_think (String.length t) t)) as L.
    pose proof (re_sub_think_length (String.length t) t). unfold strip in L. lia.
Qed.

(** X27.  A text that lacks the opening tag or lacks the closing tag is only
    trimmed: an opening tag that is never closed stays in the text. *)
Theorem strip_think_blocks_unclosed :
  forall t,
    contains "<think>" t = false \/ contains "</think>" t = false ->
    strip_think_blocks t = strip t.
Proof.
  intros t H. apply strip_think_blocks_clean.
  destruct (has_block t) eqn:E; [|reflexivity].
  destruct (has_block_tags _ E) as [H1 H2]. destruct H; congruence.
Qed.

Lemma strip_think_blocks_unclosed_witness :
  strip_think_blocks " so <think> it goes on " = "so <think> it goes on".
Proof.
  rewrite (strip_think_blocks_unclosed " so <think> it goes on ");
    [reflexivity | now right].
Defined.

(** X28.  A block whose content has no [<], behind text that has no [<],
    is removed, and the text behind it is treated as if the block had never
    been there. *)
Theorem strip_think_blocks_removes_block :
  forall a mid b,
    free_of "<" a = true -> free_of "<" mid = true ->
    strip_think_blocks (a ++ "<think>" ++ mid ++ "</think>" ++ b)
    = strip_think_blocks (a ++ b).
Proof.
  intros a mid b Ha Hm. unfold strip_think_blocks.
  now rewrite re_sub_think_block_removed.
Qed.

Lemma strip_think_blocks_removes_block_witness :
  strip_think_blocks ("Sure. " ++ "<think>" ++ "plan: greet" ++ "</think>" ++ "Hello <b>you</b>")
  = strip_think_blocks ("Sure. " ++ "Hello <b>you</b>").
Proof.
  apply strip_think_blocks_removes_block; reflexivity.
Defined.

(** ** Matcher *)

Lemma scan_models_sound model_name_req known p ms :
  In p known -> eligible p = true ->
  (forall model_info, In model_info ms -> In model_info (models p)) ->
  forall selected best r,
    selection_ok model_name_req known selected best ->
    scan_models model_name_req p ms selected best = inr r ->
    selection_ok model_name_req known (fst r) (snd r).
Proof.
  intros Hp He. induction ms as [|model_info ms IH]; intros Hsub selected best r Hok.
  - simpl. now injection 1 as <-.
  - assert (forall m, In m ms -> In m (models p)) as Hsub'
        by (intros; apply Hsub; now right).
    pose proof (Hsub model_info (or_introl eq_refl)) as Hin.
    simpl.
    destruct (eq_str (get model_info "name") model_name_req && (best <? 2)) eqn:E.
    + injection 1 as <-. simpl. apply andb_true_iff in E as [E _].
      repeat split; auto. left. split; [reflexivity|].
      apply existsb_exists. now exists model_info.
    + destruct (get model_info "name") as [| | | |current| |] eqn:N;
        try (intros; discriminate).
      assert (forall c, startswith current (base_name model_name_req) && c = true ->
                        selection_ok model_name_req known (Some p) 1) as Hpre.
      { intros c Hc. apply andb_true_iff in Hc as [Hc _].
        repeat split; auto. right. split; [reflexivity|].
        apply existsb_exists. exists model_info. split; [exact Hin|].
        unfold prefix_named. now rewrite N. }
      unfold base_name in Hpre.
      destruct (contains ":" model_name_req);
        match goal with
        | |- context [if ?c then _ else _] => destruct c eqn:C
        end; intros H;
        first [exact (IH Hsub' _ _ _ (Hpre _ C) H) | exact (IH Hsub' _ _ _ Hok H)].
Qed.

Lemma scan_providers_sound model_name_req known ps :
  (forall p, In p ps -> In p known) ->
  forall selected best r,
    selection_ok model_name_req known selected best ->
    scan_providers model_name_req ps selected best = inr r ->
    selection_ok model_name_req known (fst r) (snd r).
Proof.
  induction ps as [|p ps IH]; intros Hsub selected best r Hok; simpl.
  - now injection 1 as <-.
  - assert (forall q, In q ps -> In q known) as Hsub'
        by (intros; apply Hsub; now right).
    rewrite skip_test_eligible.
    destruct (eligible p) eqn:He; simpl; [|now apply IH].
    destruct (scan_models model_name_req p (models p) selected best)
      as [e|r1] eqn:E; simpl; [intros; discriminate|].
    pose proof (scan_models_sound model_name_req known p (models p)
                  (Hsub p (or_introl eq_refl)) He (fun m H => H)
                  selected best r1 Hok E) as Hok1.
    destruct (snd r1 =? 2).
    + now injection 1 as <-.
    + now apply IH.
Qed.

(** X3.  A provider that the matcher selects is in the registry, is under
    capacity, and has a match of the level reported: one of its names is the
    requested name (level 2), or starts with the base of it (level 1). *)
Theorem select_provider_sound :
  forall st model_name_req p level,
    select_provider model_name_req st = inr (Some p, level) ->
    In p (compute_providers st)
    /\ eligible p = true
    /\ ((level = 2 /\ offers_exactly model_name_req p = true)
        \/ (level = 1 /\ offers_prefix model_name_req p = true)).
Proof.
  intros st model_name_req p level. unfold select_provider, providers_sorted_by_load.
  destruct (existsb (fun q => max_clients q =? 0) (compute_providers st));
    [intros; discriminate|]. simpl.
  intros H.
  apply (scan_providers_sound model_name_req (compute_providers st)) in H.
  - exact H.
  - intros q Hq. eapply Permutation_in; [symmetry; apply sort_by_load_perm|exact Hq].
  - reflexivity.
Qed.

Lemma select_provider_sound_witness :
  In P2 [P4; P1; P2]
  /\ eligible P2 = true
  /\ ((1 = 2 /\ offers_exactly "A:Q8_0" P2 = true)
      \/ (1 = 1 /\ offers_prefix "A:Q8_0" P2 = true)).
Proof.
  exact (select_provider_sound (mk_state [P4; P1; P2] 4) "A:Q8_0" P2 1 eq_refl).
Defined.

(** X1.  When no under-capacity provider has an exact match, the matcher
    selects, at level 1, the first under-capacity provider of the ranking
    one of whose names starts with the base of the requested name. *)
Theorem first_prefix_match_selected :
  forall st model_name_req p,
    registry_ok st ->
    (forall q, In q (compute_providers st) ->
               eligible q && offers_exactly model_name_req q = false) ->
    In p (compute_providers st) ->
    eligible p = true -> offers_prefix model_name_req p = true ->
    exists pre winner post,
      providers_sorted_by_load st = inr (pre ++ winner :: post)%list
      /\ eligible winner = true
      /\ offers_prefix model_name_req winner = true
      /\ (forall q, In q pre ->
                    eligible q && offers_prefix model_name_req q = false)
      /\ select_provider model_name_req st = inr (Some winner, 1).
Proof.
  intros st model_name_req p Hok Hnx Hin He Hp.
  pose proof (sort_by_load_perm (compute_providers st)) as Hperm.
  assert (existsb (fun q => eligible q && offers_prefix model_name_req q)
                  (sort_by_load (compute_providers st)) = true) as Hex.
  { apply existsb_exists. exists p. split.
    - eapply Permutation_in; eassumption.
    - now rewrite He, Hp. }
  destruct (first_split _ _ Hex) as (pre & winner & post & Hsplit & Hw & Hpre).
  apply andb_true_iff in Hw as [Hwe Hwp].
  exists pre, winner, post.
  refine (conj _ (conj Hwe (conj Hwp (conj Hpre _)))).
  - now rewrite registry_ok_sorted, Hsplit.
  - unfold select_provider. rewrite registry_ok_sorted, Hsplit by assumption.
    apply scan_providers_first_prefix; auto.
    + rewrite <- Hsplit. eapply Permutation_Forall; eassumption.
    + intros q Hq. apply Hnx. rewrite <- Hsplit in Hq.
      eapply Permutation_in; [symmetry|]; eassumption.
Qed.

Lemma first_prefix_match_selected_witness :
  exists pre winner post,
    providers_sorted_by_load (mk_state [P4; P5; P2] 5)
    = inr (pre ++ winner :: post)%list
    /\ eligible winner = true
    /\ offers_prefix "A:Q8_0" winner = true
    /\ (forall q, In q pre -> eligible q && offers_prefix "A:Q8_0" q = false)
    /\ select_provider "A:Q8_0" (mk_state [P4; P5; P2] 5) = inr (Some winner, 1).
Proof.
  apply (first_prefix_match_selected (mk_state [P4; P5; P2] 5) "A:Q8_0" P5).
  - repeat constructor.
  - intros q [<-|[<-|[<-|[]]]]; reflexivity.
  - right. now left.
  - reflexivity.
  - reflexivity.
Defined.

Lemma scan_providers_none model_name_req ps :
  Forall provider_ok ps ->
  (forall q, In q ps -> eligible q = true ->
             offers_exactly model_name_req q = false
             /\ offers_prefix model_name_req q = false) ->
  scan_providers model_name_req ps None 0 = inr (None, 0).
Proof.
  induction 1 as [|q ps [_ Hq] _ IH]; intros Hno; simpl; [reflexivity|].
  rewrite skip_test_eligible.
  assert (forall q', In q' ps -> eligible q' = true ->
                     offers_exactly model_name_req q' = false
                     /\ offers_prefix model_name_req q' = false)
    as Hno' by (intros; apply Hno; auto; now right).
  specialize (Hno q (or_introl eq_refl)).
  destruct (eligible q); simpl; [|auto].
  destruct (Hno eq_refl) as [Hx Hp].
  rewrite (scan_models_prefix _ _ _ _ Hq Hx).
  unfold offers_prefix in Hp. rewrite Hp. simpl. auto.
Qed.

(** X2.  When no under-capacity provider has an exact or a prefix match
    (an empty registry included), the matcher selects nothing, and the
    request goes to the fallback client with no call to any provider and the
    registry untouched. *)
Theorem no_match_falls_back :
  forall environ requests_post json_dumps py_repr data st model_name_req,
    registry_ok st ->
    truthy (get data "prompt") = true ->
    get data "model" = JStr model_name_req ->
    model_name_req <> "" ->
    (forall q, In q (compute_providers st) -> eligible q = true ->
               offers_exactly model_name_req q = false
               /\ offers_prefix model_name_req q = false) ->
    select_provider model_name_req st = inr (None, 0)
    /\ completions environ requests_post json_dumps py_repr data st
       = fallback environ requests_post json_dumps py_repr
                  (get data "prompt") model_name_req st [].
Proof.
  intros environ requests_post json_dumps py_repr data st model_name_req
         Hok Hp Hm Hne Hno.
  assert (select_provider model_name_req st = inr (None, 0)) as Hsel.
  { unfold select_provider. rewrite registry_ok_sorted by assumption. simpl.
    pose proof (sort_by_load_perm (compute_providers st)) as Hperm.
    apply scan_providers_none.
    - eapply Permutation_Forall; eassumption.
    - intros q Hq. apply Hno.
      eapply Permutation_in; [symmetry|]; eassumption. }
  split; [exact Hsel|].
  unfold completions. rewrite Hp, Hm. simpl.
  assert (String.eqb model_name_req "" = false) as -> by now apply String.eqb_neq.
  simpl. now rewrite Hsel.
Qed.

Lemma no_match_falls_back_witness :
  select_provider "B:7b" (mk_state [P4; P1; P2] 4) = inr (None, 0)
  /\ completions (fun _ => None) unreachable_backend (fun _ => "") (fun _ => "")
                 [("prompt", JStr "hello"); ("model", JStr "B:7b")]
                 (mk_state [P4; P1; P2] 4)
     = fallback (fun _ => None) unreachable_backend (fun _ => "") (fun _ => "")
                (JStr "hello") "B:7b" (mk_state [P4; P1; P2] 4) [].
Proof.
  apply no_match_falls_back; try reflexivity.
  - repeat constructor.
  - discriminate.
  - intros q [<-|[<-|[<-|[]]]]; intros; split; reflexivity.
Defined.

(** ** Ranking *)

Lemma ratio_ltb_lt x y :
  ratio_ltb x y = true <-> (load_ratio x < load_ratio y)%Q.
Proof.
  unfold ratio_ltb. rewrite negb_true_iff. split.
  - intros H. apply Qnot_le_lt. intros Hle. apply Qle_bool_iff in Hle. congruence.
  - intros H. destruct (Qle_bool (load_ratio y) (load_ratio x)) eqn:E; [|reflexivity].
    apply Qle_bool_iff in E. exfalso. eapply Qlt_not_le; eassumption.
Qed.

Lemma sorted_head_le y l :
  Sorted (fun p q => (load_ratio p <= load_ratio q)%Q) (y :: l) ->
  Forall (fun z => (load_ratio y <= load_ratio z)%Q) l.
Proof.
  intros H. apply Sorted_StronglySorted in H.
  - now inversion H.
  - intros a b c. apply Qle_trans.
Qed.

(** Insertion puts the new provider behind those of the same ratio and
    leaves the others in their order. *)
Lemma insert_by_load_filter k x l :
  Sorted (fun p q => (load_ratio p <= load_ratio q)%Q) l ->
  filter (same_ratio k) (insert_by_load x l)
  = (filter (same_ratio k) l ++ filter (same_ratio k) [x])%list.
Proof.
  induction l as [|y l IH]; intros Hs; [reflexivity|].
  cbn [insert_by_load]. destruct (ratio_ltb x y) eqn:E.
  - apply ratio_ltb_lt in E.
    cbn [filter]. destruct (same_ratio k x) eqn:Kx; [|now rewrite app_nil_r].
    assert (filter (same_ratio k) (y :: l) = []) as Hnone.
    { apply filter_none. apply Bool.not_true_iff_false. intros Hex.
      apply existsb_exists in Hex as (z & Hz & Kz).
      unfold same_ratio in Kx, Kz.
      apply Qeq_bool_iff in Kx. apply Qeq_bool_iff in Kz.
      assert (load_ratio y <= load_ratio z)%Q as Hyz.
      { destruct Hz as [<-|Hz]; [apply Qle_refl|].
        pose proof (sorted_head_le _ _ Hs) as Hall.
        rewrite Forall_forall in Hall. auto. }
      rewrite <- Kz, Kx in Hyz. eapply Qlt_not_le; eassumption. }
    cbn [filter] in Hnone. now rewrite Hnone.
  - cbn [filter]. rewrite IH by (now inversion Hs).
    destruct (same_ratio k y); reflexivity.
Qed.

Lemma sort_by_load_filter k ps :
  filter (same_ratio k) (sort_by_load ps) = filter (same_ratio k) ps.
Proof.
  unfold sort_by_load.
  enough (forall acc,
             Sorted (fun p q => (load_ratio p <= load_ratio q)%Q) acc ->
             filter (same_ratio k)
                    (fold_left (fun acc x => insert_by_load x acc) ps acc)
             = (filter (same_ratio k) acc ++ filter (same_ratio k) ps)%list)
    as H by (apply (H []); constructor).
  induction ps as [|x ps IH]; intros acc Hacc; simpl fold_left.
  - simpl. now rewrite app_nil_r.
  - rewrite IH by now apply insert_by_load_sorted.
    rewrite insert_by_load_filter by assumption.
    rewrite <- app_assoc. f_equal.
    cbn [filter]. now destruct (same_ratio k x).
Qed.

Lemma ranking_of_registry :
  forall st,
    Forall (fun p => max_clients p <> 0) (compute_providers st) ->
    exists ranked,
      providers_sorted_by_load st = inr ranked
      /\ Permutation (compute_providers st) ranked
      /\ Sorted (fun p q => (load_ratio p <= load_ratio q)%Q) ranked
      /\ forall k, filter (same_ratio k) ranked
                   = filter (same_ratio k) (compute_providers st).
Proof.
  intros st H. exists (sort_by_load (compute_providers st)).
  split; [|split; [|split]].
  - unfold providers_sorted_by_load.
    enough (existsb (fun p => max_clients p =? 0) (compute_providers st) = false)
      as -> by reflexivity.
    induction H as [|p ps Hp _ IH]; simpl; [reflexivity|].
    rewrite IH, orb_false_r. now apply Z.eqb_neq.
  - apply sort_by_load_perm.
  - apply sort_by_load_sorted.
  - intros k. apply sort_by_load_filter.
Qed.



(** ** Dispatcher *)

Lemma add_load_zero provider_id st : add_load provider_id 0 st = st.
Proof.
  destruct st as [ps counter]. unfold add_load. simpl. f_equal.
  rewrite <- (map_id ps) at 2. apply map_ext.
  intros p. destruct (String.eqb (id p) provider_id); [|reflexivity].
  destruct p; simpl. f_equal. lia.
Qed.

Lemma add_load_add provider_id a b st :
  add_load provider_id b (add_load provider_id a st)
  = add_load provider_id (a + b) st.
Proof.
  destruct st as [ps counter]. unfold add_load. simpl. f_equal.
  rewrite map_map. apply map_ext.
  intros p. destruct (String.eqb (id p) provider_id) eqn:E; simpl; rewrite E.
  - f_equal. lia.
  - reflexivity.
Qed.

Lemma sanitize_completion_dict d :
  sanitize_completion (JDict d) = inr (JDict (sanitized_object d)).
Proof.
  unfold sanitize_completion, sanitized_object, py_in, py_item, dict_has. simpl.
  destruct (dict_get "response" d) as [[]|]; reflexivity.
Qed.


Section DispatchPaths.

Variable environ : string -> option string.
Variable requests_post : outbound -> http_result.
Variable json_dumps : json -> string.
Variable py_repr : json -> string.

Lemma completions_selected data st model_name_req :
  truthy (get data "prompt") = true ->
  get data "model" = JStr model_name_req ->
  model_name_req <> "" ->
  completions environ requests_post json_dumps py_repr data st =
  match select_provider model_name_req st with
  | inl e => (Unhandled e, st, [])
  | inr (None, _) =>
      fallback environ requests_post json_dumps py_repr
               (get data "prompt") model_name_req st []
  | inr (Some selected_provider, _) =>
      let request :=
        provider_request selected_provider data model_name_req
                         (get data "prompt") in
      let (r, st2) :=
        forward requests_post request (id selected_provider)
                (add_load (id selected_provider) 1 st) in
      match r with
      | inr (body, status_code) => (Reply body status_code, st2, [request])
      | inl e =>
          fallback environ requests_post json_dumps py_repr
                   (get data "prompt") model_name_req
                   (add_load (id selected_provider) (-1) st2) [request]
      end
  end.
Proof.
  intros Hp Hm Hne. unfold completions. rewrite Hp, Hm. simpl.
  assert (String.eqb model_name_req "" = false) as -> by now apply String.eqb_neq.
  simpl. destruct (select_provider model_name_req st) as [e|[[p|] lvl]];
    try reflexivity.
  destruct (forward _ _ _ _) as [[e|[body status_code]] st2]; [|reflexivity].
  now destruct (is_request_exception e).
Qed.

(** X5.  A completions request without a prompt or without a model (absent,
    null, or empty) is answered with a 400; no provider is contacted, the
    fallback is not called, and the registry is untouched. *)
Theorem completions_requires_prompt_and_model data st :
  truthy (get data "prompt") = false \/ truthy (get data "model") = false ->
  completions environ requests_post json_dumps py_repr data st
  = (Reply (error_body "prompt and model are required") 400, st, []).
Proof.
  intros H. unfold completions.
  assert (negb (truthy (get data "prompt")) || negb (truthy (get data "model"))
          = true) as ->; [|reflexivity].
  destruct H as [-> | ->]; [reflexivity | apply orb_true_r].
Qed.

(** X6.  When the selected provider answers with a success status and a JSON
    object, the caller gets that object with that status, its [response]
    sanitized if it is a string; the fallback is not called, and the
    registry is the same as before the request. *)
Theorem completions_passes_provider_reply data st model_name_req p level status_code text d :
  truthy (get data "prompt") = true ->
  get data "model" = JStr model_name_req ->
  model_name_req <> "" ->
  select_provider model_name_req st = inr (Some p, level) ->
  requests_post (provider_request p data model_name_req (get data "prompt"))
  = Response status_code text (inr (JDict d)) ->
  is_error_status status_code = false ->
  completions environ requests_post json_dumps py_repr data st
  = (Reply (JDict (sanitized_object d)) status_code, st,
     [provider_request p data model_name_req (get data "prompt")]).
Proof.
  intros Hp Hm Hne Hsel Hpost Hst.
  rewrite (completions_selected _ _ _ Hp Hm Hne), Hsel. cbv zeta.
  unfold forward. rewrite Hpost, Hst, sanitize_completion_dict.
  now rewrite add_load_cancel.
Qed.

(** X7.  When the call to the selected provider gets no response, an error
    status, or a body that is not JSON, the request is answered by the
    fallback client for the same prompt and requested name, from the
    registry as it was before the request; no other provider is tried. *)
Theorem completions_provider_failure data st model_name_req p level :
  truthy (get data "prompt") = true ->
  get data "model" = JStr model_name_req ->
  model_name_req <> "" ->
  select_provider model_name_req st = inr (Some p, level) ->
  backend_failed
    (requests_post (provider_request p data model_name_req (get data "prompt")))
  = true ->
  completions environ requests_post json_dumps py_repr data st
  = fallback environ requests_post json_dumps py_repr
             (get data "prompt") model_name_req st
             [provider_request p data model_name_req (get data "prompt")].
Proof.
  intros Hp Hm Hne Hsel Hfail.
  rewrite (completions_selected _ _ _ Hp Hm Hne), Hsel. cbv zeta.
  unfold forward.
  destruct (requests_post _) as [msg|status_code text [msg|v]]; simpl in Hfail |- *.
  - now rewrite add_load_cancel.
  - destruct (is_error_status status_code); now rewrite add_load_cancel.
  - rewrite orb_false_r in Hfail. rewrite Hfail. now rewrite add_load_cancel.
Qed.

(** The registry after a request: as before, or with the selected
    provider's load one lower. *)
Lemma completions_state data st :
  snd (fst (completions environ requests_post json_dumps py_repr data st)) = st
  \/ exists model_name_req p level,
      get data "model" = JStr model_name_req
      /\ select_provider model_name_req st = inr (Some p, level)
      /\ snd (fst (completions environ requests_post json_dumps py_repr data st))
         = add_load (id p) (-1) st.
Proof.
  unfold completions.
  destruct (negb (truthy (get data "prompt")) || negb (truthy (get data "model")));
    [now left|].
  destruct (get data "model") as [| | | |model_name_req| |] eqn:Hm; try now left.
  destruct (select_provider model_name_req st) as [e|[[p|] lvl]] eqn:Hsel;
    [now left| |left; now rewrite fallback_state].
  unfold forward.
  destruct (requests_post _) as [msg|status_code text [msg|v]]; simpl.
  - left. now rewrite fallback_state, add_load_cancel.
  - left. destruct (is_error_status status_code); simpl;
      now rewrite fallback_state, add_load_cancel.
  - destruct (is_error_status status_code); simpl.
    + left. now rewrite fallback_state, add_load_cancel.
    + destruct (sanitize_completion v) as [e|v']; simpl.
      * right. exists model_name_req, p, lvl. repeat split; auto.
        rewrite fallback_state.
        assert (forall s, (if is_request_exception e
                           then add_load (id p) (-1) s
                           else add_load (id p) (-1) s) = add_load (id p) (-1) s)
          as -> by (intros; now destruct (is_request_exception e)).
        rewrite !add_load_add. reflexivity.
      * left. apply add_load_cancel.
Qed.


End DispatchPaths.

Lemma completions_requires_prompt_and_model_witness :
  completions (fun _ => None) unreachable_backend (fun _ => "") (fun _ => "")
              [("prompt", JStr ""); ("model", JStr "A:tag")]
              (mk_state [P1; P2] 2)
  = (Reply (error_body "prompt and model are required") 400,
     mk_state [P1; P2] 2, []).
Proof.
  apply completions_requires_prompt_and_model. now left.
Defined.

Lemma completions_passes_provider_reply_witness :
  completions (fun _ => None)
              (fun _ => Response 200 ""
                          (inr (JDict [("response", JStr "<think>hm</think> Hi ");
                                       ("done", JBool true)])))
              (fun _ => "") (fun _ => "") bare_request (mk_state [P1; P2] 2)
  = (Reply (JDict [("response", JStr "Hi"); ("done", JBool true)]) 200,
     mk_state [P1; P2] 2,
     [provider_request P2 bare_request "A:tag2" (JStr "hello")]).
Proof.
  apply (completions_passes_provider_reply
           (fun _ => None) _ (fun _ => "") (fun _ => "") bare_request
           (mk_state [P1; P2] 2) "A:tag2" P2 2 200 ""
           [("response", JStr "<think>hm</think> Hi "); ("done", JBool true)]);
    try reflexivity.
  discriminate.
Defined.

Lemma completions_provider_failure_witness :
  completions (fun _ => None) (fun _ => Response 503 "busy" (inl "no JSON"))
              (fun _ => "") (fun _ => "") bare_request (mk_state [P1; P2] 2)
  = fallback (fun _ => None) (fun _ => Response 503 "busy" (inl "no JSON"))
             (fun _ => "") (fun _ => "") (JStr "hello") "A:tag2"
             (mk_state [P1; P2] 2)
             [provider_request P2 bare_request "A:tag2" (JStr "hello")].
Proof.
  apply (completions_provider_failure
           (fun _ => None) _ (fun _ => "") (fun _ => "") bare_request
           (mk_state [P1; P2] 2) "A:tag2" P2 2); try reflexivity.
  discriminate.
Defined.


(** ** Registration *)

Lemma startswith_nonempty s p :
  startswith s p = true -> p <> "" -> s <> "".
Proof.
  intros H Hp ->. unfold startswith in H. destruct p; [congruence|discriminate H].
Qed.

Lemma all_named_objects l :
  Forall named_object l -> exists ms, all_named l = Some ms /\ l = map JDict ms.
Proof.
  induction 1 as [|entry l (model_info & -> & Hn) _ (ms & IH & ->)]; simpl.
  - now exists [].
  - rewrite Hn, IH. now exists (model_info :: ms).
Qed.

Lemma vram_default_total vram_gb :
  truthy vram_gb = false \/ num_value vram_gb <> None ->
  exists c, vram_default vram_gb = inr c.
Proof.
  unfold vram_default, vram_at_least, py_ge. intros H.
  destruct (truthy vram_gb); [|simpl; eauto].
  destruct H as [H|H]; [discriminate H|].
  destruct (num_value vram_gb) as [q|]; [|congruence]. simpl.
  destruct (Qle_bool (inject_Z 16) q); simpl; [eauto|].
  destruct (Qle_bool (inject_Z 8) q); simpl; [eauto|].
  destruct (Qle_bool (inject_Z 4) q); simpl; eauto.
Qed.

Lemma resolve_max_clients_total max_clients_user vram_gb :
  truthy vram_gb = false \/ num_value vram_gb <> None ->
  exists c, resolve_max_clients max_clients_user vram_gb = inr c.
Proof.
  intros H. unfold resolve_max_clients.
  destruct (as_int max_clients_user) as [n|]; [destruct (0 <? n)|];
    eauto using vram_default_total.
Qed.

Lemma find_providers_set_other j p ps :
  j <> id p ->
  find (fun q => String.eqb (id q) j) (providers_set p ps)
  = find (fun q => String.eqb (id q) j) ps.
Proof.
  intros Hj. induction ps as [|q ps IH]; simpl.
  - assert (String.eqb (id p) j = false) as -> by (apply String.eqb_neq; congruence).
    reflexivity.
  - destruct (String.eqb (id q) (id p)) eqn:E; simpl.
    + apply String.eqb_eq in E.
      assert (String.eqb (id p) j = false) as -> by (apply String.eqb_neq; congruence).
      assert (String.eqb (id q) j = false) as -> by (apply String.eqb_neq; congruence).
      reflexivity.
    + now rewrite IH.
Qed.

Lemma join_pool_accepts data st base_url l :
  get data "ollama_base_url" = JStr base_url ->
  startswith base_url "http://" = true \/ startswith base_url "https://" = true ->
  get data "models" = JList l -> l <> [] -> Forall named_object l ->
  truthy (get data "vram_gb") = false \/ num_value (get data "vram_gb") <> None ->
  exists ms c,
    l = map JDict ms
    /\ resolve_max_clients (get data "max_clients") (get data "vram_gb") = inr c
    /\ join_pool data st
       = (Reply (JDict [("message", JStr "Successfully joined the compute pool");
                        ("provider_id", JStr (fst (generate_provider_id st)))]) 201,
          mk_state
            (providers_set
               (mk_provider (fst (generate_provider_id st)) base_url ms
                            (get data "gpu_info") (get data "vram_gb") c 0)
               (compute_providers st))
            (provider_counter st + 1)).
Proof.
  intros Hu Hpre Hm Hl Hall Hv.
  destruct (all_named_objects _ Hall) as (ms & Hms & Hmap).
  destruct (resolve_max_clients_total (get data "max_clients") _ Hv) as (c & Hc).
  exists ms, c. split; [exact Hmap|]. split; [exact Hc|].
  unfold join_pool. rewrite Hu, Hm. cbn [truthy].
  assert (base_url <> "") as Hne
      by (destruct Hpre as [H|H]; eapply startswith_nonempty; eauto; discriminate).
  assert (String.eqb base_url "" = false) as -> by now apply String.eqb_neq.
  assert (match l with [] => false | _ :: _ => true end = true) as ->
      by (destruct l; congruence).
  assert (startswith base_url "http://" || startswith base_url "https://" = true)
    as -> by (destruct Hpre as [-> | ->]; [reflexivity | apply orb_true_r]).
  cbn [negb orb valid_models]. rewrite Hms. cbn [generate_provider_id].
  now rewrite Hc.
Qed.

(** X10.  A join request with an http(s) base address, a non-empty list of
    objects that each have a name, and a VRAM size that is a number or
    absent is accepted with a 201: the provider can then be found under the
    identifier returned, with load 0, the base address and the models as
    sent, and every other identifier finds what it found before. *)
Theorem join_pool_registers :
  forall data st base_url l,
    get data "ollama_base_url" = JStr base_url ->
    startswith base_url "http://" = true \/ startswith base_url "https://" = true ->
    get data "models" = JList l -> l <> [] -> Forall named_object l ->
    truthy (get data "vram_gb") = false \/ num_value (get data "vram_gb") <> None ->
    exists provider_id st' p,
      join_pool data st
      = (Reply (JDict [("message", JStr "Successfully joined the compute pool");
                       ("provider_id", JStr provider_id)]) 201, st')
      /\ find_provider provider_id st' = Some p
      /\ id p = provider_id
      /\ ollama_base_url p = base_url
      /\ map JDict (models p) = l
      /\ current_load p = 0
      /\ forall other, other <> provider_id ->
                       find_provider other st' = find_provider other st.
Proof.
  intros data st base_url l Hu Hpre Hm Hl Hall Hv.
  destruct (join_pool_accepts data st base_url l Hu Hpre Hm Hl Hall Hv)
    as (ms & c & Hmap & _ & Hjoin).
  eexists _, _, _. split; [exact Hjoin|].
  unfold find_provider. cbn [compute_providers].
  set (p := mk_provider _ base_url ms _ _ c 0).
  change (fst (generate_provider_id st)) with (id p).
  split; [apply find_providers_set|].
  split; [reflexivity|]. split; [reflexivity|].
  split; [now rewrite Hmap|]. split; [reflexivity|].
  intros other Ho. now apply find_providers_set_other.
Qed.

Lemma join_pool_registers_witness :
  exists provider_id st' p,
    join_pool (join_data [("vram_gb", JInt 10)]) (mk_state [P1; P2] 2)
    = (Reply (JDict [("message", JStr "Successfully joined the compute pool");
                     ("provider_id", JStr provider_id)]) 201, st')
    /\ find_provider provider_id st' = Some p
    /\ id p = provider_id
    /\ ollama_base_url p = "http://node:11434"
    /\ map JDict (models p) = [JDict [("name", JStr "A:tag")]]
    /\ current_load p = 0
    /\ forall other, other <> provider_id ->
                     find_provider other st'
                     = find_provider other (mk_state [P1; P2] 2).
Proof.
  apply (join_pool_registers (join_data [("vram_gb", JInt 10)])
                             (mk_state [P1; P2] 2) "http://node:11434"
                             [JDict [("name", JStr "A:tag")]]);
    try reflexivity.
  - now left.
  - discriminate.
  - repeat constructor. eexists. split; reflexivity.
  - right. discriminate.
Defined.

(** X11.  A join request whose base address is a truthy value that is not a
    string (a number, [true], a non-empty list or object), with a non-empty
    model list, is not answered with a 400: the test of the prefix raises
    [AttributeError], and nothing is registered. *)
Theorem join_pool_non_string_address :
  forall data st,
    truthy (get data "ollama_base_url") = true ->
    is_str (get data "ollama_base_url") = false ->
    truthy (get data "models") = true ->
    join_pool data st = (Unhandled AttributeError, st).
Proof.
  intros data st Hu Hs Hm. unfold join_pool. rewrite Hu, Hm. simpl.
  destruct (get data "ollama_base_url"); try reflexivity. discriminate Hs.
Qed.

Lemma join_pool_non_string_address_witness :
  join_pool [("ollama_base_url", JInt 8080);
             ("models", JList [JDict [("name", JStr "A:tag")]])]
            initial_state
  = (Unhandled AttributeError, initial_state).
Proof.
  apply join_pool_non_string_address; reflexivity.
Defined.

(** X12.  A join request that passes validation, gives no positive integer
    capacity, and has for [vram_gb] a truthy value that is not a number (a
    non-empty string, list or object) raises [TypeError] in the comparison:
    no provider is registered, but the counter has advanced, so the
    identifier is used up. *)
Theorem join_pool_vram_type_error :
  forall data st base_url l,
    get data "ollama_base_url" = JStr base_url ->
    startswith base_url "http://" = true \/ startswith base_url "https://" = true ->
    get data "models" = JList l -> l <> [] -> Forall named_object l ->
    (forall n, as_int (get data "max_clients") = Some n -> n <= 0) ->
    truthy (get data "vram_gb") = true ->
    num_value (get data "vram_gb") = None ->
    join_pool data st
    = (Unhandled TypeError,
       mk_state (compute_providers st) (provider_counter st + 1)).
Proof.
  intros data st base_url l Hu Hpre Hm Hl Hall Hmc Hvt Hvn.
  destruct (all_named_objects _ Hall) as (ms & Hms & Hmap).
  unfold join_pool. rewrite Hu, Hm. cbn [truthy].
  assert (base_url <> "") as Hne
      by (destruct Hpre as [H|H]; eapply startswith_nonempty; eauto; discriminate).
  assert (String.eqb base_url "" = false) as -> by now apply String.eqb_neq.
  assert (match l with [] => false | _ :: _ => true end = true) as ->
      by (destruct l; congruence).
  assert (startswith base_url "http://" || startswith base_url "https://" = true)
    as -> by (destruct Hpre as [-> | ->]; [reflexivity | apply orb_true_r]).
  cbn [negb orb valid_models]. rewrite Hms. cbn [generate_provider_id].
  assert (resolve_max_clients (get data "max_clients") (get data "vram_gb")
          = inl TypeError) as ->; [|reflexivity].
  unfold resolve_max_clients.
  assert (vram_default (get data "vram_gb") = inl TypeError) as Hd.
  { unfold vram_default, vram_at_least, py_ge. now rewrite Hvt, Hvn. }
  destruct (as_int (get data "max_clients")) as [n|]; [|exact Hd].
  specialize (Hmc n eq_refl).
  assert ((0 <? n) = false) as -> by (apply Z.ltb_ge; lia). exact Hd.
Qed.

Lemma join_pool_vram_type_error_witness :
  join_pool (join_data [("vram_gb", JStr "24GB")]) initial_state
  = (Unhandled TypeError, mk_state [] 1).
Proof.
  apply (join_pool_vram_type_error (join_data [("vram_gb", JStr "24GB")])
                                   initial_state "http://node:11434"
                                   [JDict [("name", JStr "A:tag")]]);
    try reflexivity.
  - now left.
  - discriminate.
  - repeat constructor. eexists. split; reflexivity.
  - intros n H. discriminate H.
Defined.

(** ** Invariants of the registry *)

Lemma providers_set_fresh p ps :
  ~ In (id p) (map id ps) -> providers_set p ps = (ps ++ [p])%list.
Proof.
  induction ps as [|q ps IH]; simpl; [reflexivity|].
  intros H. destruct (String.eqb_spec (id q) (id p)) as [E|_]; [tauto|].
  rewrite IH; tauto.
Qed.

Lemma add_load_ids provider_id delta st :
  map id (compute_providers (add_load provider_id delta st))
  = map id (compute_providers st).
Proof.
  unfold add_load. simpl. rewrite map_map. apply map_ext.
  intros p. now destruct (String.eqb (id p) provider_id).
Qed.

Lemma ids_issued_fresh st :
  ids_issued st ->
  ~ In (fst (generate_provider_id st)) (map id (compute_providers st)).
Proof.
  intros (_ & _ & H) Hin. rewrite Forall_forall in H.
  destruct (H _ Hin) as (k & Hk & E).
  apply provider_id_of_inj in E. lia.
Qed.

Lemma ids_issued_weaken ps c c' :
  c <= c' -> ids_issued (mk_state ps c) -> ids_issued (mk_state ps c').
Proof.
  intros Hc (H0 & Hnd & Hall). split; [simpl in *; lia|]. split; [exact Hnd|].
  eapply Forall_impl; [|exact Hall]. simpl.
  intros i (k & Hk & ->). exists k. split; [lia|reflexivity].
Qed.

Lemma join_pool_appends data st body st' :
  ids_issued st -> join_pool data st = (Reply body 201, st') ->
  exists p,
    compute_providers st' = (compute_providers st ++ [p])%list
    /\ id p = fst (generate_provider_id st)
    /\ current_load p = 0.
Proof.
  intros Hi H.
  destruct (join_pool_registered _ _ _ _ H) as (url & ms & c & _ & _ & _ & _ & ->).
  exists (mk_provider (fst (generate_provider_id st)) url ms
                      (get data "gpu_info") (get data "vram_gb") c 0).
  cbn [compute_providers]. split; [|split; reflexivity].
  apply providers_set_fresh. now apply ids_issued_fresh.
Qed.

Lemma join_pool_ids data st :
  ids_issued st -> ids_issued (snd (join_pool data st)).
Proof.
  intros Hi.
  destruct (join_pool_cases data st)
    as [(msg & E) | [E | [(e & E) | (body & st' & E)]]]; rewrite E; cbn [snd].
  - exact Hi.
  - exact Hi.
  - destruct st as [ps c]. unfold generate_provider_id.
    cbn [snd compute_providers provider_counter].
    apply (ids_issued_weaken ps c); [lia|exact Hi].
  - destruct (join_pool_appends _ _ _ _ Hi E) as (p & Hps & Hid & _).
    destruct (join_pool_registered _ _ _ _ E)
      as (url & ms & c & _ & _ & _ & _ & Hst).
    pose proof (ids_issued_fresh _ Hi) as Hfresh.
    assert (provider_counter st' = provider_counter st + 1) as Hc by now subst st'.
    destruct Hi as (H0 & Hnd & Hall). unfold ids_issued. rewrite Hps, map_app, Hc.
    simpl map. rewrite Hid. split; [lia|]. split.
    + apply NoDup_app; [exact Hnd | repeat constructor; intros [] | ].
      intros i Hin [<-|[]]. contradiction.
    + apply Forall_app. split.
      * eapply Forall_impl; [|exact Hall]. simpl.
        intros i (k & Hk & ->). exists k. split; [lia|reflexivity].
      * constructor; [|constructor]. exists (provider_counter st + 1).
        split; [lia|reflexivity].
Qed.

Lemma add_load_ids_issued provider_id delta st :
  ids_issued st -> ids_issued (add_load provider_id delta st).
Proof.
  unfold ids_issued. now rewrite add_load_ids, add_load_counter.
Qed.

Lemma serve_ids environ json_dumps py_repr rs :
  forall st, ids_issued st ->
             ids_issued (snd (serve environ json_dumps py_repr rs st)).
Proof.
  induction rs as [|r rs IH]; intros st H; cbn [serve]; [exact H|].
  assert (ids_issued (snd (handle environ json_dumps py_repr r st))) as H1.
  { destruct r as [data| |data requests_post]; simpl.
    - now apply join_pool_ids.
    - exact H.
    - destruct (completions_state environ requests_post json_dumps py_repr data st)
        as [-> | (m & p & lvl & _ & _ & ->)];
        [exact H | now apply add_load_ids_issued]. }
  destruct (handle environ json_dumps py_repr r st) as [o st1].
  specialize (IH st1 H1).
  now destruct (serve environ json_dumps py_repr rs st1).
Qed.

(** X14.  In every state that the server reaches, no two providers carry
    the same identifier and every identifier is one the counter has passed;
    so a successful registration never replaces a provider: it adds its
    record, with load 0, behind the ones already there. *)
Theorem registry_ids_unique :
  forall environ json_dumps py_repr rs st,
    ids_issued st ->
    ids_issued (snd (serve environ json_dumps py_repr rs st))
    /\ forall data body st',
        join_pool data (snd (serve environ json_dumps py_repr rs st))
        = (Reply body 201, st') ->
        exists p,
          compute_providers st'
          = (compute_providers (snd (serve environ json_dumps py_repr rs st))
             ++ [p])%list
          /\ current_load p = 0.
Proof.
  intros environ json_dumps py_repr rs st H.
  pose proof (serve_ids environ json_dumps py_repr rs st H) as H'.
  split; [exact H'|].
  intros data body st' E.
  destruct (join_pool_appends _ _ _ _ H' E) as (p & Hp & _ & Hl). eauto.
Qed.

Lemma registry_ids_unique_witness :
  ids_issued
    (snd (serve (fun _ => None) (fun _ => "") (fun _ => "")
                [JoinPool (join_data []);
                 Completions bare_request null_body_backend;
                 JoinPool (join_data [("vram_gb", JStr "24GB")]);
                 JoinPool (join_data [("max_clients", JInt 2)])]
                initial_state)).
Proof.
  apply (proj1 (registry_ids_unique (fun _ => None) (fun _ => "") (fun _ => "")
                                    _ initial_state
                                    (conj (Z.le_refl 0)
                                          (conj (NoDup_nil _) (Forall_nil _))))).
Defined.

(** X13.  In every state that the server reaches every capacity is
    positive, so the ranking by load ratio never divides by zero. *)
Theorem capacities_stay_positive :
  forall environ json_dumps py_repr rs st,
    capacities_positive st ->
    capacities_positive (snd (serve environ json_dumps py_repr rs st))
    /\ exists ranked,
        providers_sorted_by_load (snd (serve environ json_dumps py_repr rs st))
        = inr ranked.
Proof.
  intros environ json_dumps py_repr rs st H.
  pose proof (serve_capacities environ json_dumps py_repr rs st H) as H'.
  split; [exact H'|].
  destruct (ranking_of_registry (snd (serve environ json_dumps py_repr rs st)))
    as (ranked & Hr & _); [|eauto].
  eapply Forall_impl; [|exact H']. simpl. intros p Hp. lia.
Qed.

Lemma capacities_stay_positive_witness :
  capacities_positive
    (snd (serve (fun _ => None) (fun _ => "") (fun _ => "")
                [JoinPool (join_data [("max_clients", JInt 0)]);
                 Completions bare_request null_body_backend]
                initial_state)).
Proof.
  apply (proj1 (capacities_stay_positive (fun _ => None) (fun _ => "") (fun _ => "")
                                         _ initial_state (Forall_nil _))).
Defined.

(** ** Model catalog *)

Lemma summary_add_name_in k model_info acc x :
  In x (map name (summary_add k model_info acc)) ->
  x = k \/ In x (map name acc).
Proof.
  induction acc as [|e acc IH]; simpl.
  - intros [<-|[]]. now left.
  - destruct (key_eqb (name e) k); simpl; [tauto|].
    intros [<-|H]; [tauto|]. destruct (IH H); tauto.
Qed.

Lemma summary_add_ok n model_info acc :
  n <> "" ->
  NoDup (map name acc) -> Forall summary_ok acc ->
  NoDup (map name (summary_add (JStr n) model_info acc))
  /\ Forall summary_ok (summary_add (JStr n) model_info acc).
Proof.
  intros Hn. induction acc as [|e acc IH]; intros Hnd Hall.
  - simpl. split; [repeat constructor; intros []|].
    repeat constructor. exists n. simpl. repeat split; auto. lia.
  - apply NoDup_cons_iff in Hnd as [Hnotin Hnd].
    apply Forall_cons_iff in Hall as [He Hall].
    destruct (IH Hnd Hall) as [IH1 IH2]. simpl.
    destruct (key_eqb (name e) (JStr n)) eqn:E.
    + split; [now constructor|]. constructor; [|exact Hall].
      destruct He as (m & Hm & Hne & Hc). exists m. simpl. repeat split; auto. lia.
    + split; [|now constructor]. simpl. constructor; [|exact IH1].
      intros Hin. apply summary_add_name_in in Hin as [Heq|Hin]; [|tauto].
      rewrite Heq in E. simpl in E. now rewrite String.eqb_refl in E.
Qed.

Lemma summarize_models_ok ms :
  names_ok ms ->
  forall acc acc',
    NoDup (map name acc) -> Forall summary_ok acc ->
    summarize_models ms acc = inr acc' ->
    NoDup (map name acc') /\ Forall summary_ok acc'.
Proof.
  induction 1 as [|model_info ms Hm _ IH]; intros acc acc' Hnd Hall; simpl.
  - now injection 1 as <-.
  - destruct (get model_info "name") as [| | | |n| |]; try discriminate Hm.
    simpl. destruct (String.eqb_spec n "") as [->|Hn]; simpl.
    + now apply IH.
    + destruct (summary_add_ok n model_info acc Hn Hnd Hall). now apply IH.
Qed.

Lemma summarize_providers_ok ps :
  Forall provider_ok ps ->
  forall acc acc',
    NoDup (map name acc) -> Forall summary_ok acc ->
    summarize_providers ps acc = inr acc' ->
    NoDup (map name acc') /\ Forall summary_ok acc'.
Proof.
  induction 1 as [|p ps [_ Hp] _ IH]; intros acc acc' Hnd Hall; simpl.
  - now injection 1 as <-.
  - destruct (current_load p <? max_clients p); [|now apply IH].
    destruct (summarize_models (models p) acc) as [e|acc1] eqn:E; simpl;
      [intros; discriminate|].
    destruct (summarize_models_ok _ Hp _ _ Hnd Hall E). now apply IH.
Qed.

Lemma summary_find_in n summaries :
  In (JStr n) (map name summaries) <-> summary_find n summaries <> None.
Proof.
  unfold summary_find. split.
  - intros Hin Hnone. apply in_map_iff in Hin as (e & He & Hin).
    pose proof (find_none _ _ Hnone e Hin) as H. simpl in H.
    rewrite He in H. simpl in H. now rewrite String.eqb_refl in H.
  - intros H.
    destruct (find (fun e => key_eqb (name e) (JStr n)) summaries) as [e|] eqn:F;
      [|congruence].
    apply find_some in F as [Hin Hk]. apply key_eqb_str_r in Hk.
    apply in_map_iff. now exists e.
Qed.

Lemma entries_named_offered n ps :
  entries_named n ps <> [] <->
  exists p, In p ps /\ eligible p = true /\ offers_exactly n p = true.
Proof.
  rewrite entries_named_offering. split.
  - intros H.
    destruct (filter (fun p => eligible p && offers_exactly n p) ps) as [|p l] eqn:F;
      [now simpl in H|].
    assert (In p (filter (fun p => eligible p && offers_exactly n p) ps)) as Hin
        by (rewrite F; now left).
    apply filter_In in Hin as [Hin Hp]. apply andb_true_iff in Hp. now exists p.
  - intros (p & Hin & He & Ho) Hnil.
    unfold offers_exactly in Ho. apply existsb_exists in Ho as (m & Hm & Hn).
    assert (In m (flat_map (fun p => filter (named n) (models p))
                           (filter (fun p => eligible p && offers_exactly n p) ps)))
      as Hin'.
    { apply in_flat_map. exists p. split.
      - apply filter_In. split; [exact Hin|]. rewrite He. simpl.
        apply existsb_exists. now exists m.
      - apply filter_In. now split. }
    now rewrite Hnil in Hin'.
Qed.

Lemma catalog_listing :
  forall st,
    registry_ok st ->
    exists summaries,
      get_available_models st = Reply (JList (map summary_json summaries)) 200
      /\ NoDup (map name summaries)
      /\ Forall summary_ok summaries
      /\ forall n, n <> "" ->
                   (In (JStr n) (map name summaries)
                    <-> exists p, In p (compute_providers st)
                                  /\ eligible p = true
                                  /\ offers_exactly n p = true).
Proof.
  intros st Hok. destruct (all_models_summary_total _ Hok) as (summaries & H).
  exists summaries. unfold get_available_models. rewrite H.
  split; [reflexivity|].
  destruct (summarize_providers_ok _ Hok [] summaries (NoDup_nil _) (Forall_nil _) H)
    as [Hnd Hall].
  split; [exact Hnd|]. split; [exact Hall|].
  intros n Hn. rewrite summary_find_in, (catalog_entry _ _ _ Hn H).
  rewrite <- entries_named_offered.
  destruct (entries_named n (compute_providers st)); split; congruence.
Qed.

(** X15.  With string names in the registry the catalog is always
    delivered, with status 200; no name is listed twice, every entry has a
    non-empty name and counts at least one provider, and a non-empty name is
    listed exactly when some under-capacity provider has a model of that
    name. *)
Theorem catalog_lists_offered_names_once :
  forall st,
    registry_ok st ->
    exists summaries,
      get_available_models st = Reply (JList (map summary_json summaries)) 200
      /\ NoDup (map name summaries)
      /\ Forall summary_ok summaries
      /\ forall n, n <> "" ->
                   (In (JStr n) (map name summaries)
                    <-> exists p, In p (compute_providers st)
                                  /\ eligible p = true
                                  /\ offers_exactly n p = true).
Proof. exact catalog_listing. Qed.

Lemma catalog_lists_offered_names_once_witness :
  exists summaries,
    get_available_models (mk_state [P4; P3; P1; P2] 4)
    = Reply (JList (map summary_json summaries)) 200
    /\ NoDup (map name summaries)
    /\ Forall summary_ok summaries
    /\ forall n, n <> "" ->
                 (In (JStr n) (map name summaries)
                  <-> exists p, In p [P4; P3; P1; P2]
                                /\ eligible p = true
                                /\ offers_exactly n p = true).
Proof.
  apply (catalog_lists_offered_names_once (mk_state [P4; P3; P1; P2] 4)).
  repeat constructor.
Defined.

(** ** Names that are not strings *)

Lemma summarize_models_unhashable ms1 model_info ms2 :
  names_ok ms1 ->
  truthy (get model_info "name") = true ->
  hashable (get model_info "name") = false ->
  forall acc, summarize_models (ms1 ++ model_info :: ms2)%list acc = inl TypeError.
Proof.
  intros H Ht Hh. induction H as [|m ms1 Hm _ IH]; intros acc; simpl.
  - now rewrite Ht, Hh.
  - destruct (get m "name"); try discriminate Hm. simpl.
    destruct (negb (String.eqb s "")); apply IH.
Qed.

Lemma summarize_providers_unhashable pre p post ms1 model_info ms2 :
  Forall provider_ok pre -> eligible p = true ->
  models p = (ms1 ++ model_info :: ms2)%list -> names_ok ms1 ->
  truthy (get model_info "name") = true ->
  hashable (get model_info "name") = false ->
  forall acc, summarize_providers (pre ++ p :: post)%list acc = inl TypeError.
Proof.
  intros Hpre He Hm H1 Ht Hh.
  induction Hpre as [|q pre [_ Hq] _ IH]; intros acc; simpl.
  - unfold eligible in He. rewrite He, Hm.
    now rewrite (summarize_models_unhashable _ _ _ H1 Ht Hh).
  - destruct (current_load q <? max_clients q); [|apply IH].
    destruct (summarize_models_total _ Hq acc) as (acc1 & ->). simpl. apply IH.
Qed.

(** X16.  When an under-capacity provider has a model entry whose name is a
    non-empty list or object, and the entries met before it have strings
    for names, the catalog request raises [TypeError] instead of
    answering. *)
Theorem catalog_breaks_on_unhashable_name :
  forall pre p post counter ms1 model_info ms2,
    Forall provider_ok pre -> eligible p = true ->
    models p = (ms1 ++ model_info :: ms2)%list -> names_ok ms1 ->
    truthy (get model_info "name") = true ->
    hashable (get model_info "name") = false ->
    get_available_models (mk_state (pre ++ p :: post)%list counter)
    = Unhandled TypeError.
Proof.
  intros pre p post counter ms1 model_info ms2 Hpre He Hm H1 Ht Hh.
  unfold get_available_models, all_models_summary. cbn [compute_providers].
  now rewrite (summarize_providers_unhashable _ _ _ _ _ _ Hpre He Hm H1 Ht Hh).
Qed.

Lemma catalog_breaks_on_unhashable_name_witness :
  exists st',
    join_pool [("ollama_base_url", JStr "http://node:11434");
               ("models", JList [JDict [("name", JList [JStr "A:tag"])]])]
              (mk_state [P1] 1)
    = (Reply (JDict [("message", JStr "Successfully joined the compute pool");
                     ("provider_id", JStr "provider_2")]) 201, st')
    /\ get_available_models st' = Unhandled TypeError.
Proof.
  eexists. split; [reflexivity|].
  apply (catalog_breaks_on_unhashable_name
           [P1] _ [] 2 [] [("name", JList [JStr "A:tag"])] []);
    try reflexivity.
  - repeat constructor.
  - constructor.
Defined.

Lemma scan_models_non_string model_name_req p ms1 model_info ms2 :
  names_ok ms1 -> existsb (named model_name_req) ms1 = false ->
  is_str (get model_info "name") = false ->
  forall selected best,
    best < 2 ->
    scan_models model_name_req p (ms1 ++ model_info :: ms2)%list selected best
    = inl AttributeError.
Proof.
  intros H Hex Hs. induction H as [|m ms1 Hm _ IH]; intros selected best Hb.
  - simpl. destruct (get model_info "name"); try reflexivity. discriminate Hs.
  - simpl in Hex. apply orb_false_iff in Hex as [E Hex].
    change ((m :: ms1) ++ model_info :: ms2)%list
      with (m :: (ms1 ++ model_info :: ms2))%list.
    rewrite (scan_models_step _ _ _ _ _ _ Hm E).
    destruct (prefix_named model_name_req m && (best <? 1)); apply IH; auto; lia.
Qed.

Lemma scan_providers_non_string model_name_req pre p post ms1 model_info ms2 :
  Forall provider_ok pre ->
  (forall q, In q pre -> eligible q && offers_exactly model_name_req q = false) ->
  eligible p = true ->
  models p = (ms1 ++ model_info :: ms2)%list ->
  names_ok ms1 -> existsb (named model_name_req) ms1 = false ->
  is_str (get model_info "name") = false ->
  forall selected best,
    best < 2 ->
    scan_providers model_name_req (pre ++ p :: post)%list selected best
    = inl AttributeError.
Proof.
  intros Hpre Hno He Hm H1 Hex Hs.
  induction Hpre as [|q pre [_ Hq] _ IH]; intros selected best Hb; simpl.
  - rewrite skip_test_eligible, He, Hm. simpl.
    now rewrite (scan_models_non_string _ _ _ _ _ H1 Hex Hs _ _ Hb).
  - rewrite skip_test_eligible.
    assert (forall q', In q' pre ->
                       eligible q' && offers_exactly model_name_req q' = false)
      as Hno' by (intros; apply Hno; now right).
    specialize (Hno q (or_introl eq_refl)).
    destruct (eligible q); simpl; [|now apply IH].
    simpl in Hno.
    destruct (scan_models_no_exact _ q _ Hq Hno selected best Hb)
      as (selected' & best' & -> & Hb').
    simpl. assert ((best' =? 2) = false) as -> by (apply Z.eqb_neq; lia).
    now apply IH.
Qed.

(** X17.  When the scan, before it finds an exact match, reaches a model
    entry of an under-capacity provider whose name is not a string, the
    completions request raises [AttributeError]: nobody is called, not even
    the fallback, and the registry is untouched. *)
Theorem completions_breaks_on_non_string_name :
  forall environ requests_post json_dumps py_repr data st model_name_req
         pre p post ms1 model_info ms2,
    truthy (get data "prompt") = true ->
    get data "model" = JStr model_name_req ->
    model_name_req <> "" ->
    providers_sorted_by_load st = inr (pre ++ p :: post)%list ->
    Forall provider_ok pre ->
    (forall q, In q pre -> eligible q && offers_exactly model_name_req q = false) ->
    eligible p = true ->
    models p = (ms1 ++ model_info :: ms2)%list ->
    names_ok ms1 -> existsb (named model_name_req) ms1 = false ->
    is_str (get model_info "name") = false ->
    completions environ requests_post json_dumps py_repr data st
    = (Unhandled AttributeError, st, []).
Proof.
  intros environ requests_post json_dumps py_repr data st model_name_req
         pre p post ms1 model_info ms2 Hp Hm Hne Hsort Hpre Hno He Hms H1 Hex Hs.
  rewrite (completions_selected _ _ _ _ _ _ _ Hp Hm Hne).
  unfold select_provider. rewrite Hsort. simpl.
  rewrite (scan_providers_non_string _ _ _ _ _ _ _ Hpre Hno He Hms H1 Hex Hs);
    [reflexivity | lia].
Qed.

Lemma completions_breaks_on_non_string_name_witness :
  completions (fun _ => None) unreachable_backend (fun _ => "") (fun _ => "")
              bare_request
              (mk_state [P1; mk_provider "provider_9" "http://p9:11434"
                                         [[("name", JNull)]] JNull JNull 1 0; P2] 9)
  = (Unhandled AttributeError,
     mk_state [P1; mk_provider "provider_9" "http://p9:11434"
                               [[("name", JNull)]] JNull JNull 1 0; P2] 9, []).
Proof.
  apply (completions_breaks_on_non_string_name
           (fun _ => None) unreachable_backend (fun _ => "") (fun _ => "")
           bare_request _ "A:tag2" []
           (mk_provider "provider_9" "http://p9:11434"
                        [[("name", JNull)]] JNull JNull 1 0)
           [P2; P1] [] [("name", JNull)] []);
    try reflexivity.
  - discriminate.
  - constructor.
  - intros q [].
  - constructor.
Defined.

(** ** Fallback client *)

Lemma append_assoc (a b c : string) : (a ++ b) ++ c = a ++ b ++ c.
Proof. induction a as [|x a IH]; simpl; [reflexivity | now rewrite IH]. Qed.

Section FallbackPaths.

Variable environ : string -> option string.
Variable requests_post : outbound -> http_result.
Variable json_dumps : json -> string.
Variable py_repr : json -> string.

Lemma call_pollinations_api_sends prompt model r :
  fallback_answers environ requests_post prompt model r ->
  call_pollinations_api environ requests_post json_dumps py_repr prompt model
  = (match r with
     | NoResponse msg =>
         ret ([("error", JStr ("Pollinations API request failed: " ++ msg));
               ("source", JStr "pollinations")], 500)
     | Response status_code text body =>
         if is_error_status status_code then
           http_error_result py_repr status_code text body
         else
           match body with
           | inl msg =>
               ret ([("error", JStr ("Pollinations API request failed: " ++ msg));
                     ("source", JStr "pollinations")], 500)
           | inr response_data => normalize json_dumps response_data status_code
           end
     end,
     [pollinations_request environ prompt model]).
Proof.
  intros [Hkey Hr]. unfold call_pollinations_api.
  assert (String.eqb (find_pollinations_api_key environ) placeholder = false) as ->
      by now apply String.eqb_neq.
  unfold pollinations_request in Hr. now rewrite Hr.
Qed.

(** X18.  With a credential configured, a call to the fallback service that
    gets no response, or a success reply whose body is not JSON, is
    answered with status 500 and the message "Pollinations API request
    failed: " followed by the text of the failure. *)
Theorem fallback_transport_failure prompt model r msg :
  fallback_answers environ requests_post prompt model r ->
  r = NoResponse msg
  \/ (exists status_code text,
         r = Response status_code text (inl msg)
         /\ is_error_status status_code = false) ->
  call_pollinations_api environ requests_post json_dumps py_repr prompt model
  = (inr (fallback_reply "error"
                         (JStr ("Pollinations API request failed: " ++ msg))
                         "pollinations", 500),
     [pollinations_request environ prompt model]).
Proof.
  intros Ha H. rewrite (call_pollinations_api_sends _ _ _ Ha).
  destruct H as [-> | (status_code & text & -> & ->)]; reflexivity.
Qed.

(** X19.  When the fallback service answers with an error status, the
    caller gets that status and the message "Pollinations API request failed
    with status N: " followed by the [message] of the body's [error] object,
    or by the raw text when the body is not JSON, has no [error], or the
    [error] has no [message]. *)
Theorem fallback_upstream_error prompt model status_code text body :
  fallback_answers environ requests_post prompt model
                   (Response status_code text body) ->
  is_error_status status_code = true ->
  forall shown,
    (exists msg, body = inl msg) /\ shown = text
    \/ (exists d, body = inr (JDict d) /\ dict_get "error" d = None
                  /\ shown = text)
    \/ (exists d e, body = inr (JDict d) /\ dict_get "error" d = Some (JDict e)
                    /\ shown = py_str py_repr (get_default e "message" (JStr text))) ->
    call_pollinations_api environ requests_post json_dumps py_repr prompt model
    = (inr (fallback_reply
              "error"
              (JStr ("Pollinations API request failed with status "
                     ++ str_of_Z status_code ++ ": " ++ shown))
              "pollinations", status_code),
       [pollinations_request environ prompt model]).
Proof.
  intros Ha Hs shown H. rewrite (call_pollinations_api_sends _ _ _ Ha), Hs.
  unfold http_error_result, get_default.
  destruct H as [[(msg & ->) ->] | [(d & -> & Hd & ->) | (d & e & -> & Hd & ->)]];
    try rewrite Hd; cbn [bind ret]; now rewrite ?append_assoc.
Qed.

Lemma fallback_normalizes prompt model status_code text d :
  fallback_answers environ requests_post prompt model
                   (Response status_code text (inr (JDict d))) ->
  is_error_status status_code = false ->
  forall v,
    dict_get "completion" d = Some v
    \/ (dict_get "completion" d = None
        /\ exists first rest,
            dict_get "choices" d = Some (JList (JDict first :: rest))
            /\ dict_get "text" first = Some v)
    \/ (dict_get "completion" d = None /\ dict_get "choices" d = None
        /\ exists inner,
            dict_get "data" d = Some (JDict inner)
            /\ (dict_get "completion" inner = Some v
                \/ (dict_get "completion" inner = None
                    /\ dict_get "text" inner = Some v))) ->
    fst (call_pollinations_api environ requests_post json_dumps py_repr prompt model)
    = inr (fallback_reply "response" v "pollinations", status_code).
Proof.
  intros Ha Hs v H. rewrite (call_pollinations_api_sends _ _ _ Ha), Hs.
  cbn [fst]. unfold normalize, py_in, py_item, dict_has.
  destruct H as [Hc | [(Hc & first & rest & Hch & Ht)
                      | (Hc & Hch & inner & Hd & Hi)]].
  - rewrite Hc. reflexivity.
  - rewrite Hc, Hch. simpl. now rewrite Ht.
  - rewrite Hc, Hch, Hd. simpl. unfold dict_has.
    destruct Hi as [Hi | [Hi1 Hi2]].
    + now rewrite Hi.
    + now rewrite Hi1, Hi2.
Qed.

(** X21.  A success reply that is a JSON object without [completion],
    [choices] and [data] is not an error: the whole body, serialised, is
    returned as [response], with source "pollinations_unknown_structure"
    and the upstream status. *)
Theorem fallback_unrecognized_shape prompt model status_code text d :
  fallback_answers environ requests_post prompt model
                   (Response status_code text (inr (JDict d))) ->
  is_error_status status_code = false ->
  dict_get "completion" d = None -> dict_get "choices" d = None ->
  dict_get "data" d = None ->
  fst (call_pollinations_api environ requests_post json_dumps py_repr prompt model)
  = inr (fallback_reply "response" (JStr (json_dumps (JDict d)))
                        "pollinations_unknown_structure", status_code).
Proof.
  intros Ha Hs Hc Hch Hd. rewrite (call_pollinations_api_sends _ _ _ Ha), Hs.
  cbn [fst]. unfold normalize, py_in, dict_has. now rewrite Hc, Hch, Hd.
Qed.

Lemma fallback_scalar_body prompt model status_code text v :
  fallback_answers environ requests_post prompt model
                   (Response status_code text (inr v)) ->
  scalar v = true ->
  fst (call_pollinations_api environ requests_post json_dumps py_repr prompt model)
  = inl (if is_error_status status_code then AttributeError else TypeError).
Proof.
  intros Ha Hv. rewrite (call_pollinations_api_sends _ _ _ Ha). cbn [fst].
  destruct (is_error_status status_code); destruct v; try discriminate Hv;
    reflexivity.
Qed.

Lemma completions_unmatched data st model_name_req level :
  truthy (get data "prompt") = true ->
  get data "model" = JStr model_name_req ->
  model_name_req <> "" ->
  select_provider model_name_req st = inr (None, level) ->
  completions environ requests_post json_dumps py_repr data st
  = fallback environ requests_post json_dumps py_repr
             (get data "prompt") model_name_req st [].
Proof.
  intros Hp Hm Hne Hsel.
  now rewrite (completions_selected _ _ _ _ _ _ _ Hp Hm Hne), Hsel.
Qed.

End FallbackPaths.

Lemma fallback_transport_failure_witness :
  call_pollinations_api configured_environ unreachable_backend
                        (fun _ => "") (fun _ => "") (JStr "hello") "A:tag"
  = (inr (fallback_reply "error"
                         (JStr "Pollinations API request failed: timed out")
                         "pollinations", 500),
     [pollinations_request configured_environ (JStr "hello") "A:tag"]).
Proof.
  apply (fallback_transport_failure
           configured_environ unreachable_backend (fun _ => "") (fun _ => "")
           (JStr "hello") "A:tag" (NoResponse "timed out") "timed out").
  - split; [discriminate | reflexivity].
  - now left.
Defined.

Lemma fallback_upstream_error_witness :
  call_pollinations_api
    configured_environ
    (fun _ => Response 429 "slow down"
                (inr (JDict [("error", JDict [("message", JStr "rate limited")])])))
    (fun _ => "") (fun _ => "") (JStr "hello") "A:tag"
  = (inr (fallback_reply
            "error"
            (JStr "Pollinations API request failed with status 429: rate limited")
            "pollinations", 429),
     [pollinations_request configured_environ (JStr "hello") "A:tag"]).
Proof.
  apply (fallback_upstream_error
           configured_environ _ (fun _ => "") (fun _ => "") (JStr "hello") "A:tag"
           429 "slow down"
           (inr (JDict [("error", JDict [("message", JStr "rate limited")])]))).
  - split; [discriminate | reflexivity].
  - reflexivity.
  - right. right. eexists _, _. repeat split; reflexivity.
Defined.

(** X20.  From a success reply that is a JSON object the fallback client
    takes the text, in this order of preference, from [completion], from
    [text] of the first element of [choices], from [completion] of [data],
    from [text] of [data], and returns it as [response] with source
    "pollinations" and the upstream status. *)
Theorem fallback_known_shapes :
  forall environ requests_post json_dumps py_repr prompt model
         status_code text d,
    fallback_answers environ requests_post prompt model
                     (Response status_code text (inr (JDict d))) ->
    is_error_status status_code = false ->
    forall v,
      dict_get "completion" d = Some v
      \/ (dict_get "completion" d = None
          /\ exists first rest,
              dict_get "choices" d = Some (JList (JDict first :: rest))
              /\ dict_get "text" first = Some v)
      \/ (dict_get "completion" d = None /\ dict_get "choices" d = None
          /\ exists inner,
              dict_get "data" d = Some (JDict inner)
              /\ (dict_get "completion" inner = Some v
                  \/ (dict_get "completion" inner = None
                      /\ dict_get "text" inner = Some v))) ->
      fst (call_pollinations_api environ requests_post json_dumps py_repr
                                 prompt model)
      = inr (fallback_reply "response" v "pollinations", status_code).
Proof. exact fallback_normalizes. Qed.

Lemma fallback_known_shapes_witness :
  fst (call_pollinations_api
         configured_environ
         (fun _ => Response 200 ""
                     (inr (JDict [("choices",
                                   JList [JDict [("text", JStr "Hi")];
                                          JDict [("text", JStr "Ho")]]);
                                  ("data", JDict [("text", JStr "Hu")])])))
         (fun _ => "") (fun _ => "") (JStr "hello") "A:tag")
  = inr (fallback_reply "response" (JStr "Hi") "pollinations", 200).
Proof.
  apply (fallback_known_shapes
           configured_environ _ (fun _ => "") (fun _ => "") (JStr "hello") "A:tag"
           200 ""
           [("choices", JList [JDict [("text", JStr "Hi")];
                               JDict [("text", JStr "Ho")]]);
            ("data", JDict [("text", JStr "Hu")])]).
  - split; [discriminate | reflexivity].
  - reflexivity.
  - right. left. split; [reflexivity|]. eexists _, _. split; reflexivity.
Defined.

Lemma fallback_unrecognized_shape_witness :
  fst (call_pollinations_api
         configured_environ
         (fun _ => Response 200 "" (inr (JDict [("output", JStr "Hi")])))
         (fun _ => "<dump>") (fun _ => "") (JStr "hello") "A:tag")
  = inr (fallback_reply "response" (JStr "<dump>")
                        "pollinations_unknown_structure", 200).
Proof.
  apply (fallback_unrecognized_shape
           configured_environ _ (fun _ => "<dump>") (fun _ => "") (JStr "hello")
           "A:tag" 200 "" [("output", JStr "Hi")]);
    try reflexivity.
  split; [discriminate | reflexivity].
Defined.

(** X22.  When no provider is selected and the fallback service answers
    with a JSON body that is a number, a boolean or null, the request ends
    in an exception that nothing catches: [TypeError] on a success status,
    [AttributeError] on an error status. *)
Theorem fallback_scalar_body_raises :
  forall environ requests_post json_dumps py_repr data st model_name_req level
         status_code text v,
    truthy (get data "prompt") = true ->
    get data "model" = JStr model_name_req ->
    model_name_req <> "" ->
    select_provider model_name_req st = inr (None, level) ->
    fallback_answers environ requests_post (get data "prompt") model_name_req
                     (Response status_code text (inr v)) ->
    scalar v = true ->
    completions environ requests_post json_dumps py_repr data st
    = (Unhandled (if is_error_status status_code
                  then AttributeError else TypeError),
       st,
       [pollinations_request environ (get data "prompt") model_name_req]).
Proof.
  intros environ requests_post json_dumps py_repr data st model_name_req level
         status_code text v Hp Hm Hne Hsel Ha Hv.
  rewrite (completions_unmatched _ _ _ _ _ _ _ level Hp Hm Hne Hsel).
  pose proof (fallback_scalar_body environ requests_post json_dumps py_repr
                _ _ _ _ _ Ha Hv) as H.
  unfold fallback.
  rewrite (call_pollinations_api_sends _ _ _ _ _ _ _ Ha) in H |- *.
  cbn [fst] in H. now rewrite H.
Qed.

Lemma fallback_scalar_body_raises_witness :
  completions configured_environ (fun _ => Response 200 "null" (inr JNull))
              (fun _ => "") (fun _ => "")
              [("prompt", JStr "hello"); ("model", JStr "B:7b")]
              (mk_state [P1; P2] 2)
  = (Unhandled TypeError, mk_state [P1; P2] 2,
     [pollinations_request configured_environ (JStr "hello") "B:7b"]).
Proof.
  apply (fallback_scalar_body_raises
           configured_environ _ (fun _ => "") (fun _ => "")
           [("prompt", JStr "hello"); ("model", JStr "B:7b")]
           (mk_state [P1; P2] 2) "B:7b" 0 200 "null" JNull);
    try reflexivity.
  - discriminate.
  - split; [discriminate | reflexivity].
Defined.

(** X23.  When no provider is selected and the fallback service answers a
    success status with [completion] a string, the caller gets that status
    and the object with [response] the sanitized string and [source]
    "pollinations"; one call went out, to the fallback service. *)
Theorem completions_fallback_answer :
  forall environ requests_post json_dumps py_repr data st model_name_req level
         status_code text d s,
    truthy (get data "prompt") = true ->
    get data "model" = JStr model_name_req ->
    model_name_req <> "" ->
    select_provider model_name_req st = inr (None, level) ->
    fallback_answers environ requests_post (get data "prompt") model_name_req
                     (Response status_code text (inr (JDict d))) ->
    is_error_status status_code = false ->
    dict_get "completion" d = Some (JStr s) ->
    completions environ requests_post json_dumps py_repr data st
    = (Reply (JDict (fallback_reply "response" (JStr (strip_think_blocks s))
                                    "pollinations")) status_code,
       st,
       [pollinations_request environ (get data "prompt") model_name_req]).
Proof.
  intros environ requests_post json_dumps py_repr data st model_name_req level
         status_code text d s Hp Hm Hne Hsel Ha Hs Hc.
  rewrite (completions_unmatched _ _ _ _ _ _ _ level Hp Hm Hne Hsel).
  pose proof (fallback_normalizes environ requests_post json_dumps py_repr
                _ _ _ _ _ Ha Hs (JStr s) (or_introl Hc)) as H.
  unfold fallback.
  rewrite (call_pollinations_api_sends _ _ _ _ _ _ _ Ha) in H |- *.
  cbn [fst] in H. now rewrite H.
Qed.

Lemma completions_fallback_answer_witness :
  completions configured_environ
              (fun _ => Response 200 ""
                          (inr (JDict [("completion",
                                        JStr "<think>which?</think> Hello ")])))
              (fun _ => "") (fun _ => "")
              [("prompt", JStr "hello"); ("model", JStr "B:7b")]
              (mk_state [P1; P2] 2)
  = (Reply (JDict (fallback_reply "response" (JStr "Hello") "pollinations")) 200,
     mk_state [P1; P2] 2,
     [pollinations_request configured_environ (JStr "hello") "B:7b"]).
Proof.
  apply (completions_fallback_answer
           configured_environ _ (fun _ => "") (fun _ => "")
           [("prompt", JStr "hello"); ("model", JStr "B:7b")]
           (mk_state [P1; P2] 2) "B:7b" 0 200 ""
           [("completion", JStr "<think>which?</think> Hello ")]
           "<think>which?</think> Hello ");
    try reflexivity.
  - discriminate.
  - split; [discriminate | reflexivity].
Defined.

(** ** The second release *)

Lemma sanitize_completion_raises v :
  sanitize_completion v
  = if breaks_sanitizer v then inl TypeError
    else inr match v with JDict d => JDict (sanitized_object d) | _ => v end.
Proof.
  destruct v as [|b|n|q|s|l|d]; try reflexivity.
  apply sanitize_completion_dict.
Qed.

(** X24.  When the selected provider answers a success status with a JSON
    body that is a number, a boolean, null, a list with the element
    "response" or a string containing "response", the request is answered by
    the fallback client and the provider's load ends one below what it was
    before the request; with any other JSON body the caller gets the
    provider's reply and the registry is as before. *)
Theorem completions_release_by_body :
  forall environ requests_post json_dumps py_repr data st model_name_req p level
         status_code text v,
    truthy (get data "prompt") = true ->
    get data "model" = JStr model_name_req ->
    model_name_req <> "" ->
    select_provider model_name_req st = inr (Some p, level) ->
    requests_post (provider_request p data model_name_req (get data "prompt"))
    = Response status_code text (inr v) ->
    is_error_status status_code = false ->
    completions environ requests_post json_dumps py_repr data st
    = if breaks_sanitizer v
      then fallback environ requests_post json_dumps py_repr
                    (get data "prompt") model_name_req
                    (add_load (id p) (-1) st)
                    [provider_request p data model_name_req (get data "prompt")]
      else (Reply (match v with JDict d => JDict (sanitized_object d) | _ => v end)
                  status_code, st,
            [provider_request p data model_name_req (get data "prompt")]).
Proof.
  intros environ requests_post json_dumps py_repr data st model_name_req p level
         status_code text v Hp Hm Hne Hsel Hpost Hst.
  rewrite (completions_selected _ _ _ _ _ _ _ Hp Hm Hne), Hsel. cbv zeta.
  unfold forward. rewrite Hpost, Hst, sanitize_completion_raises.
  destruct (breaks_sanitizer v); simpl.
  - now rewrite !add_load_add.
  - now rewrite add_load_cancel.
Qed.

Lemma completions_release_by_body_witness :
  completions (fun _ => None)
              (fun _ => Response 200 "" (inr (JList [JStr "response"])))
              (fun _ => "") (fun _ => "") bare_request (mk_state [P1; P2] 2)
  = fallback (fun _ => None)
             (fun _ => Response 200 "" (inr (JList [JStr "response"])))
             (fun _ => "") (fun _ => "") (JStr "hello") "A:tag2"
             (add_load "provider_2" (-1) (mk_state [P1; P2] 2))
             [provider_request P2 bare_request "A:tag2" (JStr "hello")].
Proof.
  apply (completions_release_by_body
           (fun _ => None) _ (fun _ => "") (fun _ => "") bare_request
           (mk_state [P1; P2] 2) "A:tag2" P2 2 200 "" (JList [JStr "response"]));
    try reflexivity.
  discriminate.
Defined.

(** ** Registration, then the catalog *)

Lemma string_named_objects l :
  Forall string_named l ->
  Forall named_object l
  /\ forall ms, l = map JDict ms -> names_ok ms.
Proof.
  induction 1 as [|entry l (model_info & n & -> & Hn) _ [IH1 IH2]].
  - split; [constructor|]. intros [|m ms] H; [constructor | discriminate H].
  - split.
    + constructor; [|exact IH1]. exists model_info. split; [reflexivity|].
      unfold dict_has. unfold get, get_default in Hn.
      destruct (dict_get "name" model_info); [reflexivity | discriminate Hn].
    + intros [|m ms] H; [discriminate H|]. simpl in H. injection H as <- ->.
      constructor; [now rewrite Hn | now apply IH2].
Qed.

(** X25.  After a registration whose model names are strings, the catalog
    lists each of the non-empty names at once: the new provider has load 0
    and a positive capacity. *)
Theorem registered_models_are_listed :
  forall data st body st' l model_info n,
    registry_ok st -> ids_issued st ->
    join_pool data st = (Reply body 201, st') ->
    get data "models" = JList l -> Forall string_named l ->
    In (JDict model_info) l -> get model_info "name" = JStr n -> n <> "" ->
    exists summaries,
      get_available_models st' = Reply (JList (map summary_json summaries)) 200
      /\ In (JStr n) (map name summaries).
Proof.
  intros data st body st' l model_info n Hok Hids Hjoin Hm Hall Hin Hn Hne.
  destruct (join_pool_registered _ _ _ _ Hjoin)
    as (url & ms & c & _ & Hv & Hc & _ & Hst).
  rewrite Hm in Hv. simpl in Hv.
  destruct (string_named_objects _ Hall) as [Hobj Hnames].
  destruct (all_named_objects _ Hobj) as (ms' & Hms' & Hmap).
  assert (ms' = ms) as -> by congruence.
  pose proof (resolve_max_clients_positive _ _ _ Hc) as Hpos.
  set (p := mk_provider (fst (generate_provider_id st)) url ms
                        (get data "gpu_info") (get data "vram_gb") c 0) in Hst.
  assert (compute_providers st' = (compute_providers st ++ [p])%list) as Hps.
  { subst st'. cbn [compute_providers]. apply providers_set_fresh.
    now apply ids_issued_fresh. }
  assert (registry_ok st') as Hok'.
  { unfold registry_ok. rewrite Hps. apply Forall_app. split; [exact Hok|].
    repeat constructor; [exact Hpos | now apply Hnames]. }
  destruct (catalog_listing st' Hok')
    as (summaries & Hget & _ & _ & Hlisted).
  exists summaries. split; [exact Hget|].
  apply (Hlisted n Hne). exists p. rewrite Hps.
  split; [apply in_or_app; right; now left|].
  split; [now apply Z.ltb_lt|].
  unfold offers_exactly. apply existsb_exists. exists model_info.
  split.
  - subst l. apply in_map_iff in Hin as (m & Hm' & Hin). now injection Hm' as ->.
  - unfold named. rewrite Hn. simpl. apply String.eqb_refl.
Qed.

Lemma registered_models_are_listed_witness :
  exists summaries,
    get_available_models
      (snd (join_pool (join_data [("max_clients", JInt 2)]) (mk_state [P4; P2] 4)))
    = Reply (JList (map summary_json summaries)) 200
    /\ In (JStr "A:tag") (map name summaries).
Proof.
  eassert (join_pool (join_data [("max_clients", JInt 2)]) (mk_state [P4; P2] 4)
           = (Reply _ 201, _)) as H by reflexivity.
  rewrite H. cbn [snd].
  refine (registered_models_are_listed
            (join_data [("max_clients", JInt 2)]) (mk_state [P4; P2] 4) _ _
            [JDict [("name", JStr "A:tag")]] [("name", JStr "A:tag")] "A:tag"
            _ _ H _ _ _ _ _);
    try reflexivity.
  - repeat constructor.
  - split; [simpl; lia|]. split.
    + repeat constructor; simpl; intros Hin;
        repeat (destruct Hin as [Hin|Hin]; try discriminate Hin); exact Hin.
    + repeat constructor; simpl.
      * exists 4. split; [lia | reflexivity].
      * exists 2. split; [lia | reflexivity].
  - repeat constructor. eexists _, _. split; reflexivity.
  - now left.
  - discriminate.
Defined.
